(** * AutoCreatorX: the staged content pipeline of [gemini_complete_prototype.py]

    A shallow embedding of the retry wrapper ([ErrorHandling]), the ad-break
    scheduler ([Utilities.calculate_optimal_ad_breaks]), the trend filter
    ([IntelligenceCore]), the monetization stage ([MonetizationManager]), the
    uploader ([PlatformOperations]) and the orchestrator
    ([AutoCreatorXOrchestrator.run_full_cycle]).

    Conventions of the embedding:
    - Python [int] is [Z]; Python [float] is IEEE binary64, computed with the
      specification floats of the Standard Library ([SpecFloat], precision 53,
      [emax] 1024);
    - Python [str] is [string] (8-bit characters; [str.lower] acts on [A-Z]);
    - a raised exception is the [Raise] case of [result]; code that reads the
      random module or mutates objects threads its state explicitly;
    - [random] is an arbitrary stream of integers read through a cursor. *)

From Stdlib Require Import ZArith List String Ascii Bool Lia SpecFloat.
From stdpp Require Import base option list sorting gmap strings pretty.

Local Open Scope string_scope.
Local Open Scope list_scope.
Local Open Scope Z_scope.

(** ** Exceptions and results *)

Inductive exn : Type :=
| TypeError (msg : string)
| ValueError (msg : string)
| KeyError (key : string)
| IndexError (msg : string)
| ZeroDivisionError
| OverflowError (msg : string)
| ExternalError (what : string).

(** [ExternalError what] is an exception of any other class, raised by a
    collaborator; [what] is its text [str(e)]. *)

Inductive result (A : Type) : Type :=
| Ok (a : A)
| Raise (e : exn).

Arguments Ok {A} a.
Arguments Raise {A} e.

(** The error of [s in None]. *)
Definition none_type_error : exn :=
  TypeError "argument of type 'NoneType' is not iterable".

Definition is_ok {A} (r : result A) : bool :=
  match r with Ok _ => true | Raise _ => false end.

Definition rbind {A B} (r : result A) (k : A -> result B) : result B :=
  match r with
  | Ok a => k a
  | Raise e => Raise e
  end.

(** State-and-exception monad: a raised exception keeps the state reached. *)
Definition M (S A : Type) : Type := S -> result A * S.

Definition ret {S A} (a : A) : M S A := fun s => (Ok a, s).
Definition throw {S A} (e : exn) : M S A := fun s => (Raise e, s).
Definition bind {S A B} (m : M S A) (k : A -> M S B) : M S B :=
  fun s => match m s with
           | (Ok a, s') => k a s'
           | (Raise e, s') => (Raise e, s')
           end.
Definition lift_result {S A} (r : result A) : M S A := fun s => (r, s).

Notation "x <- m ;; k" := (bind m (fun x => k))
  (at level 100, m at next level, right associativity).

(** ** Strings *)

Module PyStr.

Definition lower_ascii (c : ascii) : ascii :=
  let n := nat_of_ascii c in
  if ((65 <=? n)%nat && (n <=? 90)%nat)%bool then ascii_of_nat (n + 32) else c.

(** [str.lower()] *)
Fixpoint lower (s : string) : string :=
  match s with
  | EmptyString => EmptyString
  | String c s' => String (lower_ascii c) (lower s')
  end.

(** [needle in hay] for two strings *)
Fixpoint contains (needle hay : string) : bool :=
  String.prefix needle hay
  || match hay with
     | EmptyString => false
     | String _ hay' => contains needle hay'
     end.

(** [repr(s)] of a [str]: single quotes unless the string holds a single
    quote and no double quote; the quote, the backslash, the control
    characters and the code points that are not printable are escaped. *)
Definition double_quote : ascii := ascii_of_nat 34.
Definition backslash : ascii := ascii_of_nat 92.

Definition hex_digit (n : nat) : ascii :=
  if (n <? 10)%nat then ascii_of_nat (48 + n) else ascii_of_nat (87 + n).

(** [str.isprintable()] of one code point below 256 *)
Definition is_printable (c : ascii) : bool :=
  let n := nat_of_ascii c in
  ((32 <=? n)%nat && (n <=? 126)%nat) || ((161 <=? n)%nat && negb (n =? 173)%nat).

Definition escape_char (quote c : ascii) : string :=
  let n := nat_of_ascii c in
  if Ascii.eqb c quote || Ascii.eqb c backslash then String backslash (String c EmptyString)
  else if (n =? 9)%nat then String backslash "t"
  else if (n =? 10)%nat then String backslash "n"
  else if (n =? 13)%nat then String backslash "r"
  else if is_printable c then String c EmptyString
  else String backslash
         (String "x" (String (hex_digit (n / 16)) (String (hex_digit (n mod 16)) EmptyString))).

Fixpoint escape (quote : ascii) (s : string) : string :=
  match s with
  | EmptyString => EmptyString
  | String c s' => escape_char quote c +:+ escape quote s'
  end.

Definition repr (s : string) : string :=
  let quote :=
    if contains "'" s && negb (contains (String double_quote EmptyString) s)
    then double_quote else "'"%char in
  String quote (escape quote s +:+ String quote EmptyString).

End PyStr.

(** ** Floats (IEEE binary64) *)

Module PyFloat.

Definition float := spec_float.

Definition prec : Z := 53.
Definition emax : Z := 1024.

Definition fmul : float -> float -> float := SFmul prec emax.
Definition fdiv : float -> float -> float := SFdiv prec emax.
Definition fadd : float -> float -> float := SFadd prec emax.
Definition fsub : float -> float -> float := SFsub prec emax.
Definition fneg : float -> float := SFopp.
Definition fabs : float -> float := SFabs.
(** [a < b] *)
Definition flt (a b : float) : bool := SFltb a b.
(** [a > b] *)
Definition fgt (a b : float) : bool := SFltb b a.

(** The nearest double of an integer (round half to even), without the
    overflow check. *)
Definition of_Z_rounded (z : Z) : float := binary_normalize prec emax z 0 false.

(** Conversion of an [int] operand in mixed arithmetic: [OverflowError]
    when the integer is too large for a double. *)
Definition of_int (z : Z) : result float :=
  match of_Z_rounded z with
  | S754_infinity _ => Raise (OverflowError "int too large to convert to float")
  | f => Ok f
  end.

(** [int(x)]: truncation toward zero. *)
Definition to_int (x : float) : result Z :=
  match x with
  | S754_zero _ => Ok 0
  | S754_infinity _ => Raise (OverflowError "cannot convert float infinity to integer")
  | S754_nan => Raise (ValueError "cannot convert float NaN to integer")
  | S754_finite s m e =>
      let mag := match e with
                 | Zneg p => Z.shiftr (Zpos m) (Zpos p)
                 | _ => Z.shiftl (Zpos m) e
                 end in
      Ok (if s then - mag else mag)
  end.

(** A decimal literal [num/den]: the correctly rounded quotient of two
    exactly representable integers is the double nearest to the decimal. *)
Definition literal (num den : Z) : float :=
  fdiv (of_Z_rounded num) (of_Z_rounded den).

Definition f0_25 : float := literal 25 100.
Definition f0_35 : float := literal 35 100.
Definition f0_60 : float := literal 60 100.
Definition f0_70 : float := literal 70 100.
Definition f0_80 : float := literal 80 100.
Definition f0_90 : float := literal 90 100.

(** [int(n * x)] for an [int] n and a [float] x. *)
Definition int_of_scaled (n : Z) (x : float) : result Z :=
  rbind (of_int n) (fun f => to_int (fmul f x)).

End PyFloat.

(** ** The random module *)

Record rng : Type := mkRng { draws : nat -> Z; cursor : nat }.

Definition next_draw (g : rng) : Z * rng :=
  (draws g (cursor g), mkRng (draws g) (S (cursor g))).

(** [random.randint(lo, hi)]: a value of [[lo, hi]], [ValueError] on an empty
    range. *)
Definition randint (lo hi : Z) : M rng Z :=
  fun g =>
    if hi <? lo then
      (Raise (ValueError ("empty range for randrange() (" +:+ pretty lo +:+ ", "
                          +:+ pretty (hi + 1) +:+ ", " +:+ pretty (hi + 1 - lo)
                          +:+ ")")), g)
    else let '(r, g') := next_draw g in (Ok (lo + r mod (hi - lo + 1)), g').

(** ** Utilities.calculate_optimal_ad_breaks *)

Module Utilities.

(** The [script_structure] hint: a dict that may hold a list of sections. *)
Record script_structure_t : Type :=
  { sections : option (list string) }.

(** [int(video_duration_seconds * x)] *)
Definition band_edge (video_duration_seconds : Z) (x : PyFloat.float) : M rng Z :=
  lift_result (PyFloat.int_of_scaled video_duration_seconds x).

(** The [while current_time < (video_duration_seconds - 60)] loop of the
    "manual_timed" strategy. *)
Fixpoint manual_timed_loop (fuel : nat) (video_duration_seconds interval current_time : Z)
    (breaks : list Z) : list Z :=
  match fuel with
  | O => breaks
  | S fuel' =>
      if current_time <? video_duration_seconds - 60
      then manual_timed_loop fuel' video_duration_seconds interval
             (current_time + interval) (breaks ++ [current_time])
      else breaks
  end.

(** One iteration of the clean-up loop over [unique_sorted_breaks]; the
    state is [(final_breaks, last_break_time)]. *)
Definition clean_up_step (video_duration_seconds : Z) (st : list Z * Z) (b_time : Z)
    : list Z * Z :=
  let '(final_breaks, last_break_time) := st in
  let min_spacing := 120 in
  if (60 <? b_time) && (b_time <? video_duration_seconds - 60)
     && (min_spacing <=? b_time - last_break_time)
  then (final_breaks ++ [b_time], b_time)
  else (final_breaks, last_break_time).

(** [sorted(list(set(breaks)))] *)
Definition unique_sorted (breaks : list Z) : list Z :=
  merge_sort Z.le (remove_dups breaks).

(** The clean-up block: [if breaks: ...]. *)
Definition clean_up (video_duration_seconds : Z) (breaks : list Z) : list Z :=
  match breaks with
  | [] => breaks
  | _ :: _ =>
      let unique_sorted_breaks := unique_sorted breaks in
      fst (fold_left (clean_up_step video_duration_seconds) unique_sorted_breaks ([], 0))
  end.

Definition ai_optimized_breaks (video_duration_seconds : Z) : M rng (list Z) :=
  let breaks : list Z := [] in
  breaks <-
    (if 300 <=? video_duration_seconds then
       lo <- band_edge video_duration_seconds PyFloat.f0_25 ;;
       hi <- band_edge video_duration_seconds PyFloat.f0_35 ;;
       b <- randint lo hi ;;
       ret (breaks ++ [b])
     else ret breaks) ;;
  breaks <-
    (if 600 <=? video_duration_seconds then
       lo <- band_edge video_duration_seconds PyFloat.f0_60 ;;
       hi <- band_edge video_duration_seconds PyFloat.f0_70 ;;
       b <- randint lo hi ;;
       ret (breaks ++ [b])
     else ret breaks) ;;
  (if 900 <=? video_duration_seconds then
     lo <- band_edge video_duration_seconds PyFloat.f0_80 ;;
     hi <- band_edge video_duration_seconds PyFloat.f0_90 ;;
     potential_third_break <- randint lo hi ;;
     match last breaks with
     | Some last_break =>
         if last_break + 120 <? potential_third_break
         then ret (breaks ++ [potential_third_break])
         else ret breaks
     | None => ret breaks
     end
   else ret breaks).

Definition manual_timed_breaks (video_duration_seconds : Z) : M rng (list Z) :=
  interval <- randint 300 420 ;;
  ret (manual_timed_loop (Z.to_nat video_duration_seconds) video_duration_seconds
         interval interval []).

Definition calculate_optimal_ad_breaks (video_duration_seconds : Z) (strategy : string)
    (script_structure : option script_structure_t) : M rng (list Z) :=
  let breaks : list Z := [] in
  let min_video_duration_for_midroll_ads := 60 * 8 in
  if video_duration_seconds <? min_video_duration_for_midroll_ads then ret breaks
  else
    let normalized_strategy := PyStr.lower strategy in
    if PyStr.contains "ai_optimized" normalized_strategy
       || PyStr.contains "auto_optimized" normalized_strategy
    then
      (* the structure hint is only logged *)
      breaks <- ai_optimized_breaks video_duration_seconds ;;
      ret (clean_up video_duration_seconds breaks)
    else if PyStr.contains "manual_timed" normalized_strategy then
      breaks <- manual_timed_breaks video_duration_seconds ;;
      ret (clean_up video_duration_seconds breaks)
    else ret [].

End Utilities.

(** ** Utilities.slugify

    Characters are read as code points 0 to 255. The regular expression
    class [\s] holds the code points 9 to 13, 28 to 32, 133 and 160 there;
    every character above 127 is removed by the third step, so the case
    mapping of those characters does not show in the result. *)

Module Slug.

Definition is_space (c : ascii) : bool :=
  existsb (Nat.eqb (nat_of_ascii c)) [9; 10; 11; 12; 13; 28; 29; 30; 31; 32; 133; 160]%nat.

Definition is_underscore (c : ascii) : bool := Nat.eqb (nat_of_ascii c) 95.

(** The class [[a-z0-9_\-\.]] *)
Definition is_slug_char (c : ascii) : bool :=
  let n := nat_of_ascii c in
  ((97 <=? n)%nat && (n <=? 122)%nat) || ((48 <=? n)%nat && (n <=? 57)%nat)
  || Nat.eqb n 95 || Nat.eqb n 45 || Nat.eqb n 46.

(** The characters of [strip('_-.')] *)
Definition is_edge_char (c : ascii) : bool :=
  let n := nat_of_ascii c in Nat.eqb n 95 || Nat.eqb n 45 || Nat.eqb n 46.

(** [re.sub(r'\s+', '_', text)]; [in_run] tells that the previous character
    was white space. *)
Fixpoint whitespace_to_underscore (in_run : bool) (text : string) : string :=
  match text with
  | EmptyString => EmptyString
  | String c rest =>
      if is_space c then
        if in_run then whitespace_to_underscore true rest
        else String "_" (whitespace_to_underscore true rest)
      else String c (whitespace_to_underscore false rest)
  end.

(** [re.sub(r'[^a-z0-9_\-\.]', '', text)] *)
Fixpoint keep_slug_chars (text : string) : string :=
  match text with
  | EmptyString => EmptyString
  | String c rest =>
      if is_slug_char c then String c (keep_slug_chars rest) else keep_slug_chars rest
  end.

(** [re.sub(r'_+', '_', text)] *)
Fixpoint collapse_underscores (in_run : bool) (text : string) : string :=
  match text with
  | EmptyString => EmptyString
  | String c rest =>
      if is_underscore c then
        if in_run then collapse_underscores true rest
        else String c (collapse_underscores true rest)
      else String c (collapse_underscores false rest)
  end.

Fixpoint lstrip_edges (text : string) : string :=
  match text with
  | EmptyString => EmptyString
  | String c rest => if is_edge_char c then lstrip_edges rest else text
  end.

Fixpoint rstrip_edges (text : string) : string :=
  match text with
  | EmptyString => EmptyString
  | String c rest =>
      match rstrip_edges rest with
      | EmptyString => if is_edge_char c then EmptyString else String c EmptyString
      | stripped => String c stripped
      end
  end.

(** [text.strip('_-.')] *)
Definition strip_edges (text : string) : string := rstrip_edges (lstrip_edges text).

Definition slugify (text : string) : string :=
  let text := PyStr.lower text in
  let text := whitespace_to_underscore false text in
  let text := keep_slug_chars text in
  let text := collapse_underscores false text in
  let text := strip_edges text in
  match text with
  | EmptyString => "untitled"
  | _ => text
  end.

(** Every character of a string satisfies a test. *)
Fixpoint all_chars (test : ascii -> bool) (text : string) : bool :=
  match text with
  | EmptyString => true
  | String c rest => test c && all_chars test rest
  end.

Definition first_char (text : string) : option ascii :=
  match text with
  | EmptyString => None
  | String c _ => Some c
  end.

Fixpoint last_char (text : string) : option ascii :=
  match text with
  | EmptyString => None
  | String c EmptyString => Some c
  | String _ rest => last_char rest
  end.

(** A lower-case letter or a digit. *)
Definition is_alnum (c : ascii) : bool := is_slug_char c && negb (is_edge_char c).

(** No two underscores in a row; [after_underscore] tells that the previous
    character was one. *)
Fixpoint no_double_underscore (after_underscore : bool) (text : string) : bool :=
  match text with
  | EmptyString => true
  | String c rest =>
      if is_underscore c then negb after_underscore && no_double_underscore true rest
      else no_double_underscore false rest
  end.

End Slug.

(** ** Configuration ([AutoCreatorXConfig]) *)

(** [trend_analysis]; [sentiment_thresholds] is flattened into its two keys,
    [niche_focus_keywords] is read with [.get(..., [])]. *)
Record trend_analysis_cfg : Type :=
  { ta_enabled : bool;
    primary_sources : list string;
    secondary_sources : list string;
    min_virality_score : Z;
    sentiment_threshold_positive : PyFloat.float;
    sentiment_threshold_negative : PyFloat.float;
    niche_focus_keywords : list string;
    exclude_topics_containing : list string;
    time_series_analysis_enabled : bool }.

(** One entry of [platform_ops]; [monetization] is flattened. *)
Record platform_cfg : Type :=
  { p_enabled : bool;
    p_monetization_enabled : bool;
    p_ad_break_strategy : option string }.

(** [monetization]: the keys read by [apply_monetization_strategies]. *)
Record monetization_cfg : Type :=
  { mon_enabled : bool;
    mon_strategies : list string;
    ad_revenue_optimization_enabled : bool;
    affiliate_marketing_enabled : bool;
    digital_product_promotion_enabled : bool;
    sponsorship_tags_enabled : bool }.

Record config : Type :=
  { error_retry_delay_minutes : Z;
    max_step_retries : Z;
    default_content_style : string;
    trend_analysis : trend_analysis_cfg;
    platform_ops : list (string * platform_cfg);
    failback_mechanisms : gmap string string;
    monetization : monetization_cfg;
    feedback_loop_enabled : bool }.

(** ** Objects and the world *)

Definition loc : Type := nat.

Record sentiment_map : Type :=
  { sm_positive : PyFloat.float; sm_neutral : PyFloat.float; sm_negative : PyFloat.float }.

(** A trend dict: the keys a source provides and the keys the scorer adds. *)
Record trend : Type :=
  { topic_id : string;
    title : string;
    keywords : list string;
    source : string;
    raw_virality : option Z;
    raw_sentiment_score : option PyFloat.float;
    sentiment_analysis : option sentiment_map;
    predicted_longevity_days : option Z;
    final_score : option PyFloat.float }.

(** The value of a key of a metadata variant dict. *)
Inductive vval : Type :=
| VStr (s : string)
| VStrList (l : list string)
| VIntList (l : list Z).

(** A metadata dict: [{"variants": [...], "chosen_variant_index": i}], with
    one nested dict of the same shape per platform name. The variants are
    references to variant dicts. *)
Record metadata : Type :=
  { variants : option (list loc);
    chosen_variant_index : option Z;
    platform_metadata : gmap string loc }.

(** What a key of a metadata dict holds. *)
Inductive dict_value : Type :=
| DVariants (vs : list loc)
| DIndex (i : Z)
| DPlatform (d : loc).

(** [metadata_object.get(key)] *)
Definition metadata_get (m : metadata) (key : string) : option dict_value :=
  if String.eqb key "variants" then DVariants <$> variants m
  else if String.eqb key "chosen_variant_index" then DIndex <$> chosen_variant_index m
  else DPlatform <$> platform_metadata m !! key.

Record script : Type :=
  { title_suggestion : option string;
    narration_text : option string;
    estimated_duration_minutes : option Z;
    call_to_action : option string;
    structure : option Utilities.script_structure_t;
    mood_tags : option (list string) }.

(** The events of a run that the trace keeps: the step banners of
    [run_full_cycle], the attempts of the trend-source loop, the sleeps and
    the final report of [handle_step_error], the error reported after the
    uploads, and the critical record of a failed directory creation. The
    trace is a selection, not the log of the program: the other calls of the
    loggers (the records of the filter, of the monetization strategies and
    of the collaborators among them) are not kept, so a trace that did not
    grow does not tell that nothing was logged. *)
Inductive event : Type :=
| EvStep (banner : string)
| EvAttempt (source_api_name : string) (attempt : positive)
| EvSleep (seconds : Z)
| EvPermanentFailure (step_name : string)
| EvError (message : string)
| EvCritical (message : string).

(** The state a run threads: the random stream, the objects (one store per
    kind of dict, [w_next] the next fresh reference) and the event log. *)
Record world : Type :=
  { w_rng : rng;
    w_trends : loc -> trend;
    w_scripts : loc -> script;
    w_metadata : loc -> metadata;
    w_variants : loc -> gmap string vval;
    w_next : loc;
    w_trace : list event }.

Definition set_rng (g : rng) (w : world) : world :=
  {| w_rng := g; w_trends := w_trends w; w_scripts := w_scripts w;
     w_metadata := w_metadata w; w_variants := w_variants w;
     w_next := w_next w; w_trace := w_trace w |}.

Definition upd {A} (f : loc -> A) (l : loc) (a : A) : loc -> A :=
  fun l' => if Nat.eqb l' l then a else f l'.

Definition set_trend (l : loc) (t : trend) (w : world) : world :=
  {| w_rng := w_rng w; w_trends := upd (w_trends w) l t; w_scripts := w_scripts w;
     w_metadata := w_metadata w; w_variants := w_variants w;
     w_next := w_next w; w_trace := w_trace w |}.

Definition set_variant (l : loc) (v : gmap string vval) (w : world) : world :=
  {| w_rng := w_rng w; w_trends := w_trends w; w_scripts := w_scripts w;
     w_metadata := w_metadata w; w_variants := upd (w_variants w) l v;
     w_next := w_next w; w_trace := w_trace w |}.

Definition log_event (e : event) : M world unit :=
  fun w => (Ok tt,
            {| w_rng := w_rng w; w_trends := w_trends w; w_scripts := w_scripts w;
               w_metadata := w_metadata w; w_variants := w_variants w;
               w_next := w_next w; w_trace := w_trace w ++ [e] |}).

(** Runs a computation on the random stream inside the world. *)
Definition with_rng {A} (m : M rng A) : M world A :=
  fun w => let '(r, g) := m (w_rng w) in (r, set_rng g w).

Definition read_trend (l : loc) : M world trend := fun w => (Ok (w_trends w l), w).
Definition write_trend (l : loc) (t : trend) : M world unit :=
  fun w => (Ok tt, set_trend l t w).

(** A new trend dict. *)
Definition alloc_trend (t : trend) : M world loc :=
  fun w => (Ok (w_next w),
            {| w_rng := w_rng w; w_trends := upd (w_trends w) (w_next w) t;
               w_scripts := w_scripts w; w_metadata := w_metadata w;
               w_variants := w_variants w; w_next := S (w_next w);
               w_trace := w_trace w |}).

(** [script_object.copy()] *)
Definition copy_script (l : loc) : M world loc :=
  fun w => (Ok (w_next w),
            {| w_rng := w_rng w; w_trends := w_trends w;
               w_scripts := upd (w_scripts w) (w_next w) (w_scripts w l);
               w_metadata := w_metadata w; w_variants := w_variants w;
               w_next := S (w_next w); w_trace := w_trace w |}).

(** [metadata_object.copy()]: shallow, the nested dicts stay shared. *)
Definition copy_metadata (l : loc) : M world loc :=
  fun w => (Ok (w_next w),
            {| w_rng := w_rng w; w_trends := w_trends w; w_scripts := w_scripts w;
               w_metadata := upd (w_metadata w) (w_next w) (w_metadata w l);
               w_variants := w_variants w; w_next := S (w_next w);
               w_trace := w_trace w |}).

(** [try: body except Exception as e: handler(e)] *)
Definition try_except {S A} (body : M S A) (handler : exn -> M S A) : M S A :=
  fun s => match body s with
           | (Ok a, s') => (Ok a, s')
           | (Raise e, s') => handler e s'
           end.

(** The largest number of seconds whose nanoseconds fit in 64 bits. *)
Definition max_sleep_seconds : Z := 9223372036.

(** [time.sleep(seconds)] for an [int] (CPython 3.11): the length is
    converted to nanoseconds in 64 bits, with [OverflowError] when it does
    not fit, and a negative length is a [ValueError]. The clock of the
    operating system is not part of the model: a length so close to
    [max_sleep_seconds] that the deadline passes the end of that clock, which
    the system call refuses, is taken as slept. *)
Definition sleep (seconds : Z) : M world unit :=
  if (seconds <? - max_sleep_seconds) || (max_sleep_seconds <? seconds) then
    throw (OverflowError "timestamp too large to convert to C _PyTime_t")
  else if seconds <? 0 then throw (ValueError "sleep length must be non-negative")
  else log_event (EvSleep seconds).

(** A length that no clock refuses: [2 ^ 32] seconds. *)
Definition long_sleep_seconds : Z := 4294967296.

(** ** ErrorHandling *)

Module ErrorHandling.

(** [attempt] counts from 1, so the exponent [attempt - 1] is never
    negative. *)
Definition handle_step_error (step_name : string) (error : exn) (attempt : positive)
    (max_retries retry_delay_minutes : Z) (failback_strategy : option string)
    : M world bool :=
  if Zpos attempt <? max_retries then
    let actual_delay_seconds := retry_delay_minutes * 60 * 2 ^ (Zpos attempt - 1) in
    _ <- sleep actual_delay_seconds ;;
    ret true
  else
    _ <- log_event (EvPermanentFailure step_name) ;;
    ret false.

(** The dict a simulated failback returns. *)
Record failback_result : Type :=
  { fb_status : string; fb_data : string }.

(** [name == s], where [name] may be [None] *)
Definition name_is (name : option string) (s : string) : result bool :=
  Ok match name with
     | Some n => String.eqb n s
     | None => false
     end.

(** [s in name]: a [TypeError] when [name] is [None] *)
Definition name_has (s : string) (name : option string) : result bool :=
  match name with
  | Some n => Ok (PyStr.contains s n)
  | None => Raise none_type_error
  end.

(** [a or b or ...], left to right, stopping at the first true operand or
    the first exception. *)
Fixpoint py_or (operands : list (result bool)) : result bool :=
  match operands with
  | [] => Ok false
  | Ok true :: _ => Ok true
  | Ok false :: rest => py_or rest
  | Raise e :: _ => Raise e
  end.

Definition handle_api_error (api_name : string) (error : exn)
    (failback_config_key : string) (cfg : config) : result (option failback_result) :=
  let failback_strategy_name := failback_mechanisms cfg !! failback_config_key in
  rbind (py_or [name_is failback_strategy_name "try_backup_model_or_provider";
                name_has "try_backup_model_then_simpler_model" failback_strategy_name])
    (fun backup =>
  if backup then
    Ok (Some {| fb_status := "success_via_failback";
                fb_data := "simulated_response_from_backup_model_for_" +:+ api_name |})
  else
  rbind (py_or [name_is failback_strategy_name "use_cached_or_fallback_data";
                name_has "use_cached_or_fallback_topics" failback_strategy_name;
                name_has "use_internal_library_only" failback_strategy_name;
                name_has "use_internal_library_then_lower_quality_stock" failback_strategy_name;
                name_has "use_fallback_voice_then_standard_os_tts" failback_strategy_name])
    (fun cached =>
  if cached then
    Ok (Some {| fb_status := "success_via_failback";
                fb_data := "simulated_cached_or_fallback_data_for_" +:+ api_name |})
  else
  rbind (name_is failback_strategy_name "skip_step") (fun skip =>
  if skip then Ok None
  else
  rbind (name_is failback_strategy_name "use_simpler_template_or_local_ffmpeg_basic")
    (fun simpler =>
  if simpler then
    Ok (Some {| fb_status := "success_via_failback";
                fb_data := "simulated_output_from_simpler_process_for_" +:+ api_name |})
  else Raise error)))).

End ErrorHandling.

(** [l[i]] with Python's negative indices *)
Definition py_index {A} (l : list A) (i : Z) : result A :=
  let n := Z.of_nat (length l) in
  let j := if i <? 0 then i + n else i in
  if (j <? 0) || (n <=? j) then Raise (IndexError "list index out of range")
  else match nth_error l (Z.to_nat j) with
       | Some a => Ok a
       | None => Raise (IndexError "list index out of range")
       end.

(** [k in l] for a list of strings *)
Definition in_list (k : string) (l : list string) : bool :=
  existsb (String.eqb k) l.

(** [d.get(k)] on an insertion-ordered dict kept as an association list *)
Fixpoint dict_get {A} (d : list (string * A)) (k : string) : option A :=
  match d with
  | [] => None
  | (k', a) :: d' => if String.eqb k' k then Some a else dict_get d' k
  end.

(** [d[k] = a] *)
Fixpoint dict_set {A} (d : list (string * A)) (k : string) (a : A) : list (string * A) :=
  match d with
  | [] => [(k, a)]
  | (k', a') :: d' => if String.eqb k' k then (k, a) :: d' else (k', a') :: dict_set d' k a
  end.

(** The topic a cycle works on: one of the two built-in fallback dicts or a
    scored trend. *)
Inductive topic : Type :=
| FallbackTopic (topic_id title : string) (keywords : list string) (source : string)
    (virality_score : Z) (sentiment : list (string * PyFloat.float))
| SelectedTrend (l : loc).

(** The status dict recorded per platform by the uploader. *)
Record upload_status : Type :=
  { status : string;
    video_id : option string;
    platform_url : option string;
    error : option string }.

(** The metric values are opaque to the orchestrator. *)
Definition metrics : Type := list (string * Z).

(** ** External collaborators

    The trend sources, the generators, the media producer, the platform
    clients, the analytics source and the anti-detection helpers are reached
    through these operations; each may use the random stream, touch the
    objects, log, and raise. [fetch_trends] is the body of the [try] of the
    trend-source loop and [platform_upload] the client call of the [try] of
    the uploader; [write_upload_report] is the [open] and the [json.dump] of
    the upload report, given the path of the file below the project
    directory, and raises when the directory of the file does not exist. The
    three text-rewriting monetization helpers are reached the same way. *)
Record collaborators : Type :=
  { create_project_directories : M world unit;
    fetch_trends : string -> positive -> M world (list trend);
    generate_script_and_metadata : topic -> string -> M world (option (loc * loc));
    generate_voiceover : string -> M world (option string);
    procure_visual_assets : loc -> M world (list string);
    select_background_music : list string -> Z -> M world (option string);
    compose_video : loc -> string -> list string -> option string -> M world (option string);
    generate_thumbnail : string -> loc -> list string -> M world (option string);
    simulate_human_like_delay : string -> M world unit;
    upload_credentials : string -> M world unit;
    platform_upload : string -> M world string;
    write_upload_report : string -> list (string * upload_status) -> M world unit;
    collect_and_analyze_performance :
      list (string * upload_status) -> M world (option (list (string * list (string * metrics))));
    track_revenue : string -> string -> metrics -> M world unit;
    _incorporate_affiliate_links : loc -> loc -> string -> string -> M world (loc * loc);
    _incorporate_digital_product_promotion : loc -> loc -> string -> M world (loc * loc);
    _apply_sponsorship_tags : loc -> string -> M world loc }.

(** ** MonetizationManager *)

Module MonetizationManager.

(** [target_platform in metadata and "variants" in metadata[target_platform]] *)
Definition platform_variants_present (w : world) (md : metadata) (target_platform : string)
    : result bool :=
  match metadata_get md target_platform with
  | None => Ok false
  | Some (DVariants _) => Ok false
  | Some (DIndex _) => Raise (TypeError "argument of type 'int' is not iterable")
  | Some (DPlatform d) => Ok (bool_decide (is_Some (variants (w_metadata w d))))
  end.

(** [d["variants"][chosen_idx]] under the guard [chosen_idx < len(d["variants"])] *)
Definition chosen_variant (d : metadata) : result (option loc) :=
  match variants d with
  | None => Raise (KeyError "variants")
  | Some vs =>
      let chosen_idx := default 0 (chosen_variant_index d) in
      if chosen_idx <? Z.of_nat (length vs)
      then rbind (py_index vs chosen_idx) (fun v => Ok (Some v))
      else Ok None
  end.

(** The search for [meta_to_update]. *)
Definition find_meta_to_update (w : world) (modified_metadata : loc) (target_platform : string)
    : result (option loc) :=
  let md := w_metadata w modified_metadata in
  rbind (platform_variants_present w md target_platform) (fun present =>
  if present then
    match platform_metadata md !! target_platform with
    | Some d => chosen_variant (w_metadata w d)
    | None => Raise (KeyError target_platform)
    end
  else if bool_decide (is_Some (variants md)) then chosen_variant md
  else Ok None).

(** Strategy 1: ad breaks written into the chosen metadata variant. *)
Definition ad_revenue_strategy (cfg : config) (script_object modified_metadata : loc)
    (video_duration_seconds : Z) (target_platform : string) : M world unit :=
  let platform_ad_config := dict_get (platform_ops cfg) target_platform in
  let platform_ad_break_strategy :=
    match platform_ad_config with
    | Some pc => p_ad_break_strategy pc
    | None => None
    end in
  let platform_ad_enabled :=
    match platform_ad_config with
    | Some pc => p_monetization_enabled pc
    | None => false
    end in
  match platform_ad_break_strategy with
  | Some strategy =>
      if platform_ad_enabled && negb (String.eqb strategy EmptyString) then
        fun w =>
          let hint := structure (w_scripts w script_object) in
          (ad_breaks_timestamps <-
             with_rng (Utilities.calculate_optimal_ad_breaks
                         video_duration_seconds strategy hint) ;;
           match ad_breaks_timestamps with
           | [] => ret tt
           | _ :: _ =>
               fun w' =>
                 match find_meta_to_update w' modified_metadata target_platform with
                 | Raise e => (Raise e, w')
                 | Ok None => (Ok tt, w')
                 | Ok (Some v) =>
                     let meta_to_update := w_variants w' v in
                     if bool_decide (meta_to_update = ∅) then (Ok tt, w')
                     else (Ok tt,
                           set_variant v
                             (<["ad_breaks_timestamps_seconds" := VIntList ad_breaks_timestamps]>
                                meta_to_update) w')
                 end
           end) w
      else ret tt
  | None => ret tt
  end.

Definition apply_monetization_strategies (cfg : config) (ext : collaborators)
    (script_object metadata_object : loc) (video_duration_seconds : Z)
    (topic_title target_platform : string) : M world (loc * loc) :=
  let config_monetization := monetization cfg in
  if negb (mon_enabled config_monetization) then
    ret (script_object, metadata_object)
  else
    modified_script <- copy_script script_object ;;
    modified_metadata <- copy_metadata metadata_object ;;
    _ <- (if in_list "ad_revenue" (mon_strategies config_monetization)
             && ad_revenue_optimization_enabled config_monetization
          then ad_revenue_strategy cfg script_object modified_metadata
                 video_duration_seconds target_platform
          else ret tt) ;;
    p <- (if in_list "affiliate_marketing" (mon_strategies config_monetization)
             && affiliate_marketing_enabled config_monetization
          then _incorporate_affiliate_links ext modified_script modified_metadata
                 topic_title target_platform
          else ret (modified_script, modified_metadata)) ;;
    p <- (if in_list "digital_product_promotion" (mon_strategies config_monetization)
             && digital_product_promotion_enabled config_monetization
          then _incorporate_digital_product_promotion ext (fst p) (snd p) target_platform
          else ret p) ;;
    modified_metadata <-
      (if in_list "sponsorship_tags" (mon_strategies config_monetization)
          && sponsorship_tags_enabled config_monetization
       then _apply_sponsorship_tags ext (snd p) target_platform
       else ret (snd p)) ;;
    ret (fst p, modified_metadata).

End MonetizationManager.

(** ** IntelligenceCore *)

Module IntelligenceCore.

Definition fzero : PyFloat.float := S754_zero false.
Definition fone : PyFloat.float := PyFloat.of_Z_rounded 1.

(** [max(a, b)] on floats: [b] only when [b > a] *)
Definition fmax (a b : PyFloat.float) : PyFloat.float :=
  if PyFloat.fgt b a then b else a.

Definition is_zero (x : PyFloat.float) : bool :=
  match x with S754_zero _ => true | _ => false end.

(** The sentiment block of the scorer. *)
Definition classify_sentiment (cfg_trend : trend_analysis_cfg) (raw_sentiment : PyFloat.float)
    : result sentiment_map :=
  let sentiment_map := {| sm_positive := fzero; sm_neutral := fzero; sm_negative := fzero |} in
  if PyFloat.fgt raw_sentiment (sentiment_threshold_positive cfg_trend) then
    Ok {| sm_positive := raw_sentiment;
          sm_neutral := sm_neutral sentiment_map;
          sm_negative := sm_negative sentiment_map |}
  else if PyFloat.flt raw_sentiment (PyFloat.fneg (sentiment_threshold_negative cfg_trend)) then
    Ok {| sm_positive := sm_positive sentiment_map;
          sm_neutral := sm_neutral sentiment_map;
          sm_negative := PyFloat.fabs raw_sentiment |}
  else
    let divisor := fmax (sentiment_threshold_positive cfg_trend)
                        (sentiment_threshold_negative cfg_trend) in
    if is_zero divisor then Raise ZeroDivisionError
    else
      Ok {| sm_positive := sm_positive sentiment_map;
            sm_neutral := PyFloat.fsub fone
                            (PyFloat.fdiv (PyFloat.fabs raw_sentiment) divisor);
            sm_negative := sm_negative sentiment_map |}.

(** [virality_score * (1 + positive - negative)] *)
Definition base_score (virality_score : Z) (sm : sentiment_map) : result PyFloat.float :=
  let weight := PyFloat.fsub (PyFloat.fadd fone (sm_positive sm)) (sm_negative sm) in
  rbind (PyFloat.of_int virality_score) (fun v => Ok (PyFloat.fmul v weight)).

Definition with_sentiment_analysis (t : trend) (sm : sentiment_map) : trend :=
  {| topic_id := topic_id t; title := title t; keywords := keywords t; source := source t;
     raw_virality := raw_virality t; raw_sentiment_score := raw_sentiment_score t;
     sentiment_analysis := Some sm;
     predicted_longevity_days := predicted_longevity_days t;
     final_score := final_score t |}.

Definition with_predicted_longevity_days (t : trend) (days : Z) : trend :=
  {| topic_id := topic_id t; title := title t; keywords := keywords t; source := source t;
     raw_virality := raw_virality t; raw_sentiment_score := raw_sentiment_score t;
     sentiment_analysis := sentiment_analysis t;
     predicted_longevity_days := Some days;
     final_score := final_score t |}.

Definition with_final_score (t : trend) (score : PyFloat.float) : trend :=
  {| topic_id := topic_id t; title := title t; keywords := keywords t; source := source t;
     raw_virality := raw_virality t; raw_sentiment_score := raw_sentiment_score t;
     sentiment_analysis := sentiment_analysis t;
     predicted_longevity_days := predicted_longevity_days t;
     final_score := Some score |}.

(** The exclusion test of the loop: [any(ex_word in title_lower ...)]. *)
Definition excluded (exclusions : list string) (title_lower : string) : bool :=
  existsb (fun ex_word => PyStr.contains ex_word title_lower) exclusions.

(** The niche test: [any(niche_kw.lower() in title_lower ...)]. *)
Definition matches_niche (niche_keywords : list string) (title_lower : string) : bool :=
  existsb (fun niche_kw => PyStr.contains (PyStr.lower niche_kw) title_lower) niche_keywords.

(** The scoring part of one iteration, for a trend that passed the filters:
    it writes the sentiment, the longevity and the score into the dict. *)
Definition score_trend (cfg_trend : trend_analysis_cfg) (l : loc) (virality_score : Z)
    : M world unit :=
  trend <- read_trend l ;;
  let raw_sentiment := default fzero (raw_sentiment_score trend) in
  sm <- lift_result (classify_sentiment cfg_trend raw_sentiment) ;;
  _ <- write_trend l (with_sentiment_analysis trend sm) ;;
  if time_series_analysis_enabled cfg_trend then
    days <- with_rng (randint 3 14) ;;
    trend <- read_trend l ;;
    _ <- write_trend l (with_predicted_longevity_days trend days) ;;
    base <- lift_result (base_score virality_score sm) ;;
    trend <- read_trend l ;;
    write_trend l
      (with_final_score trend
         (PyFloat.fmul base
            (PyFloat.fdiv (PyFloat.of_Z_rounded days) (PyFloat.of_Z_rounded 7))))
  else
    base <- lift_result (base_score virality_score sm) ;;
    trend <- read_trend l ;;
    write_trend l (with_final_score trend base).

(** The [for trend in trends] loop; [filtered] is the list built so far. *)
Fixpoint filter_loop (cfg_trend : trend_analysis_cfg) (trends filtered : list loc)
    : M world (list loc) :=
  match trends with
  | [] => ret filtered
  | l :: rest =>
      trend <- read_trend l ;;
      let title_lower := PyStr.lower (title trend) in
      if excluded (exclude_topics_containing cfg_trend) title_lower then
        filter_loop cfg_trend rest filtered
      else if match niche_focus_keywords cfg_trend with [] => false | _ :: _ => true end
              && negb (matches_niche (niche_focus_keywords cfg_trend) title_lower) then
        filter_loop cfg_trend rest filtered
      else
        let virality_score := default 0 (raw_virality trend) in
        if virality_score <? min_virality_score cfg_trend then
          filter_loop cfg_trend rest filtered
        else
          _ <- score_trend cfg_trend l virality_score ;;
          filter_loop cfg_trend rest (filtered ++ [l])
  end.

Definition _filter_and_score_trends (cfg : config) (trends : list loc) : M world (list loc) :=
  filter_loop (trend_analysis cfg) trends [].

(** [max(viable_trends, key=lambda t: t.get("final_score", 0))]: the first
    trend whose key no later key exceeds. *)
Definition score_key (w : world) (l : loc) : PyFloat.float :=
  default fzero (final_score (w_trends w l)).

Fixpoint max_by_score (w : world) (best : loc) (rest : list loc) : loc :=
  match rest with
  | [] => best
  | l :: rest' =>
      if PyFloat.fgt (score_key w l) (score_key w best)
      then max_by_score w l rest'
      else max_by_score w best rest'
  end.

(** [all_potential_trends.extend(trends_from_source)] for freshly built dicts *)
Fixpoint extend_with (all_potential_trends : list loc) (trends_from_source : list trend)
    : M world (list loc) :=
  match trends_from_source with
  | [] => ret all_potential_trends
  | t :: ts =>
      l <- alloc_trend t ;;
      extend_with (all_potential_trends ++ [l]) ts
  end.

(** [config.safety_systems["failback_mechanisms"][key]] *)
Definition failback_strategy_of (cfg : config) (key : string) : M world string :=
  match failback_mechanisms cfg !! key with
  | Some strategy => ret strategy
  | None => throw (KeyError key)
  end.

(** The [while attempt <= max_retries] loop for one source. *)
Fixpoint retry_loop (fuel : nat) (cfg : config) (ext : collaborators)
    (source_api_name : string) (attempt : positive) (all_potential_trends : list loc)
    : M world (list loc) :=
  match fuel with
  | O => ret all_potential_trends
  | S fuel' =>
      let max_retries := max_step_retries cfg in
      let retry_delay := error_retry_delay_minutes cfg in
      if Zpos attempt <=? max_retries then
        fun w =>
          match (_ <- log_event (EvAttempt source_api_name attempt) ;;
                 trends_from_source <- fetch_trends ext source_api_name attempt ;;
                 extend_with all_potential_trends trends_from_source) w with
          | (Ok extended, w') => (Ok extended, w')
          | (Raise e, w') =>
              (strategy <- failback_strategy_of cfg "trend_analysis" ;;
               again <- ErrorHandling.handle_step_error
                          ("TrendSource_" +:+ source_api_name) e attempt max_retries
                          retry_delay (Some strategy) ;;
               if again
               then retry_loop fuel' cfg ext source_api_name (Pos.succ attempt)
                      all_potential_trends
               else ret all_potential_trends) w'
          end
      else ret all_potential_trends
  end.

(** The [for source_api_name in sources] loop. *)
Fixpoint fetch_all (cfg : config) (ext : collaborators) (sources : list string)
    (all_potential_trends : list loc) : M world (list loc) :=
  match sources with
  | [] => ret all_potential_trends
  | source_api_name :: rest =>
      all_potential_trends <-
        retry_loop (Z.to_nat (max_step_retries cfg)) cfg ext source_api_name 1%positive
          all_potential_trends ;;
      fetch_all cfg ext rest all_potential_trends
  end.

Definition fallback_topic_001 : topic :=
  FallbackTopic "fallback_topic_001" "Generic Interesting Topic" ["general"; "interesting"]
    "fallback" 50
    [("positive", PyFloat.literal 5 10); ("neutral", PyFloat.literal 5 10);
     ("negative", fzero)].

Definition fallback_topic_002 : topic :=
  FallbackTopic "fallback_topic_002" "The Future of Everything" ["future"; "technology"]
    "system_fallback" 60 [("positive", PyFloat.literal 6 10)].

Definition analyze_trends_and_select_topic (cfg : config) (ext : collaborators)
    : M world (option topic) :=
  if negb (ta_enabled (trend_analysis cfg)) then ret (Some fallback_topic_001)
  else
    let all_potential_trends : list loc := [] in
    let sources := primary_sources (trend_analysis cfg)
                   ++ secondary_sources (trend_analysis cfg) in
    all_potential_trends <- fetch_all cfg ext sources all_potential_trends ;;
    match all_potential_trends with
    | [] =>
        failback_strategy <- failback_strategy_of cfg "trend_analysis" ;;
        if PyStr.contains "use_cached_or_fallback_topics" failback_strategy
        then ret (Some fallback_topic_002)
        else ret None
    | _ :: _ =>
        viable_trends <- _filter_and_score_trends cfg all_potential_trends ;;
        match viable_trends with
        | [] => ret None
        | first :: others =>
            fun w => (Ok (Some (SelectedTrend (max_by_score w first others))), w)
        end
    end.

End IntelligenceCore.

(** ** PlatformOperations *)

Module PlatformOperations.

(** [str(e)] as stored in a failed status. *)
Definition exn_text (e : exn) : string :=
  match e with
  | TypeError msg | ValueError msg | IndexError msg | OverflowError msg => msg
  | KeyError key => PyStr.repr key
  | ZeroDivisionError => "float division by zero"
  | ExternalError what => what
  end.

(** The selection of [current_metadata] for one platform. The first
    indexing is unguarded; the "safety net" branch can only be reached
    after it succeeded, so a non-empty [variants] list is present and the
    branch keeps [current_metadata]. *)
Definition current_metadata_of (w : world) (metadata_object : loc) (platform_name : string)
    : result loc :=
  let md := w_metadata w metadata_object in
  let chosen_meta_variant_index := default 0 (chosen_variant_index md) in
  rbind (py_index (default [] (variants md)) chosen_meta_variant_index)
    (fun current_metadata =>
  rbind (MonetizationManager.platform_variants_present w md platform_name) (fun present =>
  if present then
    match platform_metadata md !! platform_name with
    | Some d =>
        let pd := w_metadata w d in
        match variants pd with
        | Some vs => py_index vs (default 0 (chosen_variant_index pd))
        | None => Raise (KeyError "variants")
        end
    | None => Raise (KeyError platform_name)
    end
  else Ok current_metadata)).

(** The [try] of one platform: the client call and the status it records. *)
Definition try_upload (ext : collaborators) (platform_name : string)
    (upload_statuses : list (string * upload_status))
    : M world (list (string * upload_status)) :=
  if String.eqb platform_name "youtube" then
    video_id <- platform_upload ext platform_name ;;
    ret (dict_set upload_statuses platform_name
           {| status := "success"; video_id := Some video_id;
              platform_url := Some ("https://www.youtube.com/watch?v=" +:+ video_id);
              error := None |})
  else if String.eqb platform_name "tiktok" then
    video_id <- platform_upload ext platform_name ;;
    ret (dict_set upload_statuses platform_name
           {| status := "success"; video_id := Some video_id;
              platform_url :=
                Some ("https://www.tiktok.com/@[yourchannel]/video/" +:+ video_id);
              error := None |})
  else
    ret (dict_set upload_statuses platform_name
           {| status := "not_implemented"; video_id := None; platform_url := None;
              error := None |}).

(** The [except Exception as e] of one platform. *)
Definition upload_failed (cfg : config) (platform_name : string)
    (upload_statuses : list (string * upload_status)) (e : exn)
    : M world (list (string * upload_status)) :=
  _ <- lift_result (ErrorHandling.handle_api_error (platform_name +:+ "_upload") e
                      (platform_name +:+ "_upload_failback") cfg) ;;
  ret (dict_set upload_statuses platform_name
         {| status := "failed"; video_id := None; platform_url := None;
            error := Some (exn_text e) |}).

(** The [for platform_name, platform_cfg in self.config.items()] loop. *)
Fixpoint upload_loop (cfg : config) (ext : collaborators) (metadata_object : loc)
    (platforms : list (string * platform_cfg))
    (upload_statuses : list (string * upload_status))
    : M world (list (string * upload_status)) :=
  match platforms with
  | [] => ret upload_statuses
  | (platform_name, platform_cfg) :: rest =>
      if p_enabled platform_cfg then
        _ <- simulate_human_like_delay ext "upload" ;;
        _ <- (fun w => (rbind (current_metadata_of w metadata_object platform_name)
                          (fun _ => Ok tt), w)) ;;
        _ <- upload_credentials ext platform_name ;;
        upload_statuses <-
          try_except (try_upload ext platform_name upload_statuses)
                     (upload_failed cfg platform_name upload_statuses) ;;
        upload_loop cfg ext metadata_object rest upload_statuses
      else upload_loop cfg ext metadata_object rest upload_statuses
  end.

(** The path of the upload report below [current_project_dir]. *)
Definition upload_log_path (w : world) (script_object : loc) : string :=
  "8_platform_uploads/"
  +:+ Slug.slugify (default "untitled" (title_suggestion (w_scripts w script_object)))
  +:+ "_upload_report.json".

Definition upload_content_to_platforms (cfg : config) (ext : collaborators)
    (final_video_path : string) (thumbnail_path : option string)
    (metadata_object script_object : loc) : M world (list (string * upload_status)) :=
  upload_statuses <- upload_loop cfg ext metadata_object (platform_ops cfg) [] ;;
  _ <- (fun w => write_upload_report ext (upload_log_path w script_object)
                   upload_statuses w) ;;
  ret upload_statuses.

End PlatformOperations.

(** ** AutoCreatorXOrchestrator *)

Module AutoCreatorXOrchestrator.

(** The qualified name and the parameters of
    [MonetizationManager.apply_monetization_strategies], [self] first. *)
Definition apply_monetization_strategies_qualname : string :=
  "MonetizationManager.apply_monetization_strategies".

Definition apply_monetization_strategies_parameters : list string :=
  ["self"; "script_object"; "metadata_object"; "video_duration_seconds"; "topic_title";
   "target_platform"].

(** The keyword arguments, in the order of the call: the first one that
    names no parameter, or a parameter that already has a value, ends the
    call. The result is the list of the parameters that have a value. *)
Fixpoint bind_keywords (qualname : string) (parameters filled keyword_names : list string)
    : result (list string) :=
  match keyword_names with
  | [] => Ok filled
  | k :: rest =>
      if negb (in_list k parameters) then
        Raise (TypeError (qualname +:+ "() got an unexpected keyword argument '" +:+ k +:+ "'"))
      else if in_list k filled then
        Raise (TypeError (qualname +:+ "() got multiple values for argument '" +:+ k +:+ "'"))
      else bind_keywords qualname parameters (filled ++ [k]) rest
  end.

(** The names of the missing arguments as the message lists them. *)
Fixpoint missing_names (names : list string) : string :=
  match names with
  | [] => EmptyString
  | [a] => PyStr.repr a
  | [a; b] => PyStr.repr a +:+ " and " +:+ PyStr.repr b
  | [a; b; c] => PyStr.repr a +:+ ", " +:+ PyStr.repr b +:+ ", and " +:+ PyStr.repr c
  | a :: rest => PyStr.repr a +:+ ", " +:+ missing_names rest
  end.

(** The binding of a call's arguments to the parameters of a function
    without defaults, keyword-only parameters, [*args] or [**kwargs]
    (CPython 3.11): [n_positional] positional arguments, the bound object
    among them, followed by the keyword arguments [keyword_names]. The
    keywords are bound first, then the number of positional arguments is
    checked, then the parameters left without a value are reported. *)
Definition bind_arguments (qualname : string) (parameters : list string)
    (n_positional : nat) (keyword_names : list string) : result unit :=
  rbind (bind_keywords qualname parameters (firstn n_positional parameters) keyword_names)
    (fun filled =>
  let n_parameters := length parameters in
  if (n_parameters <? n_positional)%nat then
    Raise (TypeError (qualname +:+ "() takes " +:+ pretty n_parameters
                      +:+ " positional argument"
                      +:+ (if (n_parameters =? 1)%nat then EmptyString else "s")
                      +:+ " but " +:+ pretty n_positional +:+ " "
                      +:+ (if (n_positional =? 1)%nat then "was" else "were")
                      +:+ " given"))
  else
    match List.filter (fun p => negb (in_list p filled)) parameters with
    | [] => Ok tt
    | missing =>
        Raise (TypeError (qualname +:+ "() missing " +:+ pretty (length missing)
                          +:+ " required positional argument"
                          +:+ (if (length missing =? 1)%nat then EmptyString else "s")
                          +:+ ": " +:+ missing_names missing))
    end).

(** [selected_trend.get("title")] *)
Definition topic_title_of (w : world) (t : topic) : string :=
  match t with
  | FallbackTopic _ title _ _ _ _ => title
  | SelectedTrend l => title (w_trends w l)
  end.

(** [selected_trend.get("keywords", ["general"])] *)
Definition topic_keywords_of (w : world) (t : topic) : list string :=
  match t with
  | FallbackTopic _ _ keywords _ _ _ => keywords
  | SelectedTrend l => keywords (w_trends w l)
  end.

(** Truth value of an optional path. *)
Definition truthy (path : option string) : bool :=
  match path with
  | Some p => negb (String.eqb p EmptyString)
  | None => false
  end.

Definition is_success (st : upload_status) : bool := String.eqb (status st) "success".

(** [d[key]] on a script dict for the two keys read without a default. *)
Definition require (key : string) (v : option string) : M world string :=
  match v with
  | Some s => ret s
  | None => throw (KeyError key)
  end.

Fixpoint track_all (ext : collaborators) (platform : string)
    (vids : list (string * metrics)) : M world unit :=
  match vids with
  | [] => ret tt
  | (video_id, m) :: rest =>
      _ <- track_revenue ext platform video_id m ;;
      track_all ext platform rest
  end.

Fixpoint track_summary (ext : collaborators)
    (performance_summary : list (string * list (string * metrics))) : M world unit :=
  match performance_summary with
  | [] => ret tt
  | (platform, vids) :: rest =>
      _ <- track_all ext platform vids ;;
      track_summary ext rest
  end.

Definition upload_error_banner : string :=
  "Failed to upload to any platform. Ending cycle with partial success (content created).".

(** Steps 3 to 5 of [run_full_cycle]. *)
Definition media_upload_feedback (cfg : config) (ext : collaborators)
    (selected_trend : topic) (script_object metadata_object : loc)
    (video_duration_seconds : Z) : M world bool :=
  _ <- log_event (EvStep "STEP 3: Media Production") ;;
  narration_text <- (fun w => require "narration_text"
                                (narration_text (w_scripts w script_object)) w) ;;
  voiceover_path <- generate_voiceover ext narration_text ;;
  if negb (truthy voiceover_path) then ret false
  else
    visual_assets <- procure_visual_assets ext script_object ;;
    music_mood_keywords <-
      (fun w => (Ok (default (topic_keywords_of w selected_trend)
                       (mood_tags (w_scripts w script_object))), w)) ;;
    music_path <- select_background_music ext music_mood_keywords video_duration_seconds ;;
    final_video_path <- compose_video ext script_object (default EmptyString voiceover_path)
                          visual_assets music_path ;;
    if negb (truthy final_video_path) then ret false
    else
      title_suggestion <- (fun w => require "title_suggestion"
                                      (title_suggestion (w_scripts w script_object)) w) ;;
      thumbnail_path <- generate_thumbnail ext title_suggestion script_object visual_assets ;;
      _ <- log_event (EvStep "STEP 4: Platform Upload") ;;
      upload_statuses <-
        PlatformOperations.upload_content_to_platforms cfg ext
          (default EmptyString final_video_path) thumbnail_path metadata_object script_object ;;
      _ <- (if negb (existsb (fun kv => is_success (snd kv)) upload_statuses)
            then log_event (EvError upload_error_banner)
            else ret tt) ;;
      _ <- (if feedback_loop_enabled cfg then
              _ <- log_event (EvStep "STEP 5: Feedback Loop Operations") ;;
              performance_summary <- collect_and_analyze_performance ext upload_statuses ;;
              match performance_summary with
              | Some ((_ :: _) as summary) => track_summary ext summary
              | _ => ret tt
              end
            else ret tt) ;;
      ret true.

Definition run_full_cycle (cfg : config) (ext : collaborators) : M world bool :=
  created <-
    try_except (_ <- create_project_directories ext ;; ret true)
      (fun e =>
         _ <- log_event (EvCritical ("Failed to create project directories. "
                                     +:+ "Cycle cannot continue: "
                                     +:+ PlatformOperations.exn_text e)) ;;
         ret false) ;;
  if negb created then ret false
  else
    _ <- log_event (EvStep "STEP 1: Trend Analysis and Topic Selection") ;;
    selected_trend <- IntelligenceCore.analyze_trends_and_select_topic cfg ext ;;
    match selected_trend with
    | None => ret false
    | Some selected_trend =>
        _ <- log_event (EvStep "STEP 2: Script and Metadata Generation") ;;
        let content_style := default_content_style cfg in
        script_metadata_tuple <- generate_script_and_metadata ext selected_trend content_style ;;
        match script_metadata_tuple with
        | None => ret false
        | Some (script_object, metadata_object) =>
            video_duration_seconds <-
              (fun w => (Ok (default 5 (estimated_duration_minutes
                                          (w_scripts w script_object)) * 60), w)) ;;
            _ <- log_event (EvStep "STEP 2.5: Applying Monetization Strategies") ;;
            topic_title <- (fun w => (Ok (topic_title_of w selected_trend), w)) ;;
            (* apply_monetization_strategies(script_object, metadata_object,
                 video_duration_seconds, selected_trend.get("title"), platform="youtube") *)
            _ <- lift_result (bind_arguments apply_monetization_strategies_qualname
                                apply_monetization_strategies_parameters 5
                                ["platform"]) ;;
            p <- MonetizationManager.apply_monetization_strategies cfg ext script_object
                   metadata_object video_duration_seconds topic_title "youtube" ;;
            media_upload_feedback cfg ext selected_trend (fst p) (snd p)
              video_duration_seconds
        end
    end.

End AutoCreatorXOrchestrator.

(** ** Recursive forms used in the proofs *)

(** The clean-up loop as a recursion on the remaining breaks. *)
Fixpoint greedy_spacing (video_duration_seconds last_break_time : Z) (bs : list Z) : list Z :=
  match bs with
  | [] => []
  | b_time :: rest =>
      if (60 <? b_time) && (b_time <? video_duration_seconds - 60)
         && (120 <=? b_time - last_break_time)
      then b_time :: greedy_spacing video_duration_seconds b_time rest
      else greedy_spacing video_duration_seconds last_break_time rest
  end.

(** Every break is at least 120 after the one before it, the first one at
    least 120 after [prev]. *)
Fixpoint spaced_from (prev : Z) (l : list Z) : Prop :=
  match l with
  | [] => True
  | b :: rest => prev + 120 <= b /\ spaced_from b rest
  end.

(** The trend source fails on every attempt; it may use the random stream and
    the objects, but does not write to the log. *)
Definition always_fails (ext : collaborators) (source_api_name : string) : Prop :=
  forall attempt w, exists e w',
    fetch_trends ext source_api_name attempt w = (Raise e, w')
    /\ w_trace w' = w_trace w.

(** The titles of all trend dicts are the same in two worlds. *)
Definition same_titles (w w' : world) : Prop :=
  forall l, title (w_trends w' l) = title (w_trends w l).

(** The world after one more log entry. *)
Definition logged (e : event) (w : world) : world := snd (log_event e w).

Definition step_1 : event := EvStep "STEP 1: Trend Analysis and Topic Selection".

(** ** Sample data: the default configuration and simple collaborators *)

Module Sample.

Definition default_trend_analysis : trend_analysis_cfg :=
  {| ta_enabled := true;
     primary_sources := ["YouTube_Trending_API"; "Google_Trends_API";
                         "Twitter_Realtime_API"; "Reddit_API_Targeted"];
     secondary_sources := ["News_API_Aggregator"; "Web_Scraper_HighAuthority";
                           "SEO_Keyword_Tools_API"];
     min_virality_score := 70;
     sentiment_threshold_positive := PyFloat.literal 6 10;
     sentiment_threshold_negative := PyFloat.literal 5 10;
     niche_focus_keywords := ["AI breakthroughs"; "Future Tech"; "Space Exploration"];
     exclude_topics_containing := ["controversy"; "scandal"; "politics"; "explicit"];
     time_series_analysis_enabled := true |}.

Definition default_failback_mechanisms : gmap string string :=
  <["trend_analysis" := "use_cached_or_fallback_topics_high_priority"]>
  (<["llm_calls" := "try_backup_model_then_simpler_model"]>
  (<["media_asset_procurement" := "use_internal_library_then_lower_quality_stock"]>
  (<["tts_generation" := "use_fallback_voice_then_standard_os_tts"]>
  (<["video_composition" := "use_simpler_template_or_local_ffmpeg_basic"]> ∅)))).

Definition default_config : config :=
  {| error_retry_delay_minutes := 5;
     max_step_retries := 3;
     default_content_style := "viral_explainer_short";
     trend_analysis := default_trend_analysis;
     platform_ops :=
       [("youtube", {| p_enabled := true; p_monetization_enabled := true;
                       p_ad_break_strategy := Some "ai_optimized_flow" |});
        ("tiktok", {| p_enabled := true; p_monetization_enabled := true;
                      p_ad_break_strategy := None |})];
     failback_mechanisms := default_failback_mechanisms;
     monetization :=
       {| mon_enabled := true;
          mon_strategies := ["ad_revenue"; "affiliate_marketing"; "sponsorship_tags"];
          ad_revenue_optimization_enabled := true;
          affiliate_marketing_enabled := true;
          digital_product_promotion_enabled := false;
          sponsorship_tags_enabled := false |};
     feedback_loop_enabled := true |}.


Definition with_trend_analysis (cfg : config) (ta : trend_analysis_cfg) : config :=
  {| error_retry_delay_minutes := error_retry_delay_minutes cfg;
     max_step_retries := max_step_retries cfg;
     default_content_style := default_content_style cfg;
     trend_analysis := ta;
     platform_ops := platform_ops cfg;
     failback_mechanisms := failback_mechanisms cfg;
     monetization := monetization cfg;
     feedback_loop_enabled := feedback_loop_enabled cfg |}.

Definition with_monetization_disabled (cfg : config) : config :=
  {| error_retry_delay_minutes := error_retry_delay_minutes cfg;
     max_step_retries := max_step_retries cfg;
     default_content_style := default_content_style cfg;
     trend_analysis := trend_analysis cfg;
     platform_ops := platform_ops cfg;
     failback_mechanisms := failback_mechanisms cfg;
     monetization :=
       {| mon_enabled := false;
          mon_strategies := mon_strategies (monetization cfg);
          ad_revenue_optimization_enabled :=
            ad_revenue_optimization_enabled (monetization cfg);
          affiliate_marketing_enabled := affiliate_marketing_enabled (monetization cfg);
          digital_product_promotion_enabled :=
            digital_product_promotion_enabled (monetization cfg);
          sponsorship_tags_enabled := sponsorship_tags_enabled (monetization cfg) |};
     feedback_loop_enabled := feedback_loop_enabled cfg |}.

(** Exclusions written with a capital letter, no niche filter. *)
Definition mixed_case_exclusions : trend_analysis_cfg :=
  {| ta_enabled := true;
     primary_sources := ["YouTube_Trending_API"];
     secondary_sources := [];
     min_virality_score := 70;
     sentiment_threshold_positive := PyFloat.literal 6 10;
     sentiment_threshold_negative := PyFloat.literal 5 10;
     niche_focus_keywords := [];
     exclude_topics_containing := ["Politics"];
     time_series_analysis_enabled := false |}.

Definition a_trend (title : string) (virality : Z) : trend :=
  {| topic_id := "t"; title := title; keywords := ["news"; "update"];
     source := "YouTube_Trending_API"; raw_virality := Some virality;
     raw_sentiment_score := Some (PyFloat.literal 7 10);
     sentiment_analysis := None; predicted_longevity_days := None;
     final_score := None |}.

Definition a_script : script :=
  {| title_suggestion := Some "The Amazing Truth About Future Tech";
     narration_text := Some "Let's dive in.";
     estimated_duration_minutes := Some 11;
     call_to_action := None;
     structure := None;
     mood_tags := None |}.

Definition a_metadata : metadata :=
  {| variants := Some [2%nat]; chosen_variant_index := Some 0; platform_metadata := ∅ |}.

Definition a_variant : gmap string vval :=
  <["title" := VStr "The Amazing Truth About Future Tech - Option 1"]> ∅.

Definition a_stream : rng := mkRng (fun n => Z.of_nat n * 37 + 11) 0.

(** A world with a script at 0, a metadata dict at 1 and a variant at 2. *)
Definition w0 : world :=
  {| w_rng := a_stream;
     w_trends := fun _ => a_trend "Future Tech: a quiet week" 10;
     w_scripts := fun _ => a_script;
     w_metadata := fun _ => a_metadata;
     w_variants := fun _ => a_variant;
     w_next := 3%nat;
     w_trace := [] |}.

(** A world whose trend 0 carries the capitalised excluded word. *)
Definition w_politics : world :=
  {| w_rng := a_stream;
     w_trends := fun _ => a_trend "Politics Today: the new AI bill" 90;
     w_scripts := fun _ => a_script;
     w_metadata := fun _ => a_metadata;
     w_variants := fun _ => a_variant;
     w_next := 3%nat;
     w_trace := [] |}.

(** Six trends under the default trend analysis: 0, 4 and 5 pass the filter,
    1 carries an excluded word, 2 matches no niche keyword and 3 is below the
    minimum virality. *)
Definition six_trends (l : loc) : trend :=
  match l with
  | 0%nat => a_trend "Future Tech: AI breakthroughs in chips" 90
  | 1%nat => a_trend "Celebrity scandal rocks Future Tech" 95
  | 2%nat => a_trend "Gardening tips for spring" 88
  | 3%nat => a_trend "Space Exploration budget" 40
  | 4%nat => a_trend "Space Exploration: a new telescope" 75
  | _ => a_trend "AI breakthroughs explained" 70
  end.

Definition w_six : world :=
  {| w_rng := a_stream;
     w_trends := six_trends;
     w_scripts := fun _ => a_script;
     w_metadata := fun _ => a_metadata;
     w_variants := fun _ => a_variant;
     w_next := 6%nat;
     w_trace := [] |}.

(** The default configuration with a single enabled platform for which the
    uploader has no client. *)
Definition only_vimeo : config :=
  {| error_retry_delay_minutes := 5;
     max_step_retries := 3;
     default_content_style := "viral_explainer_short";
     trend_analysis := default_trend_analysis;
     platform_ops :=
       [("vimeo", {| p_enabled := true; p_monetization_enabled := false;
                     p_ad_break_strategy := None |})];
     failback_mechanisms := default_failback_mechanisms;
     monetization := monetization default_config;
     feedback_loop_enabled := true |}.

(** Collaborators that all succeed; each source yields one trend with the
    given title and virality, and the directory of the upload report
    exists. *)
Definition succeeding (trend_title : string) (virality : Z) : collaborators :=
  {| create_project_directories := ret tt;
     fetch_trends := fun _ _ => ret [a_trend trend_title virality];
     generate_script_and_metadata := fun _ _ => ret (Some (0%nat, 1%nat));
     generate_voiceover := fun _ => ret (Some "5_voiceovers/voice.mp3");
     procure_visual_assets := fun _ => ret ["4_visual_assets/a.jpg"];
     select_background_music := fun _ _ => ret None;
     compose_video := fun _ _ _ _ => ret (Some "6_final_videos/video.mp4");
     generate_thumbnail := fun _ _ _ => ret (Some "7_thumbnails/thumb.jpg");
     simulate_human_like_delay := fun _ => ret tt;
     upload_credentials := fun _ => ret tt;
     platform_upload := fun _ => ret "sim_10000";
     write_upload_report := fun _ _ => ret tt;
     collect_and_analyze_performance := fun _ => ret (Some []);
     track_revenue := fun _ _ _ => ret tt;
     _incorporate_affiliate_links := fun s m _ _ => ret (s, m);
     _incorporate_digital_product_promotion := fun s m _ => ret (s, m);
     _apply_sponsorship_tags := fun m _ => ret m |}.


(** The same as [succeeding], but every trend source raises. *)
Definition sources_failing : collaborators :=
  {| create_project_directories := ret tt;
     fetch_trends := fun _ _ => throw (ExternalError "SourceUnavailable");
     generate_script_and_metadata := fun _ _ => ret (Some (0%nat, 1%nat));
     generate_voiceover := fun _ => ret (Some "5_voiceovers/voice.mp3");
     procure_visual_assets := fun _ => ret ["4_visual_assets/a.jpg"];
     select_background_music := fun _ _ => ret None;
     compose_video := fun _ _ _ _ => ret (Some "6_final_videos/video.mp4");
     generate_thumbnail := fun _ _ _ => ret (Some "7_thumbnails/thumb.jpg");
     simulate_human_like_delay := fun _ => ret tt;
     upload_credentials := fun _ => ret tt;
     platform_upload := fun _ => ret "sim_10000";
     write_upload_report := fun _ _ => ret tt;
     collect_and_analyze_performance := fun _ => ret (Some []);
     track_revenue := fun _ _ _ => ret tt;
     _incorporate_affiliate_links := fun s m _ _ => ret (s, m);
     _incorporate_digital_product_promotion := fun s m _ => ret (s, m);
     _apply_sponsorship_tags := fun m _ => ret m |}.

End Sample.

(** ** Measures on the event log *)

Definition is_attempt (e : event) : bool :=
  match e with
  | EvAttempt _ _ => true
  | _ => false
  end.

(** The number of attempts logged. *)
Definition attempts_in (t : list event) : nat := length (List.filter is_attempt t).

(** The seconds slept by [handle_step_error]. *)
Fixpoint seconds_slept (t : list event) : Z :=
  match t with
  | [] => 0
  | EvSleep seconds :: rest => seconds + seconds_slept rest
  | _ :: rest => seconds_slept rest
  end.

(** ** More sample data *)

(** A configuration with another failback table. *)
Definition with_failbacks (cfg : config) (table : gmap string string) : config :=
  {| error_retry_delay_minutes := error_retry_delay_minutes cfg;
     max_step_retries := max_step_retries cfg;
     default_content_style := default_content_style cfg;
     trend_analysis := trend_analysis cfg;
     platform_ops := platform_ops cfg;
     failback_mechanisms := table;
     monetization := monetization cfg;
     feedback_loop_enabled := feedback_loop_enabled cfg |}.

(** ** The tests and the marks of the trend filter *)

(** The three tests of the filter loop on one trend dict. *)
Definition passes_filters (cfg_trend : trend_analysis_cfg) (t : trend) : bool :=
  let title_lower := PyStr.lower (title t) in
  negb (IntelligenceCore.excluded (exclude_topics_containing cfg_trend) title_lower)
  && match niche_focus_keywords cfg_trend with
     | [] => true
     | _ :: _ => IntelligenceCore.matches_niche (niche_focus_keywords cfg_trend) title_lower
     end
  && negb (default 0 (raw_virality t) <? min_virality_score cfg_trend).

(** The keys the scorer has written: a sentiment map, a final score and,
    with the time-series analysis, a longevity between 3 and 14 days. *)
Definition scored (cfg_trend : trend_analysis_cfg) (t : trend) : Prop :=
  is_Some (sentiment_analysis t)
  /\ is_Some (final_score t)
  /\ (time_series_analysis_enabled cfg_trend = true ->
      exists days, predicted_longevity_days t = Some days /\ 3 <= days <= 14).

(** The scripts, the metadata dicts, the variant dicts and the next fresh
    reference are the same in two worlds. *)
Definition same_besides_trends (w w' : world) : Prop :=
  w_scripts w' = w_scripts w
  /\ w_metadata w' = w_metadata w
  /\ w_variants w' = w_variants w
  /\ w_next w' = w_next w.

(** The keys a source provides are the same in two trend dicts. *)
Definition same_source_keys (t t' : trend) : Prop :=
  topic_id t' = topic_id t
  /\ title t' = title t
  /\ keywords t' = keywords t
  /\ source t' = source t
  /\ raw_virality t' = raw_virality t
  /\ raw_sentiment_score t' = raw_sentiment_score t.

(** ** The upload report *)

(** A platform of the configuration that is enabled. *)
Definition enabled_platform (cfg : config) (platform_name : string) : Prop :=
  exists platform_cfg,
    In (platform_name, platform_cfg) (platform_ops cfg) /\ p_enabled platform_cfg = true.

(** The three shapes of a status dict the uploader records. *)
Definition recorded_status (platform_name : string) (st : upload_status) : Prop :=
  (status st = "success"
   /\ (platform_name = "youtube" \/ platform_name = "tiktok")
   /\ is_Some (video_id st) /\ is_Some (platform_url st) /\ error st = None)
  \/ (status st = "not_implemented"
      /\ platform_name <> "youtube" /\ platform_name <> "tiktok"
      /\ video_id st = None /\ platform_url st = None /\ error st = None)
  \/ (status st = "failed"
      /\ video_id st = None /\ platform_url st = None /\ is_Some (error st)).

(** ** Variant dicts reachable from a metadata dict *)

(** [v] is listed under ["variants"] of the metadata dict or of its nested
    dict for the platform. *)
Definition variant_of (w : world) (metadata_object : loc) (target_platform : string)
    (v : loc) : Prop :=
  (exists vs, variants (w_metadata w metadata_object) = Some vs /\ In v vs)
  \/ (exists d vs,
        platform_metadata (w_metadata w metadata_object) !! target_platform = Some d
        /\ variants (w_metadata w d) = Some vs /\ In v vs).

(** ** More sample data: a metadata dict without variants *)

Definition w_no_variants : world :=
  {| w_rng := Sample.a_stream;
     w_trends := w_trends Sample.w0;
     w_scripts := w_scripts Sample.w0;
     w_metadata := fun _ => {| variants := Some []; chosen_variant_index := None;
                               platform_metadata := ∅ |};
     w_variants := w_variants Sample.w0;
     w_next := 3%nat;
     w_trace := [] |}.

(** ** AutoCreatorXConfig.validate_config

    The settings [validate_config] and the credential lookup read, and the
    records the validation logs. *)

Module AutoCreatorXConfig.

(** One entry of [platform_ops]: the truth value of ["enabled"] and the
    ["api_credentials_id"], [None] when the key is missing. *)
Record platform_entry : Type :=
  { enabled : bool;
    api_credentials_id : option string }.

(** [project_base_dir] is [None] when it is not a [str].
    [script_generation] is [None] when [intelligence_core] has no such key or
    an empty dict under it, and otherwise holds the ["prompt_templates_dir"]
    of the dict, [None] when that is missing or not a [str].
    [account_cycling_enabled] is the truth value of the key of the anti-ban
    settings. *)
Record settings : Type :=
  { project_base_dir : option string;
    script_generation : option (option string);
    global_language : string;
    supported_languages : list string;
    default_content_style : string;
    available_content_styles : list string;
    platform_ops : list (string * platform_entry);
    secrets : gmap string string;
    account_cycling_enabled : bool;
    account_cycling_pool_id : option string }.

Inductive level : Type := ERROR | WARNING | INFO.

(** The records [validate_config] logs, by what they report. *)
Inductive log_record : Type :=
| BaseDirNotAString
| BaseDirNotFound (dir : string)
| PromptDirNotAString
| PromptDirNotFound (dir : string)
| LanguageNotSupported (language : string)
| StyleNotAvailable (style : string)
| CredentialIdMissing (platform_name : string)
| CredentialNotInSecrets (api_cred_id platform_name : string)
| PlaceholderKey (api_cred_id platform_name : string)
| ValidationCompleted.

Definition level_of (r : log_record) : level :=
  match r with
  | BaseDirNotFound _ | PlaceholderKey _ _ => WARNING
  | ValidationCompleted => INFO
  | _ => ERROR
  end.

(** A value that is a [str] and is not empty. *)
Definition nonempty_str (v : option string) : option string :=
  match v with
  | Some s => if String.eqb s EmptyString then None else Some s
  | None => None
  end.

(** Check 5: the loop over [platform_ops.items()]; [false] is the
    [return False] of the loop. *)
Fixpoint check_platforms (secrets : gmap string string)
    (platforms : list (string * platform_entry)) (log : list log_record)
    : bool * list log_record :=
  match platforms with
  | [] => (true, log)
  | (platform_name, platform_cfg) :: rest =>
      if enabled platform_cfg then
        match nonempty_str (api_credentials_id platform_cfg) with
        | None => (false, log ++ [CredentialIdMissing platform_name])
        | Some api_cred_id =>
            match secrets !! api_cred_id with
            | None => (false, log ++ [CredentialNotInSecrets api_cred_id platform_name])
            | Some secret =>
                check_platforms secrets rest
                  (if PyStr.contains "env_placeholder_" secret
                   then log ++ [PlaceholderKey api_cred_id platform_name]
                   else log)
            end
        end
      else check_platforms secrets rest log
  end.

(** Checks 3 to 5. *)
Definition check_language_style_platforms (c : settings) (log : list log_record)
    : bool * list log_record :=
  if negb (in_list (global_language c) (supported_languages c)) then
    (false, log ++ [LanguageNotSupported (global_language c)])
  else if negb (in_list (default_content_style c) (available_content_styles c)) then
    (false, log ++ [StyleNotAvailable (default_content_style c)])
  else
    let '(passed, log) := check_platforms (secrets c) (platform_ops c) log in
    if passed then (true, log ++ [ValidationCompleted]) else (false, log).

(** [isdir] is [os.path.isdir]. The result is the returned bool and the
    records logged. *)
Definition validate_config (isdir : string -> bool) (c : settings)
    : bool * list log_record :=
  match nonempty_str (project_base_dir c) with
  | None => (false, [BaseDirNotAString])
  | Some base_dir =>
      let log := if isdir base_dir then [] else [BaseDirNotFound base_dir] in
      match script_generation c with
      | None => check_language_style_platforms c log
      | Some prompt_templates_dir =>
          match nonempty_str prompt_templates_dir with
          | None => (false, log ++ [PromptDirNotAString])
          | Some dir =>
              check_language_style_platforms c
                (if isdir dir then log else log ++ [PromptDirNotFound dir])
          end
      end
  end.

End AutoCreatorXConfig.

(** ** AntiDetection.get_active_account_credential *)

Module AntiDetection.

Definition upper_ascii (c : ascii) : ascii :=
  let n := nat_of_ascii c in
  if ((97 <=? n)%nat && (n <=? 122)%nat)%bool then ascii_of_nat (n - 32) else c.

(** [str.upper()] *)
Fixpoint upper (s : string) : string :=
  match s with
  | EmptyString => EmptyString
  | String c s' => String (upper_ascii c) (upper s')
  end.

(** [random.choice([True, False])] *)
Definition choice_true_false (g : rng) : bool * rng :=
  let '(r, g') := next_draw g in (r mod 2 =? 0, g').

(** The fallback to the primary credential of the platform. *)
Definition primary_credential (c : AutoCreatorXConfig.settings) (platform_name : string)
    : string :=
  let api_credential_id_key :=
    match dict_get (AutoCreatorXConfig.platform_ops c) platform_name with
    | Some platform_config => AutoCreatorXConfig.api_credentials_id platform_config
    | None => None
    end in
  match AutoCreatorXConfig.nonempty_str api_credential_id_key with
  | None => "ERROR_NO_CREDENTIAL_ID_FOR_" +:+ upper platform_name
  | Some key =>
      match AutoCreatorXConfig.nonempty_str (AutoCreatorXConfig.secrets c !! key) with
      | None => "ERROR_CREDENTIAL_NOT_FOUND_FOR_" +:+ upper key
      | Some credential => credential
      end
  end.

Definition get_active_account_credential (c : AutoCreatorXConfig.settings)
    (platform_name : string) (g : rng) : string * rng :=
  if AutoCreatorXConfig.account_cycling_enabled c
     && bool_decide (is_Some (AutoCreatorXConfig.nonempty_str
                                (AutoCreatorXConfig.account_cycling_pool_id c)))
  then
    let simulated_alternative_key_name := upper platform_name +:+ "_API_ALT_ACCOUNT" in
    match AutoCreatorXConfig.secrets c !! simulated_alternative_key_name with
    | Some alt_credential =>
        let '(chosen, g') := choice_true_false g in
        if chosen && negb (PyStr.contains "env_placeholder_" alt_credential)
        then (alt_credential, g')
        else (primary_credential c platform_name, g')
    | None => (primary_credential c platform_name, g)
    end
  else (primary_credential c platform_name, g).

End AntiDetection.

(** ** Validated settings *)

(** What the five checks ask of the settings. *)
Definition checks_pass (c : AutoCreatorXConfig.settings) : Prop :=
  (exists base_dir,
     AutoCreatorXConfig.project_base_dir c = Some base_dir /\ base_dir <> EmptyString)
  /\ (forall prompt_templates_dir,
        AutoCreatorXConfig.script_generation c = Some prompt_templates_dir ->
        exists dir, prompt_templates_dir = Some dir /\ dir <> EmptyString)
  /\ In (AutoCreatorXConfig.global_language c) (AutoCreatorXConfig.supported_languages c)
  /\ In (AutoCreatorXConfig.default_content_style c)
        (AutoCreatorXConfig.available_content_styles c)
  /\ (forall platform_name platform_cfg,
        In (platform_name, platform_cfg) (AutoCreatorXConfig.platform_ops c) ->
        AutoCreatorXConfig.enabled platform_cfg = true ->
        exists api_cred_id,
          AutoCreatorXConfig.api_credentials_id platform_cfg = Some api_cred_id
          /\ api_cred_id <> EmptyString
          /\ is_Some (AutoCreatorXConfig.secrets c !! api_cred_id)).

(** The default settings, with the placeholder secrets of an environment that
    sets none of the variables. *)
Definition default_settings : AutoCreatorXConfig.settings :=
  {| AutoCreatorXConfig.project_base_dir := Some "./autocreatorx_projects/";
     AutoCreatorXConfig.script_generation := Some (Some "./prompt_templates/");
     AutoCreatorXConfig.global_language := "en";
     AutoCreatorXConfig.supported_languages := ["en"; "es"; "fr"; "de"; "pt"];
     AutoCreatorXConfig.default_content_style := "viral_explainer_short";
     AutoCreatorXConfig.available_content_styles :=
       ["viral_explainer_short"; "deep_dive_analysis"; "news_summary";
        "tutorial_screencast"];
     AutoCreatorXConfig.platform_ops :=
       [("youtube", {| AutoCreatorXConfig.enabled := true;
                       AutoCreatorXConfig.api_credentials_id :=
                         Some "YOUTUBE_API_PRIMARY_ACCOUNT" |});
        ("tiktok", {| AutoCreatorXConfig.enabled := true;
                      AutoCreatorXConfig.api_credentials_id :=
                        Some "TIKTOK_API_BUSINESS_ACCOUNT" |});
        ("instagram", {| AutoCreatorXConfig.enabled := false;
                         AutoCreatorXConfig.api_credentials_id :=
                           Some "INSTAGRAM_API_CREATOR_ACCOUNT" |})];
     AutoCreatorXConfig.secrets :=
       <["YOUTUBE_API_PRIMARY_ACCOUNT" := "env_placeholder_youtube_secret_REPLACE_ME"]>
       (<["TIKTOK_API_BUSINESS_ACCOUNT" := "env_placeholder_tiktok_secret_REPLACE_ME"]>
       (<["OPENAI_API_KEY" := "env_placeholder_openai_secret_REPLACE_ME"]>
       (<["LLM_CLOUD_XYZ_KEY" := "env_placeholder_llm_cloud_secret_REPLACE_ME"]>
       (<["TTS_CLOUD_PREMIUM_KEY" := "env_placeholder_tts_cloud_secret_REPLACE_ME"]>
       (<["STOCK_API_PREMIUM_KEY" := "env_placeholder_stock_api_secret_REPLACE_ME"]>
       (<["MODERATION_CLOUD_ADVANCED_KEY" := "env_placeholder_moderation_secret_REPLACE_ME"]>
       (<["COPYRIGHT_SCAN_PRO_API_KEY" := "env_placeholder_copyright_secret_REPLACE_ME"]>
        ∅)))))));
     AutoCreatorXConfig.account_cycling_enabled := false;
     AutoCreatorXConfig.account_cycling_pool_id := Some "ACCOUNT_POOL_MAIN" |}.

(** A file system without any directory. *)
Definition no_directories : string -> bool := fun _ => false.

(** ** More sample data: the project directories cannot be created *)

Definition directories_failing : collaborators :=
  {| create_project_directories :=
       throw (ExternalError "[Errno 13] Permission denied: './autocreatorx_projects/'");
     fetch_trends := fetch_trends Sample.sources_failing;
     generate_script_and_metadata := generate_script_and_metadata Sample.sources_failing;
     generate_voiceover := generate_voiceover Sample.sources_failing;
     procure_visual_assets := procure_visual_assets Sample.sources_failing;
     select_background_music := select_background_music Sample.sources_failing;
     compose_video := compose_video Sample.sources_failing;
     generate_thumbnail := generate_thumbnail Sample.sources_failing;
     simulate_human_like_delay := simulate_human_like_delay Sample.sources_failing;
     upload_credentials := upload_credentials Sample.sources_failing;
     platform_upload := platform_upload Sample.sources_failing;
     write_upload_report := write_upload_report Sample.sources_failing;
     collect_and_analyze_performance :=
       collect_and_analyze_performance Sample.sources_failing;
     track_revenue := track_revenue Sample.sources_failing;
     _incorporate_affiliate_links := _incorporate_affiliate_links Sample.sources_failing;
     _incorporate_digital_product_promotion :=
       _incorporate_digital_product_promotion Sample.sources_failing;
     _apply_sponsorship_tags := _apply_sponsorship_tags Sample.sources_failing |}.

(** * Properties *)

Import Sample.

(** ** The monad *)

Lemma bind_ok_inv {S A B} (m : M S A) (k : A -> M S B) s b s' :
  bind m k s = (Ok b, s') ->
  exists a s1, m s = (Ok a, s1) /\ k a s1 = (Ok b, s').
Proof.
  unfold bind. destruct (m s) as [[a|e] s1]; intros H.
  - exists a, s1. split; [reflexivity | exact H].
  - discriminate H.
Qed.

Lemma ret_ok_inv {S A} (a b : A) (s s' : S) :
  ret a s = (Ok b, s') -> a = b /\ s = s'.
Proof. unfold ret. intros H. injection H as -> ->. split; reflexivity. Qed.

Lemma randint_range lo hi g r g' :
  randint lo hi g = (Ok r, g') -> lo <= r <= hi.
Proof.
  unfold randint. destruct (hi <? lo) eqn:E; [discriminate|].
  apply Z.ltb_ge in E. cbn. intros H. injection H as <- _.
  pose proof (Z.mod_pos_bound (draws g (cursor g)) (hi - lo + 1)). lia.
Qed.

Lemma randint_total lo hi g :
  lo <= hi -> exists r, randint lo hi g = (Ok r, snd (next_draw g)) /\ lo <= r <= hi.
Proof.
  intros Hle. unfold randint. destruct (hi <? lo) eqn:E.
  - apply Z.ltb_lt in E. lia.
  - cbn. eexists. split; [reflexivity|].
    pose proof (Z.mod_pos_bound (draws g (cursor g)) (hi - lo + 1)). lia.
Qed.

(** ** Strings *)

Lemma append_cons c (p post : string) :
  (String c p ++ post)%string = String c (p ++ post)%string.
Proof. reflexivity. Qed.

Lemma append_empty (post : string) : (EmptyString ++ post)%string = post.
Proof. reflexivity. Qed.

Lemma prefix_spec (p s : string) :
  String.prefix p s = true <-> exists post, s = (p ++ post)%string.
Proof.
  revert s. induction p as [|c p IH]; intros s.
  - destruct s; cbn; (split; [intros _; eexists; reflexivity | reflexivity]).
  - destruct s as [|d s]; cbn [String.prefix].
    + split; [discriminate | intros [post H]; discriminate H].
    + destruct (Ascii.ascii_dec c d) as [->|Hne].
      * rewrite IH. split; intros [post H]; exists post.
        -- now rewrite H.
        -- rewrite append_cons in H. congruence.
      * split; [discriminate | intros [post H]; rewrite append_cons in H; congruence].
Qed.

(** [needle in hay] holds exactly when [hay] is [pre ++ needle ++ post]. *)
Lemma contains_spec (needle hay : string) :
  PyStr.contains needle hay = true <->
  exists pre post, hay = (pre ++ needle ++ post)%string.
Proof.
  induction hay as [|c hay IH]; cbn [PyStr.contains]; rewrite orb_true_iff, prefix_spec.
  - split.
    + intros [[post H]|H]; [|discriminate]. exists EmptyString, post. exact H.
    + intros [pre [post H]]. left.
      destruct pre; [exists post; exact H | rewrite append_cons in H; discriminate H].
  - rewrite IH. split.
    + intros [[post H]|[pre [post H]]].
      * exists EmptyString, post. exact H.
      * exists (String c pre), post. rewrite append_cons. congruence.
    + intros [pre [post H]]. destruct pre as [|d pre].
      * left. exists post. exact H.
      * right. exists pre, post. rewrite append_cons in H. congruence.
Qed.

(** ** Ad breaks *)

Section AdBreaks.

Variable d : Z.

Lemma clean_up_fold bs acc last_break_time :
  fst (fold_left (Utilities.clean_up_step d) bs (acc, last_break_time))
  = acc ++ greedy_spacing d last_break_time bs.
Proof.
  revert acc last_break_time.
  induction bs as [|b bs IH]; intros acc last_break_time; cbn [fold_left greedy_spacing].
  - cbn. now rewrite app_nil_r.
  - unfold Utilities.clean_up_step at 2.
    destruct ((60 <? b) && (b <? d - 60) && (120 <=? b - last_break_time)).
    + rewrite IH, <- app_assoc. reflexivity.
    + apply IH.
Qed.

Lemma clean_up_greedy breaks :
  Utilities.clean_up d breaks
  = match breaks with
    | [] => []
    | _ :: _ => greedy_spacing d 0 (Utilities.unique_sorted breaks)
    end.
Proof.
  destruct breaks as [|b breaks]; [reflexivity|].
  unfold Utilities.clean_up. now rewrite clean_up_fold.
Qed.

Lemma greedy_spaced last_break_time bs :
  spaced_from last_break_time (greedy_spacing d last_break_time bs).
Proof.
  revert last_break_time.
  induction bs as [|b bs IH]; intros last_break_time; cbn [greedy_spacing]; [exact I|].
  destruct ((60 <? b) && (b <? d - 60) && (120 <=? b - last_break_time)) eqn:E.
  - cbn. split; [|apply IH].
    apply andb_true_iff in E as [_ E]. apply Z.leb_le in E. lia.
  - apply IH.
Qed.

Lemma greedy_bounded last_break_time bs :
  Forall (fun e => 60 < e < d - 60) (greedy_spacing d last_break_time bs).
Proof.
  revert last_break_time.
  induction bs as [|b bs IH]; intros last_break_time; cbn [greedy_spacing]; [constructor|].
  destruct ((60 <? b) && (b <? d - 60) && (120 <=? b - last_break_time)) eqn:E.
  - constructor; [|apply IH].
    apply andb_true_iff in E as [E _]. apply andb_true_iff in E as [E1 E2].
    apply Z.ltb_lt in E1. apply Z.ltb_lt in E2. lia.
  - apply IH.
Qed.

Lemma clean_up_spaced breaks : spaced_from 0 (Utilities.clean_up d breaks).
Proof.
  rewrite clean_up_greedy. destruct breaks; [exact I | apply greedy_spaced].
Qed.

Lemma clean_up_bounded breaks :
  Forall (fun e => 60 < e < d - 60) (Utilities.clean_up d breaks).
Proof.
  rewrite clean_up_greedy. destruct breaks; [constructor | apply greedy_bounded].
Qed.

End AdBreaks.

Lemma spaced_from_lower prev l : spaced_from prev l -> Forall (fun e => prev + 120 <= e) l.
Proof.
  revert prev. induction l as [|b l IH]; intros prev H; [constructor|].
  destruct H as [Hb Hl]. constructor; [exact Hb|].
  eapply Forall_impl; [apply IH, Hl|]. cbn. intros e He. lia.
Qed.

Lemma spaced_from_increasing prev l : spaced_from prev l -> StronglySorted Z.lt l.
Proof.
  revert prev. induction l as [|b l IH]; intros prev H; [constructor|].
  destruct H as [Hb Hl]. constructor; [eapply IH, Hl|].
  eapply Forall_impl; [apply spaced_from_lower, Hl|]. cbn. intros e He. lia.
Qed.

Lemma spaced_from_consecutive prev (l : list Z) (i : nat) a b :
  spaced_from prev l -> l !! i = Some a -> l !! S i = Some b -> a + 120 <= b.
Proof.
  revert prev i. induction l as [|x l IH]; intros prev i H Ha Hb; [discriminate Ha|].
  destruct H as [_ Hl]. destruct i as [|i].
  - cbn in Ha. injection Ha as ->. destruct l as [|y l]; [discriminate Hb|].
    cbn in Hb. injection Hb as ->. apply Hl.
  - eapply IH; [exact Hl | exact Ha | exact Hb].
Qed.

(** What the scheduler returns is either empty or a cleaned-up list. *)
Lemma ad_breaks_cleaned d strategy hint g out g' :
  Utilities.calculate_optimal_ad_breaks d strategy hint g = (Ok out, g') ->
  out = [] \/ exists breaks, out = Utilities.clean_up d breaks.
Proof.
  unfold Utilities.calculate_optimal_ad_breaks.
  destruct (d <? 60 * 8).
  - intros H. apply ret_ok_inv in H as [<- _]. now left.
  - destruct (PyStr.contains "ai_optimized" (PyStr.lower strategy)
              || PyStr.contains "auto_optimized" (PyStr.lower strategy)).
    + intros H. apply bind_ok_inv in H as (breaks & g1 & _ & H).
      apply ret_ok_inv in H as [<- _]. right. now exists breaks.
    + destruct (PyStr.contains "manual_timed" (PyStr.lower strategy)).
      * intros H. apply bind_ok_inv in H as (breaks & g1 & _ & H).
        apply ret_ok_inv in H as [<- _]. right. now exists breaks.
      * intros H. apply ret_ok_inv in H as [<- _]. now left.
Qed.

(** The loop of the "manual_timed" strategy has left its [while] condition
    when the fuel [Z.to_nat video_duration_seconds] is spent: more fuel gives
    the same breaks. *)
Lemma manual_timed_loop_fuel fuel1 fuel2 d interval current_time breaks :
  0 < interval ->
  (Z.to_nat (d - 60 - current_time) <= fuel1)%nat ->
  (Z.to_nat (d - 60 - current_time) <= fuel2)%nat ->
  Utilities.manual_timed_loop fuel1 d interval current_time breaks
  = Utilities.manual_timed_loop fuel2 d interval current_time breaks.
Proof.
  intros Hi. revert fuel2 current_time breaks.
  induction fuel1 as [|fuel1 IH]; intros fuel2 current_time breaks H1 H2.
  - destruct fuel2 as [|fuel2]; [reflexivity|]. cbn.
    destruct (current_time <? d - 60) eqn:E; [|reflexivity].
    apply Z.ltb_lt in E. lia.
  - cbn. destruct (current_time <? d - 60) eqn:E.
    + apply Z.ltb_lt in E. destruct fuel2 as [|fuel2]; [lia|]. cbn.
      apply Z.ltb_lt in E. rewrite E. apply IH; lia.
    + destruct fuel2 as [|fuel2]; [reflexivity|]. cbn. now rewrite E.
Qed.

Lemma manual_timed_fuel_suffices d interval (extra : nat) :
  300 <= interval ->
  Utilities.manual_timed_loop (Z.to_nat d + extra) d interval interval []
  = Utilities.manual_timed_loop (Z.to_nat d) d interval interval [].
Proof. intros H. apply manual_timed_loop_fuel; lia. Qed.

(** C8. A video shorter than 480 seconds gets no ad break, whatever the
    strategy (known or not), the structure hint and the random stream; the
    stream is left untouched. *)
Theorem short_video_no_ad_breaks d strategy hint g :
  d < 480 ->
  Utilities.calculate_optimal_ad_breaks d strategy hint g = (Ok [], g).
Proof.
  intros Hd. unfold Utilities.calculate_optimal_ad_breaks.
  replace (d <? 60 * 8) with true; [reflexivity|].
  symmetry. apply Z.ltb_lt. lia.
Qed.

Lemma short_video_no_ad_breaks_witness :
  Utilities.calculate_optimal_ad_breaks 479 "manual_timed" None a_stream = (Ok [], a_stream).
Proof. apply (short_video_no_ad_breaks 479 "manual_timed" None a_stream). lia. Defined.

(** C3. A non-empty list returned by [calculate_optimal_ad_breaks] is
    strictly increasing, consecutive breaks are at least 120 seconds apart,
    and every break lies between 60 and [duration - 60]. *)
Theorem ad_breaks_spaced_and_bounded d strategy hint g out g' :
  Utilities.calculate_optimal_ad_breaks d strategy hint g = (Ok out, g') ->
  out <> [] ->
  StronglySorted Z.lt out
  /\ (forall (i : nat) a b, out !! i = Some a -> out !! S i = Some b -> a + 120 <= b)
  /\ Forall (fun e => 60 <= e <= d - 60) out.
Proof.
  intros H Hne. apply ad_breaks_cleaned in H as [->|[breaks ->]]; [congruence|].
  pose proof (clean_up_spaced d breaks) as Hs.
  split; [|split].
  - eapply spaced_from_increasing, Hs.
  - intros i a b. apply (spaced_from_consecutive 0), Hs.
  - eapply Forall_impl; [apply clean_up_bounded|]. cbn. intros e He. lia.
Qed.

Lemma ad_breaks_spaced_and_bounded_witness :
  StronglySorted Z.lt [166; 420]
  /\ (forall (i : nat) a b,
        [166; 420] !! i = Some a -> [166; 420] !! S i = Some b -> a + 120 <= b)
  /\ Forall (fun e => 60 <= e <= 620 - 60) [166; 420].
Proof.
  apply (ad_breaks_spaced_and_bounded 620 "ai_optimized_flow" None a_stream
           [166; 420] (mkRng (draws a_stream) 2)).
  - vm_compute. reflexivity.
  - discriminate.
Defined.

(** The "manual_timed" strategy on a 2000-second video: the stream draws the
    interval 311, and all six multiples below 1940 are kept. *)
Example manual_timed_2000 :
  fst (Utilities.calculate_optimal_ad_breaks 2000 "Manual_Timed" None a_stream)
  = Ok [311; 622; 933; 1244; 1555; 1866].
Proof. vm_compute. reflexivity. Qed.

(** The band edges are computed in binary64: [int(650 * 0.7)] is 454, one
    less than the exact product. *)
Example band_650_70 : PyFloat.int_of_scaled 650 PyFloat.f0_70 = Ok 454.
Proof. vm_compute. reflexivity. Qed.

Lemma band_620_25 : Utilities.band_edge 620 PyFloat.f0_25 = ret 155.
Proof. vm_compute. reflexivity. Qed.
Lemma band_620_35 : Utilities.band_edge 620 PyFloat.f0_35 = ret 217.
Proof. vm_compute. reflexivity. Qed.
Lemma band_620_60 : Utilities.band_edge 620 PyFloat.f0_60 = ret 372.
Proof. vm_compute. reflexivity. Qed.
Lemma band_620_70 : Utilities.band_edge 620 PyFloat.f0_70 = ret 434.
Proof. vm_compute. reflexivity. Qed.

Lemma clean_up_620 b1 b2 :
  155 <= b1 <= 217 -> 372 <= b2 <= 434 -> Utilities.clean_up 620 [b1; b2] = [b1; b2].
Proof.
  intros H1 H2. rewrite clean_up_greedy.
  assert (Utilities.unique_sorted [b1; b2] = [b1; b2]) as ->.
  { unfold Utilities.unique_sorted. cbn.
    repeat (case_decide; cbn); try reflexivity; try lia;
      repeat match goal with
             | H : _ ∈ _ |- _ => apply list_elem_of_In in H; cbn in H
             end; intuition lia. }
  cbn [greedy_spacing].
  replace ((60 <? b1) && (b1 <? 620 - 60) && (120 <=? b1 - 0)) with true by
    (symmetry; rewrite !andb_true_iff, !Z.ltb_lt, Z.leb_le; lia).
  replace ((60 <? b2) && (b2 <? 620 - 60) && (120 <=? b2 - b1)) with true by
    (symmetry; rewrite !andb_true_iff, !Z.ltb_lt, Z.leb_le; lia).
  reflexivity.
Qed.

(** C7. For a 620-second video and the strategy "ai_optimized_flow" without
    a structure hint, every random stream gives exactly two breaks, the first
    in [[155, 217]] and the second in [[372, 434]]. *)
Theorem ad_breaks_620_ai_optimized g :
  exists b1 b2 g',
    Utilities.calculate_optimal_ad_breaks 620 "ai_optimized_flow" None g = (Ok [b1; b2], g')
    /\ 155 <= b1 <= 217 /\ 372 <= b2 <= 434.
Proof.
  destruct (randint_total 155 217 g ltac:(lia)) as (b1 & E1 & H1).
  destruct (randint_total 372 434 (snd (next_draw g)) ltac:(lia)) as (b2 & E2 & H2).
  exists b1, b2, (snd (next_draw (snd (next_draw g)))).
  split; [|split; assumption].
  change (Utilities.calculate_optimal_ad_breaks 620 "ai_optimized_flow" None g)
    with (bind (Utilities.ai_optimized_breaks 620)
            (fun breaks => ret (Utilities.clean_up 620 breaks)) g).
  unfold Utilities.ai_optimized_breaks.
  change (300 <=? 620) with true. change (600 <=? 620) with true.
  change (900 <=? 620) with false. cbv iota.
  rewrite band_620_25, band_620_35, band_620_60, band_620_70.
  unfold bind, ret. rewrite E1, E2. cbn [app].
  now rewrite clean_up_620.
Qed.


(** ** The retry loop *)

(** [handle_step_error] on the last allowed attempt: no sleep, the failure is
    reported as permanent and the answer is [False]. *)
Lemma handle_step_error_exhausted step_name error attempt max_retries delay strategy w :
  max_retries <= Zpos attempt ->
  ErrorHandling.handle_step_error step_name error attempt max_retries delay strategy w
  = (Ok false, logged (EvPermanentFailure step_name) w).
Proof.
  intros H. unfold ErrorHandling.handle_step_error.
  replace (Zpos attempt <? max_retries) with false by (symmetry; apply Z.ltb_ge; lia).
  reflexivity.
Qed.

(** A length that [time.sleep] accepts is slept. *)
Lemma sleep_in_range seconds w :
  0 <= seconds <= max_sleep_seconds ->
  sleep seconds w = log_event (EvSleep seconds) w.
Proof.
  intros [Hlo Hhi]. unfold sleep. unfold max_sleep_seconds in *.
  replace (seconds <? Z.opp 9223372036) with false by (symmetry; apply Z.ltb_ge; lia).
  replace (9223372036 <? seconds) with false by (symmetry; apply Z.ltb_ge; lia).
  replace (seconds <? 0) with false by (symmetry; apply Z.ltb_ge; lia).
  reflexivity.
Qed.

(** [handle_step_error] on an earlier attempt: one sleep of
    [delay * 60 * 2 ^ (attempt - 1)] seconds and the answer is [True]. *)
Lemma handle_step_error_retry step_name error attempt max_retries delay strategy w :
  Zpos attempt < max_retries ->
  0 <= delay ->
  delay * 60 * 2 ^ (Zpos attempt - 1) <= max_sleep_seconds ->
  ErrorHandling.handle_step_error step_name error attempt max_retries delay strategy w
  = (Ok true, logged (EvSleep (delay * 60 * 2 ^ (Zpos attempt - 1))) w).
Proof.
  intros H Hd Hmax. unfold ErrorHandling.handle_step_error.
  replace (Zpos attempt <? max_retries) with true by (symmetry; apply Z.ltb_lt; lia).
  unfold bind. rewrite sleep_in_range; [reflexivity|].
  split; [|exact Hmax].
  assert (0 <= 2 ^ (Zpos attempt - 1)) by (apply Z.pow_nonneg; lia). nia.
Qed.

Section Retry.

Variable cfg : config.
Variable ext : collaborators.
Variable source_api_name : string.

Variable strategy : string.
Hypothesis Hstrategy : failback_mechanisms cfg !! "trend_analysis" = Some strategy.
Hypothesis Hdelay : 0 <= error_retry_delay_minutes cfg.
Hypothesis Hfails : always_fails ext source_api_name.

(** A failed attempt that is not the last one: one call, one sleep of
    [delay * 60 * 2 ^ (attempt - 1)] seconds, and the loop goes on. *)
Lemma retry_loop_failed_attempt fuel attempt all w :
  Zpos attempt < max_step_retries cfg ->
  error_retry_delay_minutes cfg * 60 * 2 ^ (Zpos attempt - 1) <= max_sleep_seconds ->
  exists w1,
    IntelligenceCore.retry_loop (S fuel) cfg ext source_api_name attempt all w
    = IntelligenceCore.retry_loop fuel cfg ext source_api_name (Pos.succ attempt) all w1
    /\ w_trace w1
       = w_trace w ++ [EvAttempt source_api_name attempt;
                       EvSleep (error_retry_delay_minutes cfg * 60 * 2 ^ (Zpos attempt - 1))].
Proof.
  intros Hlt Hmax. cbn [IntelligenceCore.retry_loop].
  replace (Zpos attempt <=? max_step_retries cfg) with true
    by (symmetry; apply Z.leb_le; lia).
  unfold bind at 1. unfold log_event at 1. unfold bind at 1.
  match goal with
  | |- context [fetch_trends ext source_api_name attempt ?w0] =>
      destruct (Hfails attempt w0) as (e & w' & -> & Ht)
  end.
  unfold IntelligenceCore.failback_strategy_of. rewrite Hstrategy.
  unfold bind at 1. unfold ret at 1.
  unfold bind at 1. rewrite (handle_step_error_retry _ _ _ _ _ _ _ Hlt Hdelay Hmax).
  unfold logged, log_event. cbn [snd w_trace].
  eexists. split; [reflexivity|]. cbn [w_trace]. rewrite Ht. cbn [w_trace].
  now rewrite <- app_assoc.
Qed.

(** The last failed attempt: one call, no sleep, the permanent failure is
    reported and the source is dropped. *)
Lemma retry_loop_last_attempt fuel attempt all w :
  Zpos attempt = max_step_retries cfg ->
  exists w1,
    IntelligenceCore.retry_loop (S fuel) cfg ext source_api_name attempt all w
    = (Ok all, w1)
    /\ w_trace w1
       = w_trace w ++ [EvAttempt source_api_name attempt;
                       EvPermanentFailure ("TrendSource_" +:+ source_api_name)].
Proof.
  intros Heq. cbn [IntelligenceCore.retry_loop].
  replace (Zpos attempt <=? max_step_retries cfg) with true
    by (symmetry; apply Z.leb_le; lia).
  unfold bind at 1. unfold log_event at 1. unfold bind at 1.
  match goal with
  | |- context [fetch_trends ext source_api_name attempt ?w0] =>
      destruct (Hfails attempt w0) as (e & w' & -> & Ht)
  end.
  unfold IntelligenceCore.failback_strategy_of. rewrite Hstrategy.
  unfold bind at 1. unfold ret at 1.
  unfold ErrorHandling.handle_step_error.
  replace (Zpos attempt <? max_step_retries cfg) with false
    by (symmetry; apply Z.ltb_ge; lia).
  unfold bind, log_event, ret. cbn [w_trace].
  eexists. split; [reflexivity|]. cbn [w_trace]. rewrite Ht. cbn [w_trace].
  now rewrite <- app_assoc.
Qed.

End Retry.

(** The retry loop has left its [while] condition when the fuel
    [Z.to_nat max_retries] is spent: more fuel gives the same run. *)
Lemma retry_loop_fuel fuel1 fuel2 cfg ext source_api_name attempt all w :
  (Z.to_nat (max_step_retries cfg + 1 - Zpos attempt) <= fuel1)%nat ->
  (Z.to_nat (max_step_retries cfg + 1 - Zpos attempt) <= fuel2)%nat ->
  IntelligenceCore.retry_loop fuel1 cfg ext source_api_name attempt all w
  = IntelligenceCore.retry_loop fuel2 cfg ext source_api_name attempt all w.
Proof.
  revert fuel2 attempt w.
  induction fuel1 as [|fuel1 IH]; intros fuel2 attempt w H1 H2.
  - destruct fuel2 as [|fuel2]; [reflexivity|]. cbn [IntelligenceCore.retry_loop].
    replace (Zpos attempt <=? max_step_retries cfg) with false
      by (symmetry; apply Z.leb_gt; lia).
    reflexivity.
  - destruct fuel2 as [|fuel2]; cbn [IntelligenceCore.retry_loop];
      destruct (Zpos attempt <=? max_step_retries cfg) eqn:E; try reflexivity.
    + apply Z.leb_le in E. lia.
    + apply Z.leb_le in E.
      match goal with
      | |- match ?body with _ => _ end = _ => destruct body as [[extended|e] w']
      end; [reflexivity|].
      unfold bind.
      destruct (IntelligenceCore.failback_strategy_of cfg "trend_analysis" w')
        as [[st|e'] w'']; [|reflexivity].
      match goal with
      | |- match ?h with _ => _ end = _ => destruct h as [[[|]|e''] w3]
      end; try reflexivity.
      apply IH; lia.
Qed.

Lemma retry_loop_fuel_suffices cfg ext source_api_name all w (extra : nat) :
  IntelligenceCore.retry_loop (Z.to_nat (max_step_retries cfg) + extra) cfg ext
    source_api_name 1 all w
  = IntelligenceCore.retry_loop (Z.to_nat (max_step_retries cfg)) cfg ext
      source_api_name 1 all w.
Proof. apply retry_loop_fuel; lia. Qed.



(** ** Failback resolution *)

(** A key that the failback table lacks makes the first substring test fail
    on [None]: the original error is lost. *)
Lemma handle_api_error_missing_key api_name error key cfg :
  failback_mechanisms cfg !! key = None ->
  ErrorHandling.handle_api_error api_name error key cfg = Raise none_type_error.
Proof. intros H. unfold ErrorHandling.handle_api_error. rewrite H. reflexivity. Qed.

(** A key that is present with a strategy that no branch recognises reaches
    the final [raise error]. *)
Lemma handle_api_error_unrecognised_strategy api_name error key :
  ErrorHandling.handle_api_error api_name error key
    {| error_retry_delay_minutes := 5; max_step_retries := 3;
       default_content_style := "viral_explainer_short";
       trend_analysis := default_trend_analysis;
       platform_ops := [];
       failback_mechanisms := {[ key := "page_the_operator" ]};
       monetization := monetization default_config;
       feedback_loop_enabled := true |}
  = Raise error.
Proof.
  unfold ErrorHandling.handle_api_error. cbn [failback_mechanisms].
  rewrite lookup_singleton_eq. reflexivity.
Qed.

(** C2. The key the uploader passes, "youtube_upload_failback", is not in the
    default failback table; [handle_api_error] then raises a [TypeError]
    instead of the original error. *)
Theorem handle_api_error_unknown_key_loses_error :
  failback_mechanisms default_config !! "youtube_upload_failback" = None
  /\ ErrorHandling.handle_api_error "youtube_upload" (ExternalError "PublishError")
       "youtube_upload_failback" default_config
     = Raise none_type_error
  /\ none_type_error <> ExternalError "PublishError".
Proof.
  split; [vm_compute; reflexivity|]. split; [vm_compute; reflexivity | discriminate].
Qed.

(** ** The trend filter *)

Lemma score_trend_same_titles cfg_trend l virality_score w r w' :
  IntelligenceCore.score_trend cfg_trend l virality_score w = (r, w') ->
  same_titles w w'.
Proof.
  unfold IntelligenceCore.score_trend, bind, read_trend, write_trend, lift_result,
    with_rng, ret.
  assert (forall w2, (forall l', l' <> l -> w_trends w2 l' = w_trends w l') ->
                     title (w_trends w2 l) = title (w_trends w l) ->
                     same_titles w w2) as Hclose.
  { intros w2 Hother Hl l'. destruct (Nat.eq_dec l' l) as [->|Hne]; [exact Hl|].
    now rewrite Hother. }
  destruct (IntelligenceCore.classify_sentiment cfg_trend _) as [sm|e].
  2:{ intros H. injection H as _ <-. intros l'. reflexivity. }
  destruct (time_series_analysis_enabled cfg_trend).
  - destruct (randint 3 14 _) as [[days|e] g1]; cbn [w_rng set_rng set_trend w_trends].
    + destruct (IntelligenceCore.base_score virality_score sm) as [base|e];
        intros H; injection H as _ <-; apply Hclose; cbn [w_trends set_trend set_rng]; unfold upd.
      * intros l' Hne. apply Nat.eqb_neq in Hne. now rewrite !Hne.
      * now rewrite !Nat.eqb_refl.
      * intros l' Hne. apply Nat.eqb_neq in Hne. now rewrite !Hne.
      * now rewrite !Nat.eqb_refl.
    + intros H; injection H as _ <-; apply Hclose; cbn [w_trends set_trend set_rng]; unfold upd.
      * intros l' Hne. apply Nat.eqb_neq in Hne. now rewrite !Hne.
      * now rewrite !Nat.eqb_refl.
  - cbn [set_trend w_trends].
    destruct (IntelligenceCore.base_score virality_score sm) as [base|e];
      intros H; injection H as _ <-; apply Hclose; cbn [w_trends set_trend set_rng]; unfold upd.
    + intros l' Hne. apply Nat.eqb_neq in Hne. now rewrite !Hne.
    + now rewrite !Nat.eqb_refl.
    + intros l' Hne. apply Nat.eqb_neq in Hne. now rewrite !Hne.
    + now rewrite !Nat.eqb_refl.
Qed.

(** The invariant of the filter loop: the result extends [filtered] by a
    sublist of the remaining input, titles are untouched, and every trend
    that was kept passed the exclusion test. *)
Lemma filter_loop_inv cfg_trend trends filtered w out w' :
  IntelligenceCore.filter_loop cfg_trend trends filtered w = (Ok out, w') ->
  exists kept,
    out = filtered ++ kept
    /\ kept `sublist_of` trends
    /\ same_titles w w'
    /\ Forall (fun l => IntelligenceCore.excluded (exclude_topics_containing cfg_trend)
                          (PyStr.lower (title (w_trends w l))) = false) kept.
Proof.
  revert filtered w.
  induction trends as [|l rest IH]; intros filtered w H.
  - apply ret_ok_inv in H as [<- <-]. exists [].
    rewrite app_nil_r. repeat split; [constructor | constructor].
  - cbn [IntelligenceCore.filter_loop] in H. unfold bind at 1 in H.
    unfold read_trend at 1 in H.
    destruct (IntelligenceCore.excluded _ _) eqn:Eex.
    { apply IH in H as (kept & -> & Hsub & Ht & Hall).
      exists kept. repeat split; auto. now apply sublist_cons. }
    destruct (_ && _).
    { apply IH in H as (kept & -> & Hsub & Ht & Hall).
      exists kept. repeat split; auto. now apply sublist_cons. }
    destruct (_ <? _).
    { apply IH in H as (kept & -> & Hsub & Ht & Hall).
      exists kept. repeat split; auto. now apply sublist_cons. }
    apply bind_ok_inv in H as ([] & w1 & Hscore & H).
    apply score_trend_same_titles in Hscore.
    apply IH in H as (kept & -> & Hsub & Ht & Hall).
    exists (l :: kept). repeat split.
    + now rewrite <- app_assoc.
    + now apply sublist_skip.
    + intros l'. now rewrite Ht, Hscore.
    + constructor; [exact Eex|].
      eapply Forall_impl; [exact Hall|]. cbn. intros l' Hl'. now rewrite <- Hscore.
Qed.

(** Keywords that are configured in lower case are honoured: no returned
    trend has one of them in its lower-cased title. *)
Lemma filter_honours_configured_spelling cfg trends w out w' :
  IntelligenceCore._filter_and_score_trends cfg trends w = (Ok out, w') ->
  forall l ex_word,
    In l out -> In ex_word (exclude_topics_containing (trend_analysis cfg)) ->
    PyStr.contains ex_word (PyStr.lower (title (w_trends w' l))) = false.
Proof.
  intros H l ex_word Hl Hex.
  apply filter_loop_inv in H as (kept & -> & _ & Ht & Hall).
  cbn [app] in Hl. rewrite Forall_forall in Hall.
  specialize (Hall l). rewrite <- list_elem_of_In in Hl. specialize (Hall Hl).
  unfold IntelligenceCore.excluded in Hall.
  rewrite Ht.
  destruct (PyStr.contains ex_word _) eqn:E; [|reflexivity].
  assert (existsb (fun ex_word => PyStr.contains ex_word
                     (PyStr.lower (title (w_trends w l))))
            (exclude_topics_containing (trend_analysis cfg)) = true) as Hc.
  { apply existsb_exists. exists ex_word. split; assumption. }
  congruence.
Qed.

(** C5. With the excluded keyword configured as "Politics", the trend titled
    "Politics Today: the new AI bill" is returned by the filter although its
    title contains the keyword when case is ignored: the keyword is compared
    as configured against the lower-cased title. *)
Theorem mixed_case_exclusion_is_not_applied :
  let cfg := with_trend_analysis default_config mixed_case_exclusions in
  exclude_topics_containing (trend_analysis cfg) = ["Politics"]
  /\ title (w_trends w_politics 0%nat) = "Politics Today: the new AI bill"
  /\ PyStr.contains (PyStr.lower "Politics")
       (PyStr.lower (title (w_trends w_politics 0%nat))) = true
  /\ fst (IntelligenceCore._filter_and_score_trends cfg [0%nat] w_politics) = Ok [0%nat].
Proof.
  cbv zeta.
  split; [vm_compute; reflexivity|]. split; [vm_compute; reflexivity|].
  split; vm_compute; reflexivity.
Qed.

(** The niche filter, next to it, lower-cases its keywords: the default niche
    keyword "Future Tech" matches a title in any case. *)
Lemma niche_keywords_are_lowered :
  IntelligenceCore.matches_niche ["Future Tech"] (PyStr.lower "FUTURE TECH rising") = true
  /\ IntelligenceCore.excluded ["Future Tech"] (PyStr.lower "FUTURE TECH rising") = false.
Proof. split; vm_compute; reflexivity. Qed.

(** C10. The list returned by [_filter_and_score_trends] is a sublist of its
    input: the same trend dicts, in the same order, some of them dropped;
    nothing is added, repeated or moved. *)
Theorem filter_returns_sublist cfg trends w out w' :
  IntelligenceCore._filter_and_score_trends cfg trends w = (Ok out, w') ->
  out `sublist_of` trends.
Proof.
  intros H. apply filter_loop_inv in H as (kept & -> & Hsub & _). exact Hsub.
Qed.

Lemma filter_returns_sublist_witness :
  [5%nat; 0%nat; 4%nat] `sublist_of` [5%nat; 1%nat; 0%nat; 3%nat; 2%nat; 4%nat].
Proof.
  apply (filter_returns_sublist default_config
           [5%nat; 1%nat; 0%nat; 3%nat; 2%nat; 4%nat] w_six [5%nat; 0%nat; 4%nat]
           (snd (IntelligenceCore._filter_and_score_trends default_config
                   [5%nat; 1%nat; 0%nat; 3%nat; 2%nat; 4%nat] w_six))).
  vm_compute. reflexivity.
Defined.

(** The filter returns a list whenever the larger sentiment threshold is not
    zero and every virality fits a double. *)
Lemma score_trend_returns cfg_trend l virality_score w :
  IntelligenceCore.is_zero
    (IntelligenceCore.fmax (sentiment_threshold_positive cfg_trend)
                           (sentiment_threshold_negative cfg_trend)) = false ->
  is_ok (PyFloat.of_int virality_score) = true ->
  exists w',
    IntelligenceCore.score_trend cfg_trend l virality_score w = (Ok tt, w')
    /\ forall l', raw_virality (w_trends w' l') = raw_virality (w_trends w l').
Proof.
  intros Hdiv Hv.
  unfold IntelligenceCore.score_trend, bind, read_trend, write_trend, lift_result,
    with_rng, ret.
  assert (forall w2, (forall l', l' <> l -> w_trends w2 l' = w_trends w l') ->
                     raw_virality (w_trends w2 l) = raw_virality (w_trends w l) ->
                     forall l', raw_virality (w_trends w2 l') = raw_virality (w_trends w l'))
    as Hclose.
  { intros w2 Hother Hl l'. destruct (Nat.eq_dec l' l) as [->|Hne]; [exact Hl|].
    now rewrite Hother. }
  assert (exists sm, IntelligenceCore.classify_sentiment cfg_trend
                       (default IntelligenceCore.fzero (raw_sentiment_score (w_trends w l)))
                     = Ok sm) as [sm ->].
  { unfold IntelligenceCore.classify_sentiment. rewrite Hdiv.
    destruct (PyFloat.fgt _ _); [eexists; reflexivity|].
    destruct (PyFloat.flt _ _); eexists; reflexivity. }
  assert (exists base, IntelligenceCore.base_score virality_score sm = Ok base) as [base Hb].
  { unfold IntelligenceCore.base_score.
    destruct (PyFloat.of_int virality_score) as [v|e]; [|discriminate Hv].
    eexists; reflexivity. }
  destruct (time_series_analysis_enabled cfg_trend).
  - destruct (randint_total 3 14 (w_rng (set_trend l
                (IntelligenceCore.with_sentiment_analysis (w_trends w l) sm) w))
                ltac:(lia)) as (days & -> & _).
    cbn [w_rng set_rng set_trend w_trends]. rewrite Hb.
    eexists. split; [reflexivity|].
    apply Hclose; cbn [w_trends set_trend set_rng]; unfold upd.
    + intros l' Hne. apply Nat.eqb_neq in Hne. now rewrite !Hne.
    + now rewrite !Nat.eqb_refl.
  - cbn [set_trend w_trends]. rewrite Hb.
    eexists. split; [reflexivity|].
    apply Hclose; cbn [w_trends set_trend set_rng]; unfold upd.
    + intros l' Hne. apply Nat.eqb_neq in Hne. now rewrite !Hne.
    + now rewrite !Nat.eqb_refl.
Qed.

Lemma filter_returns cfg trends w :
  IntelligenceCore.is_zero
    (IntelligenceCore.fmax (sentiment_threshold_positive (trend_analysis cfg))
                           (sentiment_threshold_negative (trend_analysis cfg))) = false ->
  (forall l, is_ok (PyFloat.of_int (default 0 (raw_virality (w_trends w l)))) = true) ->
  exists out w', IntelligenceCore._filter_and_score_trends cfg trends w = (Ok out, w').
Proof.
  intros Hdiv. unfold IntelligenceCore._filter_and_score_trends.
  generalize (@nil loc) as filtered. revert w.
  induction trends as [|l rest IH]; intros w filtered Hv.
  - eexists _, _. reflexivity.
  - cbn [IntelligenceCore.filter_loop]. unfold bind at 1. unfold read_trend at 1.
    destruct (IntelligenceCore.excluded _ _); [now apply IH|].
    destruct (_ && _); [now apply IH|].
    destruct (_ <? _); [now apply IH|].
    destruct (score_trend_returns (trend_analysis cfg) l
                (default 0 (raw_virality (w_trends w l))) w Hdiv (Hv l))
      as (w1 & Hs & Hsame).
    unfold bind. rewrite Hs. apply IH. intros l'. now rewrite Hsame.
Qed.

(** The winner is one of the scored trends. *)
Lemma max_by_score_in w best rest :
  In (IntelligenceCore.max_by_score w best rest) (best :: rest).
Proof.
  revert best. induction rest as [|l rest IH]; intros best; cbn; [now left|].
  destruct (PyFloat.fgt _ _).
  - right. apply IH.
  - destruct (IH best) as [H|H]; [now left | now right; right].
Qed.

(** ** Topic selection *)

Lemma log_event_logged e w : log_event e w = (Ok tt, logged e w).
Proof. reflexivity. Qed.

(** C6, as amended. When at least one source yielded candidates and the
    filter leaves none of them, [analyze_trends_and_select_topic] returns
    [None] without substituting a fallback topic, and [run_full_cycle]
    returns [False] right after step 1. *)
Theorem empty_scoring_ends_cycle cfg ext w wc all w1 w2 :
  create_project_directories ext w = (Ok tt, wc) ->
  ta_enabled (trend_analysis cfg) = true ->
  IntelligenceCore.fetch_all cfg ext
    (primary_sources (trend_analysis cfg) ++ secondary_sources (trend_analysis cfg))
    [] (logged step_1 wc) = (Ok all, w1) ->
  all <> [] ->
  IntelligenceCore._filter_and_score_trends cfg all w1 = (Ok [], w2) ->
  IntelligenceCore.analyze_trends_and_select_topic cfg ext (logged step_1 wc) = (Ok None, w2)
  /\ AutoCreatorXOrchestrator.run_full_cycle cfg ext w = (Ok false, w2).
Proof.
  intros Hdirs Hta Hfetch Hne Hfilter.
  assert (IntelligenceCore.analyze_trends_and_select_topic cfg ext (logged step_1 wc)
          = (Ok None, w2)) as Hanalyze.
  { unfold IntelligenceCore.analyze_trends_and_select_topic. rewrite Hta. cbn [negb].
    unfold bind at 1. rewrite Hfetch. destruct all as [|l all]; [congruence|].
    unfold bind. rewrite Hfilter. reflexivity. }
  split; [exact Hanalyze|].
  unfold AutoCreatorXOrchestrator.run_full_cycle.
  unfold bind at 1. unfold try_except, bind at 1. rewrite Hdirs.
  unfold ret at 1. cbn [negb].
  unfold bind at 1. fold step_1. rewrite (log_event_logged step_1 wc).
  unfold bind at 1. rewrite Hanalyze. reflexivity.
Qed.

Lemma empty_scoring_ends_cycle_witness :
  let ext := succeeding "Future Tech: a quiet week" 10 in
  let fetched :=
    IntelligenceCore.fetch_all default_config ext
      (primary_sources default_trend_analysis ++ secondary_sources default_trend_analysis)
      [] (logged step_1 w0) in
  let scored :=
    IntelligenceCore._filter_and_score_trends default_config
      [3; 4; 5; 6; 7; 8; 9]%nat (snd fetched) in
  IntelligenceCore.analyze_trends_and_select_topic default_config ext (logged step_1 w0)
  = (Ok None, snd scored)
  /\ AutoCreatorXOrchestrator.run_full_cycle default_config ext w0 = (Ok false, snd scored).
Proof.
  intros ext fetched scored.
  apply (empty_scoring_ends_cycle default_config ext w0 w0
           [3; 4; 5; 6; 7; 8; 9]%nat (snd fetched) (snd scored)).
  - reflexivity.
  - reflexivity.
  - vm_compute. reflexivity.
  - discriminate.
  - vm_compute. reflexivity.
Defined.

(** C6, the claim as stated, fails: seven candidates were fetched, all below
    the minimum virality, so the scored list is empty; no fallback topic is
    substituted and the cycle ends with [False] before script generation. *)
Lemma empty_scoring_substitutes_no_fallback :
  let ext := succeeding "Future Tech: a quiet week" 10 in
  let fetched :=
    IntelligenceCore.fetch_all default_config ext
      (primary_sources default_trend_analysis ++ secondary_sources default_trend_analysis)
      [] (logged step_1 w0) in
  let run := AutoCreatorXOrchestrator.run_full_cycle default_config ext w0 in
  fst fetched = Ok [3; 4; 5; 6; 7; 8; 9]%nat
  /\ fst (IntelligenceCore._filter_and_score_trends default_config
            [3; 4; 5; 6; 7; 8; 9]%nat (snd fetched)) = Ok []
  /\ ~ (exists t,
          fst (IntelligenceCore.analyze_trends_and_select_topic default_config ext
                 (logged step_1 w0)) = Ok (Some t))
  /\ fst run = Ok false
  /\ w_trace (snd run)
     = [step_1;
        EvAttempt "YouTube_Trending_API" 1; EvAttempt "Google_Trends_API" 1;
        EvAttempt "Twitter_Realtime_API" 1; EvAttempt "Reddit_API_Targeted" 1;
        EvAttempt "News_API_Aggregator" 1; EvAttempt "Web_Scraper_HighAuthority" 1;
        EvAttempt "SEO_Keyword_Tools_API" 1].
Proof.
  cbv zeta. split; [vm_compute; reflexivity|]. split; [vm_compute; reflexivity|].
  split; [|split; vm_compute; reflexivity].
  intros [t H]. vm_compute in H. discriminate H.
Qed.

(** The two paths that do substitute a fallback topic. *)
Lemma disabled_analysis_uses_fallback cfg ext w :
  ta_enabled (trend_analysis cfg) = false ->
  IntelligenceCore.analyze_trends_and_select_topic cfg ext w
  = (Ok (Some IntelligenceCore.fallback_topic_001), w).
Proof.
  intros H. unfold IntelligenceCore.analyze_trends_and_select_topic. now rewrite H.
Qed.

Lemma no_candidates_uses_fallback cfg ext w w1 strategy :
  ta_enabled (trend_analysis cfg) = true ->
  IntelligenceCore.fetch_all cfg ext
    (primary_sources (trend_analysis cfg) ++ secondary_sources (trend_analysis cfg))
    [] w = (Ok [], w1) ->
  failback_mechanisms cfg !! "trend_analysis" = Some strategy ->
  PyStr.contains "use_cached_or_fallback_topics" strategy = true ->
  IntelligenceCore.analyze_trends_and_select_topic cfg ext w
  = (Ok (Some IntelligenceCore.fallback_topic_002), w1).
Proof.
  intros Hta Hfetch Hstrategy Hcontains.
  unfold IntelligenceCore.analyze_trends_and_select_topic. rewrite Hta. cbn [negb].
  unfold bind at 1. rewrite Hfetch.
  unfold bind, IntelligenceCore.failback_strategy_of. rewrite Hstrategy.
  unfold ret at 1. now rewrite Hcontains.
Qed.

(** ** The monetization stage *)

(** C9. With monetization globally disabled, [apply_monetization_strategies]
    returns the script object and the metadata object it was given, and no
    object, log entry or random draw changes. *)
Theorem monetization_disabled_returns_inputs cfg ext script_object metadata_object
    video_duration_seconds topic_title target_platform w :
  mon_enabled (monetization cfg) = false ->
  MonetizationManager.apply_monetization_strategies cfg ext script_object metadata_object
    video_duration_seconds topic_title target_platform w
  = (Ok (script_object, metadata_object), w).
Proof.
  intros H. unfold MonetizationManager.apply_monetization_strategies. now rewrite H.
Qed.

Lemma monetization_disabled_returns_inputs_witness :
  MonetizationManager.apply_monetization_strategies
    (with_monetization_disabled default_config) (succeeding "Future Tech rising" 90)
    0%nat 1%nat 660 "Future Tech rising" "youtube" w0
  = (Ok (0%nat, 1%nat), w0).
Proof.
  apply (monetization_disabled_returns_inputs (with_monetization_disabled default_config)
           (succeeding "Future Tech rising" 90) 0%nat 1%nat 660 "Future Tech rising"
           "youtube" w0).
  reflexivity.
Defined.

(** When monetization is enabled the function works on copies: the returned
    references are fresh. *)
Lemma monetization_enabled_returns_copies :
  fst (MonetizationManager.apply_monetization_strategies default_config
         (succeeding "Future Tech rising" 90) 0%nat 1%nat 660 "Future Tech rising"
         "youtube" w0)
  = Ok (3%nat, 4%nat).
Proof. vm_compute. reflexivity. Qed.

(** ** The orchestrator *)

(** The call of step 2.5 passes [platform=...] to a function whose parameter
    is [target_platform]. *)
Lemma monetization_call_does_not_bind :
  AutoCreatorXOrchestrator.bind_arguments
    AutoCreatorXOrchestrator.apply_monetization_strategies_qualname
    AutoCreatorXOrchestrator.apply_monetization_strategies_parameters 5 ["platform"]
  = Raise (TypeError ("MonetizationManager.apply_monetization_strategies() "
                      +:+ "got an unexpected keyword argument 'platform'")).
Proof. vm_compute. reflexivity. Qed.

(** With the keyword the function declares, the same call would bind. *)
Lemma monetization_call_with_declared_keyword :
  AutoCreatorXOrchestrator.bind_arguments
    AutoCreatorXOrchestrator.apply_monetization_strategies_qualname
    AutoCreatorXOrchestrator.apply_monetization_strategies_parameters 5 ["target_platform"]
  = Ok tt.
Proof. vm_compute. reflexivity. Qed.

(** No cycle returns [True]: every run that gets past script generation
    stops at the call of step 2.5. *)
Lemma run_full_cycle_never_true cfg ext w b w' :
  AutoCreatorXOrchestrator.run_full_cycle cfg ext w = (Ok b, w') -> b = false.
Proof.
  unfold AutoCreatorXOrchestrator.run_full_cycle. intros H.
  apply bind_ok_inv in H as (created & w1 & _ & H).
  destruct created; cbn [negb] in H.
  2:{ now apply ret_ok_inv in H as [<- _]. }
  apply bind_ok_inv in H as ([] & w2 & _ & H).
  apply bind_ok_inv in H as (selected & w3 & _ & H).
  destruct selected as [selected|].
  2:{ now apply ret_ok_inv in H as [<- _]. }
  apply bind_ok_inv in H as ([] & w4 & _ & H).
  apply bind_ok_inv in H as (tuple & w5 & _ & H).
  destruct tuple as [[script_object metadata_object]|].
  2:{ now apply ret_ok_inv in H as [<- _]. }
  apply bind_ok_inv in H as (duration & w6 & _ & H).
  apply bind_ok_inv in H as ([] & w7 & _ & H).
  apply bind_ok_inv in H as (topic_title & w8 & _ & H).
  apply bind_ok_inv in H as ([] & w9 & Hbind & _).
  rewrite monetization_call_does_not_bind in Hbind. discriminate Hbind.
Qed.

(** In the handler of a failed upload, a missing failback key raises. *)
Lemma upload_failed_raises cfg platform_name upload_statuses e w :
  failback_mechanisms cfg !! (platform_name +:+ "_upload_failback") = None ->
  PlatformOperations.upload_failed cfg platform_name upload_statuses e w
  = (Raise none_type_error, w).
Proof.
  intros H. unfold PlatformOperations.upload_failed, bind, lift_result.
  now rewrite (handle_api_error_missing_key _ _ _ _ H).
Qed.

(** Steps 3 to 5, entered directly, do treat the lack of any successful
    upload as a partial success: with a single platform that has no client,
    the error is logged, step 5 is run and the result is [True]. *)
Lemma no_successful_upload_is_partial_success :
  let rest := AutoCreatorXOrchestrator.media_upload_feedback only_vimeo
                (succeeding "Future Tech rising" 90) (SelectedTrend 3%nat)
                0%nat 1%nat 660 w0 in
  fst rest = Ok true
  /\ w_trace (snd rest)
     = [EvStep "STEP 3: Media Production"; EvStep "STEP 4: Platform Upload";
        EvError AutoCreatorXOrchestrator.upload_error_banner;
        EvStep "STEP 5: Feedback Loop Operations"].
Proof. split; vm_compute; reflexivity. Qed.

(** A report that cannot be written leaves the uploader as an exception,
    whatever the loop over the platforms recorded. *)
Lemma report_write_failure_leaves_the_uploader cfg ext final_video_path thumbnail_path
    metadata_object script_object w upload_statuses w1 e w2 :
  PlatformOperations.upload_loop cfg ext metadata_object (platform_ops cfg) [] w
  = (Ok upload_statuses, w1) ->
  write_upload_report ext (PlatformOperations.upload_log_path w1 script_object)
    upload_statuses w1 = (Raise e, w2) ->
  PlatformOperations.upload_content_to_platforms cfg ext final_video_path thumbnail_path
    metadata_object script_object w
  = (Raise e, w2).
Proof.
  intros Hloop Hwrite. unfold PlatformOperations.upload_content_to_platforms.
  unfold bind at 1. rewrite Hloop. unfold bind at 1. rewrite Hwrite. reflexivity.
Qed.


(** * Further properties *)

(** ** slugify *)

Lemma slug_char_plain c :
  Slug.is_slug_char c = true ->
  PyStr.lower_ascii c = c /\ Slug.is_space c = false.
Proof.
  destruct c as [[] [] [] [] [] [] [] []]; vm_compute; intros H;
    try discriminate H; split; reflexivity.
Qed.

Lemma edge_char_is_slug_char c : Slug.is_edge_char c = true -> Slug.is_slug_char c = true.
Proof.
  destruct c as [[] [] [] [] [] [] [] []]; vm_compute; intros H;
    try discriminate H; reflexivity.
Qed.

Lemma underscore_is_edge c : Slug.is_underscore c = true -> Slug.is_edge_char c = true.
Proof.
  unfold Slug.is_underscore, Slug.is_edge_char. cbv zeta. now intros ->.
Qed.

Lemma all_chars_keep text : Slug.all_chars Slug.is_slug_char (Slug.keep_slug_chars text) = true.
Proof.
  induction text as [|c text IH]; [reflexivity|]. cbn.
  destruct (Slug.is_slug_char c) eqn:E; [|exact IH]. cbn. now rewrite E.
Qed.

Lemma all_chars_collapse test in_run text :
  Slug.all_chars test text = true ->
  Slug.all_chars test (Slug.collapse_underscores in_run text) = true.
Proof.
  revert in_run. induction text as [|c text IH]; intros in_run H; [reflexivity|].
  cbn in H. apply andb_true_iff in H as [Hc H]. cbn [Slug.collapse_underscores].
  destruct (Slug.is_underscore c); [destruct in_run|]; cbn [Slug.all_chars];
    rewrite ?Hc; cbn [andb]; apply IH; exact H.
Qed.

Lemma all_chars_lstrip test text :
  Slug.all_chars test text = true -> Slug.all_chars test (Slug.lstrip_edges text) = true.
Proof.
  induction text as [|c text IH]; intros H; [reflexivity|].
  cbn [Slug.lstrip_edges]. destruct (Slug.is_edge_char c); [|exact H].
  cbn in H. apply andb_true_iff in H as [_ H]. auto.
Qed.

Lemma all_chars_rstrip test text :
  Slug.all_chars test text = true -> Slug.all_chars test (Slug.rstrip_edges text) = true.
Proof.
  induction text as [|c text IH]; intros H; [reflexivity|].
  cbn in H. apply andb_true_iff in H as [Hc H]. specialize (IH H).
  cbn [Slug.rstrip_edges]. destruct (Slug.rstrip_edges text) as [|c' stripped].
  - destruct (Slug.is_edge_char c); [reflexivity|]. cbn. now rewrite Hc.
  - cbn [Slug.all_chars] in *. rewrite Hc. exact IH.
Qed.

(** The text before the final test for emptiness. *)
Lemma slugify_cases text :
  let stripped :=
    Slug.strip_edges
      (Slug.collapse_underscores false
         (Slug.keep_slug_chars (Slug.whitespace_to_underscore false (PyStr.lower text)))) in
  (stripped = EmptyString /\ Slug.slugify text = "untitled")
  \/ (stripped <> EmptyString /\ Slug.slugify text = stripped).
Proof.
  cbv zeta. unfold Slug.slugify. cbv zeta.
  destruct (Slug.strip_edges _) as [|c rest].
  - left. split; reflexivity.
  - right. split; [discriminate | reflexivity].
Qed.

Lemma slug_chars_only text :
  Slug.all_chars Slug.is_slug_char (Slug.slugify text) = true.
Proof.
  destruct (slugify_cases text) as [[_ ->]|[_ ->]]; [reflexivity|].
  unfold Slug.strip_edges.
  apply all_chars_rstrip, all_chars_lstrip, all_chars_collapse, all_chars_keep.
Qed.

Lemma lstrip_first text c :
  Slug.first_char (Slug.lstrip_edges text) = Some c -> Slug.is_edge_char c = false.
Proof.
  induction text as [|d text IH]; [discriminate|].
  cbn [Slug.lstrip_edges]. destruct (Slug.is_edge_char d) eqn:E; [exact IH|].
  cbn. intros H. injection H as <-. exact E.
Qed.

Lemma rstrip_last text c :
  Slug.last_char (Slug.rstrip_edges text) = Some c -> Slug.is_edge_char c = false.
Proof.
  induction text as [|d text IH]; [discriminate|].
  cbn [Slug.rstrip_edges]. destruct (Slug.rstrip_edges text) as [|c' stripped].
  - destruct (Slug.is_edge_char d) eqn:E; [discriminate|].
    cbn. intros H. injection H as <-. exact E.
  - intros H. apply IH. exact H.
Qed.

(** Stripping on the right keeps a first character that is not stripped. *)
Lemma rstrip_first text c :
  Slug.first_char text = Some c -> Slug.is_edge_char c = false ->
  Slug.first_char (Slug.rstrip_edges text) = Some c.
Proof.
  destruct text as [|d text]; [discriminate|]. cbn [Slug.first_char].
  intros H E. injection H as ->. cbn [Slug.rstrip_edges].
  destruct (Slug.rstrip_edges text); [now rewrite E | reflexivity].
Qed.

Lemma rstrip_fixed text :
  (forall c, Slug.last_char text = Some c -> Slug.is_edge_char c = false) ->
  Slug.rstrip_edges text = text.
Proof.
  induction text as [|d text IH]; intros H; [reflexivity|].
  cbn [Slug.rstrip_edges]. destruct text as [|d' text].
  - cbn. rewrite (H d eq_refl). reflexivity.
  - rewrite IH; [reflexivity|]. intros c Hc. apply H. exact Hc.
Qed.

Lemma lstrip_fixed text :
  (forall c, Slug.first_char text = Some c -> Slug.is_edge_char c = false) ->
  Slug.lstrip_edges text = text.
Proof.
  destruct text as [|d text]; intros H; [reflexivity|].
  cbn. now rewrite (H d eq_refl).
Qed.

Lemma strip_first text c :
  Slug.first_char (Slug.strip_edges text) = Some c -> Slug.is_edge_char c = false.
Proof.
  unfold Slug.strip_edges. intros H.
  destruct (Slug.lstrip_edges text) as [|d rest] eqn:E; [discriminate H|].
  assert (Slug.is_edge_char d = false) as Hd by (apply (lstrip_first text); now rewrite E).
  rewrite (rstrip_first (String d rest) d eq_refl Hd) in H. now injection H as <-.
Qed.

Lemma nonempty_has_ends text :
  text <> EmptyString ->
  exists c c', Slug.first_char text = Some c /\ Slug.last_char text = Some c'.
Proof.
  induction text as [|d text IH]; intros H; [congruence|].
  destruct text as [|d' text].
  - now exists d, d.
  - destruct IH as (c & c' & _ & Hl); [discriminate|]. now exists d, c'.
Qed.

Lemma slug_ends text :
  exists c c',
    Slug.first_char (Slug.slugify text) = Some c
    /\ Slug.last_char (Slug.slugify text) = Some c'
    /\ Slug.is_alnum c = true /\ Slug.is_alnum c' = true.
Proof.
  pose proof (slug_chars_only text) as Hall.
  destruct (slugify_cases text) as [[_ E]|[Hne E]].
  - rewrite E. exists "u"%char, "d"%char. repeat split; reflexivity.
  - rewrite E in *. destruct (nonempty_has_ends _ Hne) as (c & c' & Hc & Hc').
    exists c, c'. split; [exact Hc|]. split; [exact Hc'|].
    assert (forall t d, Slug.all_chars Slug.is_slug_char t = true ->
                        Slug.first_char t = Some d -> Slug.is_slug_char d = true) as Hf.
    { intros [|x t] d Ht Hd; [discriminate|]. cbn in *. injection Hd as <-.
      now apply andb_true_iff in Ht as [-> _]. }
    assert (forall t d, Slug.all_chars Slug.is_slug_char t = true ->
                        Slug.last_char t = Some d -> Slug.is_slug_char d = true) as Hl.
    { induction t as [|x t IHt]; intros d Ht Hd; [discriminate|].
      cbn in Ht. apply andb_true_iff in Ht as [Hx Ht].
      destruct t as [|y t]; [cbn in Hd; injection Hd as <-; exact Hx|].
      apply IHt; [exact Ht | exact Hd]. }
    unfold Slug.is_alnum. rewrite (Hf _ _ Hall Hc), (Hl _ _ Hall Hc').
    rewrite (strip_first _ _ Hc). unfold Slug.strip_edges in Hc'.
    now rewrite (rstrip_last _ _ Hc').
Qed.

Lemma is_underscore_spec c : Slug.is_underscore c = true <-> c = "_"%char.
Proof.
  destruct c as [[] [] [] [] [] [] [] []]; vm_compute; split; intros H;
    try discriminate H; reflexivity.
Qed.

Lemma no_double_collapse in_run text :
  Slug.no_double_underscore in_run (Slug.collapse_underscores in_run text) = true.
Proof.
  revert in_run. induction text as [|c text IH]; intros in_run; [reflexivity|].
  cbn [Slug.collapse_underscores]. destruct (Slug.is_underscore c) eqn:E.
  - destruct in_run; [apply IH|]. cbn [Slug.no_double_underscore]. rewrite E. apply IH.
  - cbn [Slug.no_double_underscore]. rewrite E. apply IH.
Qed.

Lemma no_double_lstrip after text :
  Slug.no_double_underscore after text = true ->
  Slug.no_double_underscore false (Slug.lstrip_edges text) = true.
Proof.
  revert after. induction text as [|c text IH]; intros after H; [reflexivity|].
  cbn [Slug.lstrip_edges]. cbn [Slug.no_double_underscore] in H.
  destruct (Slug.is_edge_char c) eqn:E.
  - destruct (Slug.is_underscore c).
    + apply andb_true_iff in H as [_ H]. eapply IH, H.
    + eapply IH, H.
  - cbn [Slug.no_double_underscore].
    destruct (Slug.is_underscore c) eqn:U; [|exact H].
    apply underscore_is_edge in U. congruence.
Qed.

Lemma no_double_rstrip after text :
  Slug.no_double_underscore after text = true ->
  Slug.no_double_underscore after (Slug.rstrip_edges text) = true.
Proof.
  revert after. induction text as [|c text IH]; intros after H; [reflexivity|].
  cbn [Slug.rstrip_edges]. cbn [Slug.no_double_underscore] in H.
  destruct (Slug.is_underscore c) eqn:U.
  - apply andb_true_iff in H as [Ha H]. specialize (IH true H).
    destruct (Slug.rstrip_edges text) as [|c' stripped].
    + now rewrite (underscore_is_edge _ U).
    + cbn [Slug.no_double_underscore] in *. now rewrite U, Ha.
  - specialize (IH false H).
    destruct (Slug.rstrip_edges text) as [|c' stripped].
    + destruct (Slug.is_edge_char c); [reflexivity|]. cbn. now rewrite U.
    + cbn [Slug.no_double_underscore] in *. now rewrite U.
Qed.

Lemma no_double_slugify text : Slug.no_double_underscore false (Slug.slugify text) = true.
Proof.
  destruct (slugify_cases text) as [[_ ->]|[_ ->]]; [reflexivity|].
  unfold Slug.strip_edges.
  apply no_double_rstrip. eapply no_double_lstrip. apply no_double_collapse.
Qed.

Lemma no_double_no_pair after text :
  Slug.no_double_underscore after text = true -> PyStr.contains "__" text = false.
Proof.
  revert after. induction text as [|c text IH]; intros after H; [reflexivity|].
  cbn [PyStr.contains].
  assert (PyStr.contains "__" text = false) as ->.
  { cbn [Slug.no_double_underscore] in H. destruct (Slug.is_underscore c).
    - apply andb_true_iff in H as [_ H]. eapply IH, H.
    - eapply IH, H. }
  rewrite orb_false_r.
  destruct (String.prefix "__" (String c text)) eqn:P; [|reflexivity].
  apply prefix_spec in P as [post P]. rewrite !append_cons, append_empty in P.
  injection P as -> ->. cbn [Slug.no_double_underscore] in H.
  change (Slug.is_underscore "_") with true in H. cbv iota in H.
  destruct after; discriminate H.
Qed.

(** X1. A slug consists of lower-case letters, digits, underscores, hyphens and
    periods only. *)
Theorem slugify_alphabet text :
  Slug.all_chars Slug.is_slug_char (Slug.slugify text) = true.
Proof. apply slug_chars_only. Qed.

(** X2. A slug is never empty, and it begins and ends with a lower-case letter
    or a digit. *)
Theorem slugify_begins_and_ends_alphanumeric text :
  exists c c',
    Slug.first_char (Slug.slugify text) = Some c
    /\ Slug.last_char (Slug.slugify text) = Some c'
    /\ Slug.is_alnum c = true /\ Slug.is_alnum c' = true.
Proof. apply slug_ends. Qed.

(** X3. A slug never holds two underscores in a row. *)
Theorem slugify_no_double_underscore text :
  PyStr.contains "__" (Slug.slugify text) = false.
Proof. eapply no_double_no_pair, no_double_slugify. Qed.

Lemma lower_fixed text :
  Slug.all_chars Slug.is_slug_char text = true -> PyStr.lower text = text.
Proof.
  induction text as [|c text IH]; intros H; [reflexivity|].
  cbn [Slug.all_chars] in H. apply andb_true_iff in H as [Hc H]. cbn [PyStr.lower].
  now rewrite (proj1 (slug_char_plain c Hc)), IH.
Qed.

Lemma whitespace_fixed in_run text :
  Slug.all_chars Slug.is_slug_char text = true ->
  Slug.whitespace_to_underscore in_run text = text.
Proof.
  revert in_run. induction text as [|c text IH]; intros in_run H; [reflexivity|].
  cbn [Slug.all_chars] in H. apply andb_true_iff in H as [Hc H].
  cbn [Slug.whitespace_to_underscore].
  now rewrite (proj2 (slug_char_plain c Hc)), IH.
Qed.

Lemma keep_fixed text :
  Slug.all_chars Slug.is_slug_char text = true -> Slug.keep_slug_chars text = text.
Proof.
  induction text as [|c text IH]; intros H; [reflexivity|].
  cbn [Slug.all_chars] in H. apply andb_true_iff in H as [Hc H].
  cbn [Slug.keep_slug_chars]. now rewrite Hc, IH.
Qed.

Lemma collapse_fixed in_run text :
  Slug.no_double_underscore in_run text = true ->
  Slug.collapse_underscores in_run text = text.
Proof.
  revert in_run. induction text as [|c text IH]; intros in_run H; [reflexivity|].
  cbn [Slug.no_double_underscore] in H. cbn [Slug.collapse_underscores].
  destruct (Slug.is_underscore c).
  - apply andb_true_iff in H as [Ha H]. destruct in_run; [discriminate Ha|].
    now rewrite IH.
  - now rewrite IH.
Qed.

(** X4. Slugifying a slug changes nothing. *)
Theorem slugify_idempotent text :
  Slug.slugify (Slug.slugify text) = Slug.slugify text.
Proof.
  pose proof (slug_chars_only text) as Hall.
  pose proof (no_double_slugify text) as Hnd.
  destruct (slug_ends text) as (c & c' & Hc & Hc' & Ac & Ac').
  set (slug := Slug.slugify text) in *.
  unfold Slug.slugify at 1. cbv zeta.
  rewrite (lower_fixed _ Hall), (whitespace_fixed _ _ Hall), (keep_fixed _ Hall),
    (collapse_fixed _ _ Hnd).
  unfold Slug.strip_edges.
  rewrite lstrip_fixed, rstrip_fixed.
  - destruct slug; [discriminate Hc | reflexivity].
  - intros d Hd. rewrite Hc' in Hd. injection Hd as <-.
    unfold Slug.is_alnum in Ac'. apply andb_true_iff in Ac' as [_ E].
    now apply negb_true_iff in E.
  - intros d Hd. rewrite Hc in Hd. injection Hd as <-.
    unfold Slug.is_alnum in Ac. apply andb_true_iff in Ac as [_ E].
    now apply negb_true_iff in E.
Qed.

(** A title with capitals, punctuation and runs of white space. *)
Example slugify_title :
  Slug.slugify "  --Hello,   World.. " = "hello_world"
  /\ Slug.slugify "___" = "untitled".
Proof. split; vm_compute; reflexivity. Qed.

(** ** Ad breaks: the "manual_timed" strategy and the strategy name *)

Lemma remove_dups_fixed (l : list Z) : NoDup l -> remove_dups l = l.
Proof.
  induction 1 as [|x l Hx Hl IH]; [reflexivity|].
  cbn. destruct (decide_rel elem_of x l) as [Hin|_]; [contradiction|]. now rewrite IH.
Qed.

Lemma increasing_NoDup (l : list Z) : StronglySorted Z.lt l -> NoDup l.
Proof.
  induction 1 as [|x l Hl IH Hx]; constructor; [|exact IH].
  intros Hin. rewrite Forall_forall in Hx. specialize (Hx x Hin). lia.
Qed.

Lemma unique_sorted_fixed (l : list Z) :
  StronglySorted Z.lt l -> Utilities.unique_sorted l = l.
Proof.
  intros Hs. unfold Utilities.unique_sorted.
  rewrite (remove_dups_fixed l (increasing_NoDup l Hs)).
  apply (StronglySorted_unique Z.le).
  - apply StronglySorted_merge_sort; apply _.
  - clear -Hs. induction Hs as [|x l Hl IH Hx]; constructor; [exact IH|].
    eapply Forall_impl; [exact Hx|]. cbn. intros y Hy. lia.
  - apply merge_sort_Permutation.
Qed.

(** The breaks [t, t + i, t + 2 i, ...], [n] of them. *)
Lemma manual_timed_loop_steps n fuel d interval current_time breaks :
  (n <= fuel)%nat ->
  0 < interval ->
  d - 60 <= current_time + Z.of_nat n * interval ->
  (forall j, (j < n)%nat -> current_time + Z.of_nat j * interval < d - 60) ->
  Utilities.manual_timed_loop fuel d interval current_time breaks
  = breaks ++ map (fun j => current_time + Z.of_nat j * interval) (seq 0 n).
Proof.
  revert fuel current_time breaks.
  induction n as [|n IH]; intros fuel current_time breaks Hfuel Hi Hexit Hin.
  - cbn [seq map]. rewrite app_nil_r. destruct fuel as [|fuel]; [reflexivity|].
    cbn. replace (current_time <? d - 60) with false; [reflexivity|].
    symmetry. apply Z.ltb_ge. lia.
  - destruct fuel as [|fuel]; [lia|]. cbn [Utilities.manual_timed_loop].
    replace (current_time <? d - 60) with true.
    2:{ symmetry. apply Z.ltb_lt. specialize (Hin 0%nat ltac:(lia)). lia. }
    rewrite (IH fuel (current_time + interval) (breaks ++ [current_time])); try lia.
    + rewrite <- app_assoc. cbn [app seq map]. f_equal. f_equal; [lia|].
      rewrite <- seq_shift, map_map. apply map_ext. intros j. lia.
    + intros j Hj. specialize (Hin (S j) ltac:(lia)). lia.
Qed.

Lemma greedy_keeps_steps d interval n current_time last_break_time :
  120 <= interval ->
  60 < current_time ->
  120 <= current_time - last_break_time ->
  (forall j, (j < n)%nat -> current_time + Z.of_nat j * interval < d - 60) ->
  greedy_spacing d last_break_time
    (map (fun j => current_time + Z.of_nat j * interval) (seq 0 n))
  = map (fun j => current_time + Z.of_nat j * interval) (seq 0 n).
Proof.
  intros Hi. revert current_time last_break_time.
  induction n as [|n IH]; intros current_time last_break_time Hlo Hgap Hin; [reflexivity|].
  cbn [seq map greedy_spacing].
  replace (current_time + Z.of_nat 0 * interval) with current_time by lia.
  replace ((60 <? current_time) && (current_time <? d - 60)
           && (120 <=? current_time - last_break_time)) with true.
  2:{ symmetry. rewrite !andb_true_iff, !Z.ltb_lt, Z.leb_le.
      specialize (Hin 0%nat ltac:(lia)). lia. }
  f_equal. rewrite <- seq_shift, map_map.
  rewrite (map_ext _ (fun j => (current_time + interval) + Z.of_nat j * interval))
    by (intros j; lia).
  apply IH; try lia.
  intros j Hj. specialize (Hin (S j) ltac:(lia)). lia.
Qed.

Lemma steps_increasing interval n current_time :
  0 < interval ->
  StronglySorted Z.lt (map (fun j => current_time + Z.of_nat j * interval) (seq 0 n)).
Proof.
  intros Hi. revert current_time.
  induction n as [|n IH]; intros current_time; [constructor|].
  cbn [seq map]. rewrite <- seq_shift, map_map.
  rewrite (map_ext _ (fun j => (current_time + interval) + Z.of_nat j * interval))
    by (intros j; lia).
  constructor; [apply IH|].
  apply Forall_forall. intros x Hx. apply list_elem_of_In in Hx.
  apply in_map_iff in Hx as (j & <- & _). nia.
Qed.

(** X5. For a video of at least 480 seconds and a "manual_timed" strategy, the
    result is every multiple of the drawn interval (between 300 and 420
    seconds) that lies below [duration - 60]: the clean-up removes none of
    them. *)
Theorem manual_timed_breaks_are_the_multiples d strategy hint g :
  480 <= d ->
  PyStr.contains "ai_optimized" (PyStr.lower strategy) = false ->
  PyStr.contains "auto_optimized" (PyStr.lower strategy) = false ->
  PyStr.contains "manual_timed" (PyStr.lower strategy) = true ->
  exists interval g',
    300 <= interval <= 420
    /\ Utilities.calculate_optimal_ad_breaks d strategy hint g
       = (Ok (map (fun k => Z.of_nat k * interval)
                (seq 1 (Z.to_nat ((d - 61) / interval)))), g').
Proof.
  intros Hd Hai Hauto Hmanual.
  destruct (randint_total 300 420 g ltac:(lia)) as (interval & Hr & Hrange).
  exists interval, (snd (next_draw g)). split; [exact Hrange|].
  unfold Utilities.calculate_optimal_ad_breaks.
  replace (d <? 60 * 8) with false by (symmetry; apply Z.ltb_ge; lia).
  rewrite Hai, Hauto, Hmanual. cbn [orb].
  unfold Utilities.manual_timed_breaks, bind, ret. rewrite Hr.
  set (n := Z.to_nat ((d - 61) / interval)).
  assert (0 <= (d - 61) / interval) as Hq by (apply Z.div_pos; lia).
  assert (Z.of_nat n * interval <= d - 61) as Hlow.
  { unfold n. rewrite Z2Nat.id by exact Hq.
    pose proof (Z.mul_div_le (d - 61) interval ltac:(lia)). lia. }
  assert (d - 61 < (Z.of_nat n + 1) * interval) as Hhigh.
  { unfold n. rewrite Z2Nat.id by exact Hq.
    pose proof (Z.mul_succ_div_gt (d - 61) interval ltac:(lia)). lia. }
  assert (forall j, (j < n)%nat -> interval + Z.of_nat j * interval < d - 60) as Hin.
  { intros j Hj.
    assert ((Z.of_nat j + 1) * interval <= Z.of_nat n * interval)
      by (apply Z.mul_le_mono_nonneg_r; lia).
    lia. }
  assert ((d - 61) / interval < d) as Hlt.
  { apply Z.div_lt_upper_bound; nia. }
  rewrite (manual_timed_loop_steps n (Z.to_nat d) d interval interval []);
    [|unfold n; lia|lia|lia|exact Hin].
  cbn [app].
  assert (map (fun k => Z.of_nat k * interval) (seq 1 n)
          = map (fun j => interval + Z.of_nat j * interval) (seq 0 n)) as ->.
  { rewrite <- seq_shift, map_map. apply map_ext. intros j. lia. }
  rewrite clean_up_greedy.
  destruct (map (fun j => interval + Z.of_nat j * interval) (seq 0 n)) as [|b bs] eqn:E;
    [reflexivity|].
  rewrite <- E. rewrite unique_sorted_fixed by (apply steps_increasing; lia).
  rewrite greedy_keeps_steps; [reflexivity|lia|lia|lia|exact Hin].
Qed.

Lemma manual_timed_breaks_are_the_multiples_witness :
  exists interval g',
    300 <= interval <= 420
    /\ Utilities.calculate_optimal_ad_breaks 2000 "Manual_Timed" None a_stream
       = (Ok (map (fun k => Z.of_nat k * interval)
                (seq 1 (Z.to_nat ((2000 - 61) / interval)))), g').
Proof.
  apply (manual_timed_breaks_are_the_multiples 2000 "Manual_Timed" None a_stream).
  - lia.
  - vm_compute. reflexivity.
  - vm_compute. reflexivity.
  - vm_compute. reflexivity.
Defined.

Lemma lower_ascii_idempotent c : PyStr.lower_ascii (PyStr.lower_ascii c) = PyStr.lower_ascii c.
Proof. destruct c as [[] [] [] [] [] [] [] []]; vm_compute; reflexivity. Qed.

Lemma lower_idempotent s : PyStr.lower (PyStr.lower s) = PyStr.lower s.
Proof.
  induction s as [|c s IH]; [reflexivity|]. cbn [PyStr.lower].
  now rewrite lower_ascii_idempotent, IH.
Qed.

(** X6. The strategy name is matched without regard to case: a name and its
    lower-case form give the same breaks on every stream. *)
Theorem ad_break_strategy_ignores_case d strategy hint g :
  Utilities.calculate_optimal_ad_breaks d strategy hint g
  = Utilities.calculate_optimal_ad_breaks d (PyStr.lower strategy) hint g.
Proof.
  unfold Utilities.calculate_optimal_ad_breaks. now rewrite lower_idempotent.
Qed.

(** ** The retry loop, in general *)

Lemma seconds_slept_app t1 t2 : seconds_slept (t1 ++ t2) = seconds_slept t1 + seconds_slept t2.
Proof.
  induction t1 as [|e t1 IH]; [reflexivity|]. cbn [app seconds_slept].
  destruct e; rewrite IH; lia.
Qed.

Lemma attempts_in_app t1 t2 : attempts_in (t1 ++ t2) = (attempts_in t1 + attempts_in t2)%nat.
Proof. unfold attempts_in. now rewrite List.filter_app, length_app. Qed.

Section RetryInGeneral.

Variable cfg : config.
Variable ext : collaborators.
Variable source_api_name : string.
Variable strategy : string.
Hypothesis Hstrategy : failback_mechanisms cfg !! "trend_analysis" = Some strategy.
Hypothesis Hdelay : 0 <= error_retry_delay_minutes cfg.
Hypothesis Hbound :
  error_retry_delay_minutes cfg * 60 * 2 ^ (max_step_retries cfg - 2) <= max_sleep_seconds.
Hypothesis Hfails : always_fails ext source_api_name.

(** The longest sleep is the one before the last attempt. *)
Lemma sleep_before_retry_in_range attempt :
  Zpos attempt < max_step_retries cfg ->
  error_retry_delay_minutes cfg * 60 * 2 ^ (Zpos attempt - 1) <= max_sleep_seconds.
Proof.
  intros Hlt.
  assert (2 ^ (Zpos attempt - 1) <= 2 ^ (max_step_retries cfg - 2)) as Hpow
    by (apply Z.pow_le_mono_r; lia).
  assert (0 <= 2 ^ (Zpos attempt - 1)) by (apply Z.pow_nonneg; lia).
  eapply Z.le_trans; [|exact Hbound].
  apply Z.mul_le_mono_nonneg_l; [lia | exact Hpow].
Qed.

(** From attempt [attempt] on, with exactly the fuel left for the attempts
    up to [max_step_retries]. *)
Lemma retry_loop_exhausts_from fuel attempt all w :
  Zpos attempt + Z.of_nat fuel = max_step_retries cfg ->
  exists w' t,
    IntelligenceCore.retry_loop (S fuel) cfg ext source_api_name attempt all w = (Ok all, w')
    /\ w_trace w' = w_trace w ++ t
    /\ attempts_in t = S fuel
    /\ seconds_slept t
       = error_retry_delay_minutes cfg * 60
         * (2 ^ (max_step_retries cfg - 1) - 2 ^ (Zpos attempt - 1)).
Proof.
  revert attempt w. induction fuel as [|fuel IH]; intros attempt w Hmax.
  - destruct (retry_loop_last_attempt cfg ext source_api_name strategy Hstrategy Hfails
                0 attempt all w ltac:(lia)) as (w1 & E & T).
    exists w1, [EvAttempt source_api_name attempt;
                EvPermanentFailure ("TrendSource_" +:+ source_api_name)].
    split; [exact E|]. split; [exact T|]. split; [reflexivity|].
    cbn [seconds_slept]. replace (max_step_retries cfg - 1) with (Zpos attempt - 1) by lia.
    lia.
  - destruct (retry_loop_failed_attempt cfg ext source_api_name strategy Hstrategy Hdelay
                Hfails (S fuel) attempt all w ltac:(lia)
                (sleep_before_retry_in_range attempt ltac:(lia))) as (w1 & E & T).
    destruct (IH (Pos.succ attempt) w1 ltac:(lia)) as (w2 & t & E2 & T2 & A2 & S2).
    exists w2, ([EvAttempt source_api_name attempt;
                 EvSleep (error_retry_delay_minutes cfg * 60 * 2 ^ (Zpos attempt - 1))] ++ t).
    split; [now rewrite E|]. split; [now rewrite T2, T, <- app_assoc|].
    split; [rewrite attempts_in_app, A2; reflexivity|].
    rewrite seconds_slept_app, S2. cbn [seconds_slept].
    replace (Zpos (Pos.succ attempt) - 1) with (Z.succ (Zpos attempt - 1)) by lia.
    rewrite Z.pow_succ_r by lia. lia.
Qed.

(** Whatever the fuel and the attempt, the loop ends and the source is
    dropped. *)
Lemma retry_loop_always_failing_returns fuel attempt all w :
  exists w', IntelligenceCore.retry_loop fuel cfg ext source_api_name attempt all w
             = (Ok all, w').
Proof.
  revert attempt w. induction fuel as [|fuel IH]; intros attempt w.
  - now exists w.
  - destruct (Z.lt_trichotomy (Zpos attempt) (max_step_retries cfg)) as [Hlt|[Heq|Hgt]].
    + destruct (retry_loop_failed_attempt cfg ext source_api_name strategy Hstrategy Hdelay
                  Hfails fuel attempt all w Hlt (sleep_before_retry_in_range attempt Hlt))
        as (w1 & -> & _).
      apply IH.
    + destruct (retry_loop_last_attempt cfg ext source_api_name strategy Hstrategy Hfails
                  fuel attempt all w Heq) as (w1 & -> & _).
      now exists w1.
    + exists w. cbn [IntelligenceCore.retry_loop].
      replace (Zpos attempt <=? max_step_retries cfg) with false
        by (symmetry; apply Z.leb_gt; lia).
      reflexivity.
Qed.

End RetryInGeneral.

(** X7. A source that fails on every attempt is called exactly
    [max_step_retries] times; when the longest sleep of the wrapper, the one
    before the last attempt, is at most [2 ^ 32] seconds, the wrapper sleeps
    [delay * 60 * (2 ^ (max_step_retries - 1) - 1)] seconds in total, and
    the source is dropped without an exception. *)
Theorem retry_exhausts_after_max_attempts cfg ext source_api_name strategy all w :
  1 <= max_step_retries cfg ->
  0 <= error_retry_delay_minutes cfg ->
  error_retry_delay_minutes cfg * 60 * 2 ^ (max_step_retries cfg - 2)
  <= long_sleep_seconds ->
  failback_mechanisms cfg !! "trend_analysis" = Some strategy ->
  always_fails ext source_api_name ->
  exists w' t,
    IntelligenceCore.retry_loop (Z.to_nat (max_step_retries cfg)) cfg ext
      source_api_name 1 all w = (Ok all, w')
    /\ w_trace w' = w_trace w ++ t
    /\ Z.of_nat (attempts_in t) = max_step_retries cfg
    /\ seconds_slept t
       = error_retry_delay_minutes cfg * 60 * (2 ^ (max_step_retries cfg - 1) - 1).
Proof.
  intros Hmax Hdelay Hbound Hstrategy Hfails.
  assert (error_retry_delay_minutes cfg * 60 * 2 ^ (max_step_retries cfg - 2)
          <= max_sleep_seconds) as Hbound'
    by (unfold long_sleep_seconds, max_sleep_seconds in *; lia).
  destruct (retry_loop_exhausts_from cfg ext source_api_name strategy Hstrategy Hdelay
              Hbound' Hfails (Z.to_nat (max_step_retries cfg - 1)) 1 all w ltac:(lia))
    as (w' & t & E & T & A & Hslept).
  exists w', t.
  replace (Z.to_nat (max_step_retries cfg))
    with (S (Z.to_nat (max_step_retries cfg - 1))) by lia.
  split; [exact E|]. split; [exact T|]. split; [rewrite A; lia|].
  rewrite Hslept. change (2 ^ (1 - 1)) with 1. reflexivity.
Qed.

Lemma retry_exhausts_after_max_attempts_witness :
  exists w' t,
    IntelligenceCore.retry_loop (Z.to_nat (max_step_retries default_config))
      default_config sources_failing "Reddit_API_Targeted" 1 [] w0 = (Ok [], w')
    /\ w_trace w' = w_trace w0 ++ t
    /\ Z.of_nat (attempts_in t) = max_step_retries default_config
    /\ seconds_slept t
       = error_retry_delay_minutes default_config * 60
         * (2 ^ (max_step_retries default_config - 1) - 1).
Proof.
  apply (retry_exhausts_after_max_attempts default_config sources_failing
           "Reddit_API_Targeted" "use_cached_or_fallback_topics_high_priority" [] w0).
  - vm_compute. discriminate.
  - vm_compute. discriminate.
  - vm_compute. discriminate.
  - vm_compute. reflexivity.
  - intros attempt w. exists (ExternalError "SourceUnavailable"), w. split; reflexivity.
Defined.



(** ** Topic selection: sources that fail, and a table without the key *)

Lemma fetch_all_always_failing cfg ext strategy sources all w :
  failback_mechanisms cfg !! "trend_analysis" = Some strategy ->
  0 <= error_retry_delay_minutes cfg ->
  error_retry_delay_minutes cfg * 60 * 2 ^ (max_step_retries cfg - 2) <= max_sleep_seconds ->
  (forall s, In s sources -> always_fails ext s) ->
  exists w', IntelligenceCore.fetch_all cfg ext sources all w = (Ok all, w').
Proof.
  intros Hstrategy Hdelay Hbound. revert w.
  induction sources as [|s sources IH]; intros w Hfails.
  - now exists w.
  - cbn [IntelligenceCore.fetch_all]. unfold bind.
    destruct (retry_loop_always_failing_returns cfg ext s strategy Hstrategy Hdelay Hbound
                (Hfails s (or_introl eq_refl)) (Z.to_nat (max_step_retries cfg)) 1 all w)
      as (w1 & ->).
    apply IH. intros s' Hs'. apply Hfails. now right.
Qed.

(** X9. When every source fails on every attempt and the longest sleep of
    the wrapper is at most [2 ^ 32] seconds, no exception reaches the
    caller: the analysis answers with the second fallback topic if the
    "trend_analysis" failback strategy names "use_cached_or_fallback_topics",
    and with [None] otherwise. *)
Theorem all_sources_failing_falls_back cfg ext strategy w :
  ta_enabled (trend_analysis cfg) = true ->
  0 <= error_retry_delay_minutes cfg ->
  error_retry_delay_minutes cfg * 60 * 2 ^ (max_step_retries cfg - 2)
  <= long_sleep_seconds ->
  failback_mechanisms cfg !! "trend_analysis" = Some strategy ->
  (forall s, In s (primary_sources (trend_analysis cfg)
                   ++ secondary_sources (trend_analysis cfg)) -> always_fails ext s) ->
  exists w',
    IntelligenceCore.analyze_trends_and_select_topic cfg ext w
    = (Ok (if PyStr.contains "use_cached_or_fallback_topics" strategy
           then Some IntelligenceCore.fallback_topic_002 else None), w').
Proof.
  intros Hta Hdelay Hbound Hstrategy Hfails.
  assert (error_retry_delay_minutes cfg * 60 * 2 ^ (max_step_retries cfg - 2)
          <= max_sleep_seconds) as Hbound'
    by (unfold long_sleep_seconds, max_sleep_seconds in *; lia).
  destruct (fetch_all_always_failing cfg ext strategy _ [] w Hstrategy Hdelay Hbound' Hfails)
    as (w1 & Hfetch).
  exists w1. unfold IntelligenceCore.analyze_trends_and_select_topic.
  rewrite Hta. cbn [negb]. unfold bind at 1. rewrite Hfetch.
  unfold bind, IntelligenceCore.failback_strategy_of. rewrite Hstrategy. unfold ret at 1.
  now destruct (PyStr.contains _ _).
Qed.

Lemma all_sources_failing_falls_back_witness :
  exists w',
    IntelligenceCore.analyze_trends_and_select_topic default_config sources_failing w0
    = (Ok (if PyStr.contains "use_cached_or_fallback_topics"
                "use_cached_or_fallback_topics_high_priority"
           then Some IntelligenceCore.fallback_topic_002 else None), w').
Proof.
  apply (all_sources_failing_falls_back default_config sources_failing
           "use_cached_or_fallback_topics_high_priority" w0).
  - reflexivity.
  - vm_compute. discriminate.
  - vm_compute. discriminate.
  - vm_compute. reflexivity.
  - intros s _ attempt w. exists (ExternalError "SourceUnavailable"), w. split; reflexivity.
Defined.

(** X10. Without a "trend_analysis" entry in the failback table, the first failed
    attempt of the first source ends the analysis with [KeyError]: the entry
    is read before [handle_step_error] is called. *)
Theorem missing_trend_failback_raises_key_error cfg ext source_api_name others w e w1 :
  ta_enabled (trend_analysis cfg) = true ->
  primary_sources (trend_analysis cfg) ++ secondary_sources (trend_analysis cfg)
  = source_api_name :: others ->
  1 <= max_step_retries cfg ->
  failback_mechanisms cfg !! "trend_analysis" = None ->
  fetch_trends ext source_api_name 1 (logged (EvAttempt source_api_name 1) w) = (Raise e, w1) ->
  IntelligenceCore.analyze_trends_and_select_topic cfg ext w
  = (Raise (KeyError "trend_analysis"), w1).
Proof.
  intros Hta Hsources Hmax Hnone Hfetch.
  unfold IntelligenceCore.analyze_trends_and_select_topic.
  rewrite Hta, Hsources. cbn [negb IntelligenceCore.fetch_all]. unfold bind at 1.
  unfold bind at 1.
  replace (Z.to_nat (max_step_retries cfg))
    with (S (Z.to_nat (max_step_retries cfg - 1))) by lia.
  cbn [IntelligenceCore.retry_loop].
  replace (1 <=? max_step_retries cfg) with true by (symmetry; apply Z.leb_le; lia).
  unfold bind at 1. rewrite log_event_logged. unfold bind at 1. rewrite Hfetch.
  unfold IntelligenceCore.failback_strategy_of. rewrite Hnone. reflexivity.
Qed.

Lemma missing_trend_failback_raises_key_error_witness :
  IntelligenceCore.analyze_trends_and_select_topic
    (with_failbacks Sample.default_config ∅) Sample.sources_failing Sample.w0
  = (Raise (KeyError "trend_analysis"), logged (EvAttempt "YouTube_Trending_API" 1) Sample.w0).
Proof.
  apply (missing_trend_failback_raises_key_error
           (with_failbacks Sample.default_config ∅) Sample.sources_failing
           "YouTube_Trending_API"
           ["Google_Trends_API"; "Twitter_Realtime_API"; "Reddit_API_Targeted";
            "News_API_Aggregator"; "Web_Scraper_HighAuthority"; "SEO_Keyword_Tools_API"]
           Sample.w0 (ExternalError "SourceUnavailable")
           (logged (EvAttempt "YouTube_Trending_API" 1) Sample.w0)).
  - reflexivity.
  - reflexivity.
  - vm_compute. discriminate.
  - reflexivity.
  - reflexivity.
Defined.

(** ** The trend filter: what is kept, what is written, what is left alone *)

Lemma upd_other {A} (f : loc -> A) l a l' : l' <> l -> upd f l a l' = f l'.
Proof. intros H. unfold upd. apply Nat.eqb_neq in H. now rewrite H. Qed.

Lemma upd_same {A} (f : loc -> A) l a : upd f l a l = a.
Proof. unfold upd. now rewrite Nat.eqb_refl. Qed.

(** One scoring step, whatever its outcome: other trend dicts, the keys a
    source provides, the scripts, the metadata dicts, the variants and the
    reference counter stay as they are; without the
    time-series analysis the random stream is not read. *)
Lemma score_trend_frame cfg_trend l virality_score w r w' :
  IntelligenceCore.score_trend cfg_trend l virality_score w = (r, w') ->
  (forall l', l' <> l -> w_trends w' l' = w_trends w l')
  /\ same_source_keys (w_trends w l) (w_trends w' l)
  /\ same_besides_trends w w'
  /\ (time_series_analysis_enabled cfg_trend = false -> w_rng w' = w_rng w).
Proof.
  unfold IntelligenceCore.score_trend, bind, read_trend, write_trend, lift_result,
    with_rng, ret.
  destruct (IntelligenceCore.classify_sentiment cfg_trend _) as [sm|e].
  2:{ intros H. injection H as _ <-. repeat split. }
  destruct (time_series_analysis_enabled cfg_trend).
  - destruct (randint 3 14 _) as [[days|e] g1]; cbn [w_rng set_rng set_trend w_trends];
      [destruct (IntelligenceCore.base_score virality_score sm) as [base|e]|];
      intros H; injection H as _ <-;
      (split; [intros l' Hne; cbn [w_trends set_trend set_rng]; unfold upd;
             now rewrite ?(proj2 (Nat.eqb_neq l' l) Hne)|]);
      (split; [cbn [w_trends set_trend set_rng]; rewrite !upd_same; repeat split|]);
      (split; [repeat split | discriminate]).
  - cbn [set_trend w_trends].
    destruct (IntelligenceCore.base_score virality_score sm) as [base|e];
      intros H; injection H as _ <-;
      (split; [intros l' Hne; cbn [w_trends set_trend set_rng]; unfold upd;
             now rewrite ?(proj2 (Nat.eqb_neq l' l) Hne)|]);
      (split; [cbn [w_trends set_trend set_rng]; rewrite !upd_same; repeat split|]);
      (split; [repeat split | reflexivity]).
Qed.

(** A scoring step that returns has written the three keys. *)
Lemma score_trend_scored cfg_trend l virality_score w w' :
  IntelligenceCore.score_trend cfg_trend l virality_score w = (Ok tt, w') ->
  scored cfg_trend (w_trends w' l).
Proof.
  unfold IntelligenceCore.score_trend, bind, read_trend, write_trend, lift_result,
    with_rng, ret, scored.
  destruct (IntelligenceCore.classify_sentiment cfg_trend _) as [sm|e]; [|discriminate].
  destruct (time_series_analysis_enabled cfg_trend).
  - destruct (randint 3 14 _) as [[days|e] g1] eqn:Hr; [|discriminate].
    apply randint_range in Hr.
    cbn [w_rng set_rng set_trend w_trends].
    destruct (IntelligenceCore.base_score virality_score sm) as [base|e]; [|discriminate].
    intros H. injection H as <-. cbn [w_trends set_trend set_rng]. rewrite !upd_same.
    split; [now eexists|]. split; [now eexists|]. intros _. now exists days.
  - cbn [set_trend w_trends].
    destruct (IntelligenceCore.base_score virality_score sm) as [base|e]; [|discriminate].
    intros H. injection H as <-. cbn [w_trends set_trend set_rng]. rewrite !upd_same.
    split; [now eexists|]. split; [now eexists|]. discriminate.
Qed.

Lemma same_besides_trends_trans w1 w2 w3 :
  same_besides_trends w1 w2 -> same_besides_trends w2 w3 -> same_besides_trends w1 w3.
Proof.
  unfold same_besides_trends. intros (A1 & A2 & A3 & A4) (B1 & B2 & B3 & B4).
  repeat split; congruence.
Qed.

Lemma same_source_keys_passes cfg_trend t t' :
  same_source_keys t t' -> passes_filters cfg_trend t' = passes_filters cfg_trend t.
Proof.
  intros (_ & Ht & _ & _ & Hv & _). unfold passes_filters. now rewrite Ht, Hv.
Qed.

(** The invariant of the filter loop. *)
Lemma filter_loop_effects cfg_trend trends filtered w out w' :
  IntelligenceCore.filter_loop cfg_trend trends filtered w = (Ok out, w') ->
  exists kept,
    out = filtered ++ kept
    /\ kept = List.filter (fun l => passes_filters cfg_trend (w_trends w l)) trends
    /\ (forall l, ~ In l kept -> w_trends w' l = w_trends w l)
    /\ (forall l, same_source_keys (w_trends w l) (w_trends w' l))
    /\ (forall l, In l kept -> scored cfg_trend (w_trends w' l))
    /\ same_besides_trends w w'
    /\ (time_series_analysis_enabled cfg_trend = false -> w_rng w' = w_rng w).
Proof.
  revert filtered w.
  induction trends as [|l rest IH]; intros filtered w H.
  - apply ret_ok_inv in H as [<- <-]. exists []. rewrite app_nil_r.
    split; [reflexivity|]. split; [reflexivity|]. split; [reflexivity|].
    split; [intros l'; repeat split|]. split; [intros l' []|].
    split; [repeat split | reflexivity].
  - cbn [IntelligenceCore.filter_loop] in H. unfold bind at 1 in H.
    unfold read_trend at 1 in H. cbn [List.filter]. unfold passes_filters at 1.
    destruct (IntelligenceCore.excluded _ _). { cbn [negb andb]. now apply IH. }
    cbn [negb andb].
    destruct (niche_focus_keywords cfg_trend) as [|kw kws] eqn:Hn.
    + cbn [andb] in *. destruct (_ <? _). { cbn [negb]. now apply IH. }
      cbn [negb]. revert H. apply (fun P => P) . intros H.
      apply bind_ok_inv in H as ([] & w1 & Hscore & H).
      pose proof (score_trend_scored _ _ _ _ _ Hscore) as Hsc.
      apply score_trend_frame in Hscore as (Hframe & Hkeys & Hrest & Hrng).
      apply IH in H as (kept & -> & Hk & Hfr & Hsk & Hscd & Hbes & Hr).
      exists (l :: kept). split; [now rewrite <- app_assoc|].
      assert (forall l', same_source_keys (w_trends w l') (w_trends w1 l')) as Hall.
      { intros l'. destruct (Nat.eq_dec l' l) as [->|Hne]; [exact Hkeys|].
        rewrite (Hframe l' Hne). repeat split. }
      split.
      { f_equal. rewrite Hk. apply List.filter_ext. intros l'.
        apply same_source_keys_passes, Hall. }
      split.
      { intros l' Hl'. rewrite Hfr by (intros Hin; apply Hl'; now right).
        apply Hframe. intros ->. apply Hl'. now left. }
      split.
      { intros l'. destruct (Hall l') as (A1 & A2 & A3 & A4 & A5 & A6).
        destruct (Hsk l') as (B1 & B2 & B3 & B4 & B5 & B6). repeat split; congruence. }
      split.
      { intros l' [<-|Hin]; [|now apply Hscd].
        destruct (In_dec Nat.eq_dec l kept) as [Hin|Hnin]; [now apply Hscd|].
        now rewrite (Hfr l Hnin). }
      split; [eapply same_besides_trends_trans; eassumption|].
      intros Hts. rewrite (Hr Hts). now apply Hrng.
    + destruct (IntelligenceCore.matches_niche (kw :: kws) _); cbn [negb andb] in *;
        [|now apply IH].
      destruct (_ <? _). { cbn [negb]. now apply IH. }
      cbn [negb].
      apply bind_ok_inv in H as ([] & w1 & Hscore & H).
      pose proof (score_trend_scored _ _ _ _ _ Hscore) as Hsc.
      apply score_trend_frame in Hscore as (Hframe & Hkeys & Hrest & Hrng).
      apply IH in H as (kept & -> & Hk & Hfr & Hsk & Hscd & Hbes & Hr).
      exists (l :: kept). split; [now rewrite <- app_assoc|].
      assert (forall l', same_source_keys (w_trends w l') (w_trends w1 l')) as Hall.
      { intros l'. destruct (Nat.eq_dec l' l) as [->|Hne]; [exact Hkeys|].
        rewrite (Hframe l' Hne). repeat split. }
      split.
      { f_equal. rewrite Hk. apply List.filter_ext. intros l'.
        apply same_source_keys_passes, Hall. }
      split.
      { intros l' Hl'. rewrite Hfr by (intros Hin; apply Hl'; now right).
        apply Hframe. intros ->. apply Hl'. now left. }
      split.
      { intros l'. destruct (Hall l') as (A1 & A2 & A3 & A4 & A5 & A6).
        destruct (Hsk l') as (B1 & B2 & B3 & B4 & B5 & B6). repeat split; congruence. }
      split.
      { intros l' [<-|Hin]; [|now apply Hscd].
        destruct (In_dec Nat.eq_dec l kept) as [Hin|Hnin]; [now apply Hscd|].
        now rewrite (Hfr l Hnin). }
      split; [eapply same_besides_trends_trans; eassumption|].
      intros Hts. rewrite (Hr Hts). now apply Hrng.
Qed.

(** X11. The filter returns exactly the trends that are not excluded, match a
    niche keyword when any is configured, and reach the minimum virality, in
    the order of the input. *)
Theorem filter_keeps_exactly_the_passing_trends cfg trends w out w' :
  IntelligenceCore._filter_and_score_trends cfg trends w = (Ok out, w') ->
  out = List.filter (fun l => passes_filters (trend_analysis cfg) (w_trends w l)) trends.
Proof.
  intros H. apply filter_loop_effects in H as (kept & -> & -> & _). reflexivity.
Qed.

Lemma filter_keeps_exactly_the_passing_trends_witness :
  [5%nat; 0%nat; 4%nat]
  = List.filter (fun l => passes_filters (trend_analysis Sample.default_config)
                            (w_trends Sample.w_six l))
      [5%nat; 1%nat; 0%nat; 3%nat; 2%nat; 4%nat].
Proof.
  apply (filter_keeps_exactly_the_passing_trends Sample.default_config
           [5%nat; 1%nat; 0%nat; 3%nat; 2%nat; 4%nat] Sample.w_six
           [5%nat; 0%nat; 4%nat]
           (snd (IntelligenceCore._filter_and_score_trends Sample.default_config
                   [5%nat; 1%nat; 0%nat; 3%nat; 2%nat; 4%nat] Sample.w_six))).
  vm_compute. reflexivity.
Defined.

(** X12. Of the dicts, the filter writes into the returned trend dicts only:
    every other trend dict, the scripts, the metadata dicts, the variants and
    the reference counter are left as they were, the keys a source provides
    are never changed, and without the time-series analysis the random
    stream is not read. *)
Theorem filter_touches_only_returned_trends cfg trends w out w' :
  IntelligenceCore._filter_and_score_trends cfg trends w = (Ok out, w') ->
  (forall l, ~ In l out -> w_trends w' l = w_trends w l)
  /\ (forall l, same_source_keys (w_trends w l) (w_trends w' l))
  /\ same_besides_trends w w'
  /\ (time_series_analysis_enabled (trend_analysis cfg) = false -> w_rng w' = w_rng w).
Proof.
  intros H. apply filter_loop_effects in H as (kept & -> & _ & Hfr & Hsk & _ & Hbes & Hr).
  cbn [app]. repeat split; try assumption; apply Hsk || apply Hbes.
Qed.

Lemma filter_touches_only_returned_trends_witness :
  (forall l, ~ In l [5%nat; 1%nat; 0%nat; 2%nat; 4%nat] ->
     w_trends (snd (IntelligenceCore._filter_and_score_trends
                (Sample.with_trend_analysis Sample.default_config
                   Sample.mixed_case_exclusions)
                [5%nat; 1%nat; 0%nat; 3%nat; 2%nat; 4%nat] Sample.w_six)) l
     = w_trends Sample.w_six l)
  /\ (forall l, same_source_keys (w_trends Sample.w_six l)
        (w_trends (snd (IntelligenceCore._filter_and_score_trends
                (Sample.with_trend_analysis Sample.default_config
                   Sample.mixed_case_exclusions)
                [5%nat; 1%nat; 0%nat; 3%nat; 2%nat; 4%nat] Sample.w_six)) l))
  /\ same_besides_trends Sample.w_six
       (snd (IntelligenceCore._filter_and_score_trends
                (Sample.with_trend_analysis Sample.default_config
                   Sample.mixed_case_exclusions)
                [5%nat; 1%nat; 0%nat; 3%nat; 2%nat; 4%nat] Sample.w_six))
  /\ (time_series_analysis_enabled
        (trend_analysis (Sample.with_trend_analysis Sample.default_config
                   Sample.mixed_case_exclusions)) = false ->
      w_rng (snd (IntelligenceCore._filter_and_score_trends
                (Sample.with_trend_analysis Sample.default_config
                   Sample.mixed_case_exclusions)
                [5%nat; 1%nat; 0%nat; 3%nat; 2%nat; 4%nat] Sample.w_six))
      = w_rng Sample.w_six).
Proof.
  apply (filter_touches_only_returned_trends
           (Sample.with_trend_analysis Sample.default_config
                   Sample.mixed_case_exclusions)
           [5%nat; 1%nat; 0%nat; 3%nat; 2%nat; 4%nat] Sample.w_six
           [5%nat; 1%nat; 0%nat; 2%nat; 4%nat]).
  vm_compute. reflexivity.
Defined.

(** X13. Every returned trend carries a sentiment map and a final score, and with
    the time-series analysis a predicted longevity between 3 and 14 days. *)
Theorem returned_trends_are_scored cfg trends w out w' :
  IntelligenceCore._filter_and_score_trends cfg trends w = (Ok out, w') ->
  forall l, In l out -> scored (trend_analysis cfg) (w_trends w' l).
Proof.
  intros H. apply filter_loop_effects in H as (kept & -> & _ & _ & _ & Hscd & _).
  exact Hscd.
Qed.

Lemma returned_trends_are_scored_witness :
  scored Sample.mixed_case_exclusions
    (w_trends (snd (IntelligenceCore._filter_and_score_trends
                      (Sample.with_trend_analysis Sample.default_config
                         Sample.mixed_case_exclusions)
                      [0%nat] Sample.w_politics)) 0%nat).
Proof.
  apply (returned_trends_are_scored
           (Sample.with_trend_analysis Sample.default_config Sample.mixed_case_exclusions)
           [0%nat] Sample.w_politics [0%nat]
           (snd (IntelligenceCore._filter_and_score_trends
                   (Sample.with_trend_analysis Sample.default_config
                      Sample.mixed_case_exclusions)
                   [0%nat] Sample.w_politics))).
  - vm_compute. reflexivity.
  - simpl. left. reflexivity.
Defined.

(** ** Winner selection *)

Lemma max_by_score_split w best rest :
  exists pre post,
    best :: rest = pre ++ IntelligenceCore.max_by_score w best rest :: post
    /\ Forall (fun l => PyFloat.fgt (IntelligenceCore.score_key w l)
                          (IntelligenceCore.score_key w
                             (IntelligenceCore.max_by_score w best rest)) = false) post.
Proof.
  revert best. induction rest as [|l rest IH]; intros best.
  - exists [], []. split; [reflexivity | constructor].
  - cbn [IntelligenceCore.max_by_score].
    destruct (PyFloat.fgt (IntelligenceCore.score_key w l)
                (IntelligenceCore.score_key w best)) eqn:E.
    + destruct (IH l) as (pre & post & Hsplit & Hpost).
      exists (best :: pre), post. split; [now rewrite Hsplit at 1|exact Hpost].
    + destruct (IH best) as (pre & post & Hsplit & Hpost).
      destruct pre as [|b pre].
      * cbn [app] in Hsplit. injection Hsplit as Hb Hr.
        exists [], (l :: post). rewrite <- Hb in *. split; [now rewrite Hr|].
        constructor; [exact E | exact Hpost].
      * cbn [app] in Hsplit. injection Hsplit as Hb Hr. subst b.
        exists (best :: l :: pre), post. split; [|exact Hpost].
        cbn [app]. do 2 f_equal. exact Hr.
Qed.

(** X14. The winner is one of the scored trends, and no trend after it in the
    list has a greater final score. *)
Theorem winner_is_not_exceeded_later w first others :
  exists pre post,
    first :: others = pre ++ IntelligenceCore.max_by_score w first others :: post
    /\ Forall (fun l => PyFloat.fgt (IntelligenceCore.score_key w l)
                          (IntelligenceCore.score_key w
                             (IntelligenceCore.max_by_score w first others)) = false) post.
Proof. apply max_by_score_split. Qed.

(** ** Failback resolution with a configured key *)

(** X15. With the key in the failback table, [handle_api_error] raises nothing
    but the error it was given, returns [None] only for the strategy
    "skip_step", and otherwise returns a "success_via_failback" dict whose
    data ends with the name of the API. *)
Theorem configured_failback_keeps_the_error api_name error key cfg name :
  failback_mechanisms cfg !! key = Some name ->
  match ErrorHandling.handle_api_error api_name error key cfg with
  | Raise e => e = error
  | Ok None => name = "skip_step"
  | Ok (Some r) =>
      ErrorHandling.fb_status r = "success_via_failback"
      /\ exists prefix, ErrorHandling.fb_data r = prefix +:+ api_name
  end.
Proof.
  intros Hname. unfold ErrorHandling.handle_api_error. rewrite Hname.
  unfold ErrorHandling.name_is, ErrorHandling.name_has.
  destruct (String.eqb name "try_backup_model_or_provider");
    [cbn; split; [reflexivity | eexists; reflexivity]|].
  destruct (PyStr.contains "try_backup_model_then_simpler_model" name);
    [cbn; split; [reflexivity | eexists; reflexivity]|].
  destruct (String.eqb name "use_cached_or_fallback_data");
    [cbn; split; [reflexivity | eexists; reflexivity]|].
  destruct (PyStr.contains "use_cached_or_fallback_topics" name);
    [cbn; split; [reflexivity | eexists; reflexivity]|].
  destruct (PyStr.contains "use_internal_library_only" name);
    [cbn; split; [reflexivity | eexists; reflexivity]|].
  destruct (PyStr.contains "use_internal_library_then_lower_quality_stock" name);
    [cbn; split; [reflexivity | eexists; reflexivity]|].
  destruct (PyStr.contains "use_fallback_voice_then_standard_os_tts" name);
    [cbn; split; [reflexivity | eexists; reflexivity]|].
  destruct (String.eqb name "skip_step") eqn:Hskip;
    [cbn; now apply String.eqb_eq|].
  destruct (String.eqb name "use_simpler_template_or_local_ffmpeg_basic");
    [cbn; split; [reflexivity | eexists; reflexivity]|].
  cbn. reflexivity.
Qed.

Lemma configured_failback_keeps_the_error_witness :
  match ErrorHandling.handle_api_error "LLM_ScriptGeneration_API"
          (ExternalError "Timeout") "llm_calls" Sample.default_config with
  | Raise e => e = ExternalError "Timeout"
  | Ok None => "try_backup_model_then_simpler_model" = "skip_step"
  | Ok (Some r) =>
      ErrorHandling.fb_status r = "success_via_failback"
      /\ exists prefix, ErrorHandling.fb_data r = prefix +:+ "LLM_ScriptGeneration_API"
  end.
Proof.
  apply (configured_failback_keeps_the_error "LLM_ScriptGeneration_API"
           (ExternalError "Timeout") "llm_calls" Sample.default_config
           "try_backup_model_then_simpler_model").
  vm_compute. reflexivity.
Defined.

(** ** The upload report *)

Lemma dict_get_set {A} (d : list (string * A)) k a k' :
  dict_get (dict_set d k a) k' = if String.eqb k k' then Some a else dict_get d k'.
Proof.
  induction d as [|[k0 a0] d IH]; cbn [dict_set dict_get].
  - reflexivity.
  - destruct (String.eqb k0 k) eqn:E0.
    + apply String.eqb_eq in E0. subst k0. cbn [dict_get].
      destruct (String.eqb k k'); reflexivity.
    + cbn [dict_get]. rewrite IH.
      destruct (String.eqb k0 k') eqn:E1; [|reflexivity].
      apply String.eqb_eq in E1. subst k'. now rewrite String.eqb_sym, E0.
Qed.

(** What one pass through the [try] and its handler records. *)
Lemma upload_step_records cfg ext platform_name upload_statuses w st1 w' :
  try_except (PlatformOperations.try_upload ext platform_name upload_statuses)
             (PlatformOperations.upload_failed cfg platform_name upload_statuses) w
  = (Ok st1, w') ->
  exists s, st1 = dict_set upload_statuses platform_name s
            /\ recorded_status platform_name s.
Proof.
  unfold try_except.
  destruct (PlatformOperations.try_upload ext platform_name upload_statuses w)
    as [[st|e] w1] eqn:Htry.
  - intros H. injection H as <- <-. revert Htry. unfold PlatformOperations.try_upload.
    destruct (String.eqb platform_name "youtube") eqn:Ey.
    { intros H. apply bind_ok_inv in H as (video & w2 & _ & H).
      apply ret_ok_inv in H as [<- _]. eexists. split; [reflexivity|].
      left. cbn. apply String.eqb_eq in Ey. repeat split; eauto. }
    destruct (String.eqb platform_name "tiktok") eqn:Et.
    { intros H. apply bind_ok_inv in H as (video & w2 & _ & H).
      apply ret_ok_inv in H as [<- _]. eexists. split; [reflexivity|].
      left. cbn. apply String.eqb_eq in Et. repeat split; eauto. }
    intros H. apply ret_ok_inv in H as [<- _]. eexists. split; [reflexivity|].
    right. left. cbn. apply String.eqb_neq in Ey, Et. repeat split; assumption.
  - unfold PlatformOperations.upload_failed. intros H.
    apply bind_ok_inv in H as (r & w2 & _ & H).
    apply ret_ok_inv in H as [<- _]. eexists. split; [reflexivity|].
    right. right. cbn. repeat split; eauto.
Qed.

(** The invariant of the platform loop. *)
Lemma upload_loop_report cfg ext metadata_object platforms st0 w st w' :
  PlatformOperations.upload_loop cfg ext metadata_object platforms st0 w = (Ok st, w') ->
  forall p,
    (is_Some (dict_get st p) <->
     is_Some (dict_get st0 p)
     \/ exists pc, In (p, pc) platforms /\ p_enabled pc = true)
    /\ (forall s, dict_get st p = Some s ->
                  dict_get st0 p = Some s \/ recorded_status p s).
Proof.
  revert st0 w. induction platforms as [|[name pc] rest IH]; intros st0 w H p.
  - apply ret_ok_inv in H as [<- _]. split.
    + split; [now left|]. intros [Hs|(pc & [] & _)]. exact Hs.
    + intros s Hs. now left.
  - cbn [PlatformOperations.upload_loop] in H.
    destruct (p_enabled pc) eqn:Hen.
    + apply bind_ok_inv in H as ([] & w1 & _ & H).
      apply bind_ok_inv in H as ([] & w2 & _ & H).
      apply bind_ok_inv in H as ([] & w3 & _ & H).
      apply bind_ok_inv in H as (st1 & w4 & Htry & H).
      apply upload_step_records in Htry as (s1 & -> & Hrec).
      destruct (IH _ _ H p) as [Hkeys Hvals]. rewrite dict_get_set in Hkeys, Hvals.
      destruct (String.eqb name p) eqn:Ep.
      * apply String.eqb_eq in Ep. subst p. split.
        { split; [|intros _; apply Hkeys; left; now eexists].
          intros _. right. exists pc. split; [now left | exact Hen]. }
        { intros s Hs. destruct (Hvals s Hs) as [Heq|Hr]; [|now right].
          injection Heq as <-. now right. }
      * apply String.eqb_neq in Ep. split; [|exact Hvals].
        rewrite Hkeys. split.
        { intros [Hs|(pc' & Hin & Hen')]; [now left|].
          right. exists pc'. split; [now right | exact Hen']. }
        { intros [Hs|(pc' & [Heq|Hin] & Hen')]; [now left| |].
          - injection Heq as Hname _. contradiction.
          - right. now exists pc'. }
    + destruct (IH _ _ H p) as [Hkeys Hvals]. split; [|exact Hvals].
      rewrite Hkeys. split.
      * intros [Hs|(pc' & Hin & Hen')]; [now left|].
        right. exists pc'. split; [now right | exact Hen'].
      * intros [Hs|(pc' & [Heq|Hin] & Hen')]; [now left| |].
        { injection Heq as _ Hpc. subst pc'. congruence. }
        { right. now exists pc'. }
Qed.

(** When the uploader returns, its report is the one of the loop over the
    platforms. *)
Lemma uploader_returns_the_loop_report cfg ext final_video_path thumbnail_path
    metadata_object script_object w report w' :
  PlatformOperations.upload_content_to_platforms cfg ext final_video_path thumbnail_path
    metadata_object script_object w = (Ok report, w') ->
  exists w1,
    PlatformOperations.upload_loop cfg ext metadata_object (platform_ops cfg) [] w
    = (Ok report, w1).
Proof.
  unfold PlatformOperations.upload_content_to_platforms. intros H.
  apply bind_ok_inv in H as (upload_statuses & w1 & Hloop & H).
  apply bind_ok_inv in H as ([] & w2 & _ & H).
  apply ret_ok_inv in H as [<- _]. now exists w1.
Qed.

(** X16. When the uploader returns, its report has an entry for a platform
    exactly when the platform is enabled in the configuration. *)
Theorem upload_report_lists_the_enabled_platforms cfg ext final_video_path thumbnail_path
    metadata_object script_object w report w' :
  PlatformOperations.upload_content_to_platforms cfg ext final_video_path thumbnail_path
    metadata_object script_object w = (Ok report, w') ->
  forall platform_name,
    is_Some (dict_get report platform_name) <-> enabled_platform cfg platform_name.
Proof.
  intros H p. apply uploader_returns_the_loop_report in H as (w1 & H).
  destruct (upload_loop_report _ _ _ _ _ _ _ _ H p) as [Hkeys _].
  rewrite Hkeys. unfold enabled_platform. cbn [dict_get]. split.
  - intros [[s Hs]|He]; [discriminate Hs | exact He].
  - intros He. now right.
Qed.

Lemma upload_report_lists_the_enabled_platforms_witness :
  is_Some (dict_get
             [("youtube",
               {| status := "success"; video_id := Some "sim_10000";
                  platform_url := Some "https://www.youtube.com/watch?v=sim_10000";
                  error := None |});
              ("tiktok",
               {| status := "success"; video_id := Some "sim_10000";
                  platform_url :=
                    Some "https://www.tiktok.com/@[yourchannel]/video/sim_10000";
                  error := None |})] "tiktok")
  <-> enabled_platform Sample.default_config "tiktok".
Proof.
  apply (upload_report_lists_the_enabled_platforms Sample.default_config
           (Sample.succeeding "Future Tech rising" 90) "6_final_videos/video.mp4"
           (Some "7_thumbnails/thumb.jpg") 1%nat 0%nat Sample.w0 _
           (snd (PlatformOperations.upload_content_to_platforms Sample.default_config
                   (Sample.succeeding "Future Tech rising" 90) "6_final_videos/video.mp4"
                   (Some "7_thumbnails/thumb.jpg") 1%nat 0%nat Sample.w0))).
  vm_compute. reflexivity.
Defined.

(** X17. Every entry of the report has one of three shapes: a success with a
    video id and a URL, for "youtube" and "tiktok" only; "not_implemented"
    for every other platform name; or "failed" with an "error" entry and
    neither a video id nor a URL. *)
Theorem upload_report_entries cfg ext final_video_path thumbnail_path
    metadata_object script_object w report w' :
  PlatformOperations.upload_content_to_platforms cfg ext final_video_path thumbnail_path
    metadata_object script_object w = (Ok report, w') ->
  forall platform_name st,
    dict_get report platform_name = Some st -> recorded_status platform_name st.
Proof.
  intros H p s Hs. apply uploader_returns_the_loop_report in H as (w1 & H).
  destruct (upload_loop_report _ _ _ _ _ _ _ _ H p) as [_ Hvals].
  destruct (Hvals s Hs) as [Hno|Hrec]; [discriminate Hno | exact Hrec].
Qed.

Lemma upload_report_entries_witness :
  recorded_status "vimeo"
    {| status := "not_implemented"; video_id := None; platform_url := None;
       error := None |}.
Proof.
  apply (upload_report_entries Sample.only_vimeo
           (Sample.succeeding "Future Tech rising" 90) "6_final_videos/video.mp4"
           None 1%nat 0%nat Sample.w0
           [("vimeo", {| status := "not_implemented"; video_id := None;
                         platform_url := None; error := None |})]
           (snd (PlatformOperations.upload_content_to_platforms Sample.only_vimeo
                   (Sample.succeeding "Future Tech rising" 90)
                   "6_final_videos/video.mp4" None 1%nat 0%nat Sample.w0))).
  - vm_compute. reflexivity.
  - reflexivity.
Defined.

Lemma py_index_empty {A} (i : Z) :
  py_index (@nil A) i = Raise (IndexError "list index out of range").
Proof.
  unfold py_index. cbn [length]. change (Z.of_nat 0) with 0.
  set (j := if i <? 0 then i + 0 else i).
  destruct ((j <? 0) || (0 <=? j)) eqn:E; [reflexivity|].
  apply orb_false_iff in E as [E1 E2]. apply Z.ltb_ge in E1. apply Z.leb_gt in E2. lia.
Qed.

(** X18. A metadata dict with no "variants" key or an empty list of variants
    makes the uploader raise an [IndexError] at the first enabled platform,
    right after the delay and before any credential or client call: the
    branch that would build basic metadata is not reached. *)
Theorem upload_without_variants_raises cfg ext final_video_path thumbnail_path
    metadata_object script_object w platform_name platform_cfg rest w1 :
  platform_ops cfg = (platform_name, platform_cfg) :: rest ->
  p_enabled platform_cfg = true ->
  simulate_human_like_delay ext "upload" w = (Ok tt, w1) ->
  default [] (variants (w_metadata w1 metadata_object)) = [] ->
  PlatformOperations.upload_content_to_platforms cfg ext final_video_path thumbnail_path
    metadata_object script_object w
  = (Raise (IndexError "list index out of range"), w1).
Proof.
  intros Hops Hen Hdelay Hvs.
  unfold PlatformOperations.upload_content_to_platforms. rewrite Hops.
  cbn [PlatformOperations.upload_loop]. rewrite Hen.
  unfold bind at 1. unfold bind at 1. rewrite Hdelay. unfold bind at 1.
  unfold PlatformOperations.current_metadata_of. rewrite Hvs, py_index_empty.
  reflexivity.
Qed.

Lemma upload_without_variants_raises_witness :
  PlatformOperations.upload_content_to_platforms Sample.default_config
    (Sample.succeeding "Future Tech rising" 90) "6_final_videos/video.mp4" None
    1%nat 0%nat w_no_variants
  = (Raise (IndexError "list index out of range"), w_no_variants).
Proof.
  apply (upload_without_variants_raises Sample.default_config
           (Sample.succeeding "Future Tech rising" 90) "6_final_videos/video.mp4" None
           1%nat 0%nat w_no_variants "youtube"
           {| p_enabled := true; p_monetization_enabled := true;
              p_ad_break_strategy := Some "ai_optimized_flow" |}
           [("tiktok", {| p_enabled := true; p_monetization_enabled := true;
                          p_ad_break_strategy := None |})]).
  - reflexivity.
  - reflexivity.
  - reflexivity.
  - reflexivity.
Defined.

(** ** The ad-revenue strategy of the monetization stage *)

Lemma py_index_In {A} (l : list A) i a : py_index l i = Ok a -> In a l.
Proof.
  unfold py_index. destruct (_ || _); [discriminate|].
  destruct (nth_error l _) eqn:E; [|discriminate].
  intros H. injection H as <-. eapply nth_error_In. exact E.
Qed.

Lemma chosen_variant_In d v :
  MonetizationManager.chosen_variant d = Ok (Some v) ->
  exists vs, variants d = Some vs /\ In v vs.
Proof.
  unfold MonetizationManager.chosen_variant.
  destruct (variants d) as [vs|]; [|discriminate].
  destruct (_ <? _); [|discriminate].
  destruct (py_index vs _) as [v'|e] eqn:E; [|discriminate].
  cbn [rbind]. intros H. injection H as <-. exists vs. split; [reflexivity|].
  eapply py_index_In. exact E.
Qed.

Lemma find_meta_variant_of w m p v :
  MonetizationManager.find_meta_to_update w m p = Ok (Some v) -> variant_of w m p v.
Proof.
  unfold MonetizationManager.find_meta_to_update.
  destruct (MonetizationManager.platform_variants_present w (w_metadata w m) p)
    as [[|]|e]; cbn [rbind]; [| |discriminate].
  - destruct (platform_metadata (w_metadata w m) !! p) as [d|] eqn:Ed; [|discriminate].
    intros H. apply chosen_variant_In in H as (vs & Hvs & Hin).
    right. now exists d, vs.
  - destruct (bool_decide _); [|discriminate].
    intros H. apply chosen_variant_In in H as (vs & Hvs & Hin). left. now exists vs.
Qed.

(** What the strategy does to the world, whatever its outcome. *)
Lemma ad_revenue_strategy_effect cfg s m d p w r w' :
  MonetizationManager.ad_revenue_strategy cfg s m d p w = (r, w') ->
  w_trends w' = w_trends w /\ w_scripts w' = w_scripts w
  /\ w_metadata w' = w_metadata w /\ w_next w' = w_next w
  /\ (w_variants w' = w_variants w
      \/ exists v breaks,
           breaks <> []
           /\ MonetizationManager.find_meta_to_update w m p = Ok (Some v)
           /\ w_variants w v <> ∅
           /\ w_variants w'
              = upd (w_variants w) v
                  (<["ad_breaks_timestamps_seconds" := VIntList breaks]> (w_variants w v))).
Proof.
  assert (forall w0 : world, ret tt w0 = (r, w') ->
            w_trends w' = w_trends w0 /\ w_scripts w' = w_scripts w0
            /\ w_metadata w' = w_metadata w0 /\ w_next w' = w_next w0
            /\ w_variants w' = w_variants w0) as Hret.
  { intros w0 H. injection H as _ <-. repeat split. }
  unfold MonetizationManager.ad_revenue_strategy.
  destruct (dict_get (platform_ops cfg) p) as [pc|];
    [destruct (p_ad_break_strategy pc) as [strategy|]|].
  2,3: intros H; apply Hret in H as (? & ? & ? & ? & ?); repeat split; auto.
  destruct (p_monetization_enabled pc && negb (String.eqb strategy EmptyString)).
  2: intros H; apply Hret in H as (? & ? & ? & ? & ?); repeat split; auto.
  unfold bind, with_rng.
  destruct (Utilities.calculate_optimal_ad_breaks d strategy _ (w_rng w))
    as [[breaks|e] g].
  2:{ intros H. injection H as _ <-. repeat split. now left. }
  destruct breaks as [|b bs].
  { intros H. apply Hret in H as (? & ? & ? & ? & ?). repeat split; auto. }
  change (MonetizationManager.find_meta_to_update (set_rng g w) m p)
    with (MonetizationManager.find_meta_to_update w m p).
  destruct (MonetizationManager.find_meta_to_update w m p) as [[v|]|e] eqn:Hfind.
  - cbn [w_variants set_rng].
    destruct (bool_decide (w_variants w v = ∅)) eqn:Hempty.
    + intros H. injection H as _ <-. repeat split. now left.
    + apply bool_decide_eq_false in Hempty.
      intros H. injection H as _ <-. repeat split. right.
      exists v, (b :: bs). repeat split; [discriminate | exact Hempty].
  - intros H. injection H as _ <-. repeat split. now left.
  - intros H. injection H as _ <-. repeat split. now left.
Qed.

(** X19. Of the dicts, the ad-revenue strategy changes nothing but the key
    "ad_breaks_timestamps_seconds" of variant dicts: every other key of
    every variant, the trend dicts, the scripts, the metadata dicts and the
    reference counter stay as they are, and an empty variant dict stays
    empty. *)
Theorem ad_revenue_writes_only_the_ad_breaks_key cfg script_object modified_metadata
    video_duration_seconds target_platform w r w' :
  MonetizationManager.ad_revenue_strategy cfg script_object modified_metadata
    video_duration_seconds target_platform w = (r, w') ->
  w_trends w' = w_trends w /\ w_scripts w' = w_scripts w
  /\ w_metadata w' = w_metadata w /\ w_next w' = w_next w
  /\ (forall v key, key <> "ad_breaks_timestamps_seconds" ->
                    w_variants w' v !! key = w_variants w v !! key)
  /\ (forall v, w_variants w v = ∅ -> w_variants w' v = ∅).
Proof.
  intros H.
  apply ad_revenue_strategy_effect in H as (H1 & H2 & H3 & H4 & Hv).
  do 4 (split; [assumption|]).
  destruct Hv as [->|(v0 & breaks & _ & _ & Hne & ->)]; [split; auto|].
  split.
  - intros v key Hkey. unfold upd. destruct (Nat.eqb v v0) eqn:E; [|reflexivity].
    apply Nat.eqb_eq in E. subst v0. now rewrite lookup_insert_ne.
  - intros v Hv. unfold upd. destruct (Nat.eqb v v0) eqn:E; [|exact Hv].
    apply Nat.eqb_eq in E. subst v0. contradiction.
Qed.

Lemma ad_revenue_writes_only_the_ad_breaks_key_witness :
  w_trends (snd (MonetizationManager.ad_revenue_strategy Sample.default_config
                   0%nat 1%nat 660 "youtube" Sample.w0))
  = w_trends Sample.w0
  /\ w_scripts (snd (MonetizationManager.ad_revenue_strategy Sample.default_config
                       0%nat 1%nat 660 "youtube" Sample.w0))
     = w_scripts Sample.w0
  /\ w_metadata (snd (MonetizationManager.ad_revenue_strategy Sample.default_config
                        0%nat 1%nat 660 "youtube" Sample.w0))
     = w_metadata Sample.w0
  /\ w_next (snd (MonetizationManager.ad_revenue_strategy Sample.default_config
                    0%nat 1%nat 660 "youtube" Sample.w0))
     = w_next Sample.w0
  /\ (forall v key, key <> "ad_breaks_timestamps_seconds" ->
        w_variants (snd (MonetizationManager.ad_revenue_strategy Sample.default_config
                           0%nat 1%nat 660 "youtube" Sample.w0)) v !! key
        = w_variants Sample.w0 v !! key)
  /\ (forall v, w_variants Sample.w0 v = ∅ ->
        w_variants (snd (MonetizationManager.ad_revenue_strategy Sample.default_config
                           0%nat 1%nat 660 "youtube" Sample.w0)) v = ∅).
Proof.
  apply (ad_revenue_writes_only_the_ad_breaks_key Sample.default_config 0%nat 1%nat 660
           "youtube" Sample.w0 (Ok tt)).
  vm_compute. reflexivity.
Defined.

(** X20. For a video shorter than 480 seconds the strategy returns and leaves
    the whole world, the random stream included, as it was. *)
Theorem short_video_changes_nothing cfg script_object modified_metadata
    video_duration_seconds target_platform w :
  video_duration_seconds < 480 ->
  MonetizationManager.ad_revenue_strategy cfg script_object modified_metadata
    video_duration_seconds target_platform w = (Ok tt, w).
Proof.
  intros Hd. unfold MonetizationManager.ad_revenue_strategy.
  destruct (dict_get (platform_ops cfg) target_platform) as [pc|];
    [destruct (p_ad_break_strategy pc) as [strategy|]|]; try reflexivity.
  destruct (p_monetization_enabled pc && negb (String.eqb strategy EmptyString));
    [|reflexivity].
  unfold bind, with_rng, Utilities.calculate_optimal_ad_breaks.
  replace (video_duration_seconds <? 60 * 8) with true
    by (symmetry; apply Z.ltb_lt; lia).
  unfold ret. destruct w; reflexivity.
Qed.

Lemma short_video_changes_nothing_witness :
  MonetizationManager.ad_revenue_strategy Sample.default_config 0%nat 1%nat 300
    "youtube" Sample.w0 = (Ok tt, Sample.w0).
Proof.
  apply (short_video_changes_nothing Sample.default_config 0%nat 1%nat 300 "youtube"
           Sample.w0).
  lia.
Defined.

(** X21. The copy of the metadata dict is shallow: when the ad-revenue strategy,
    run on the copy, changes a variant dict, that dict is one the original
    metadata dict lists, globally or under the target platform. *)
Theorem ad_breaks_are_written_into_a_shared_variant cfg script_object metadata_object
    video_duration_seconds target_platform w modified_metadata w1 r w2 :
  copy_metadata metadata_object w = (Ok modified_metadata, w1) ->
  MonetizationManager.ad_revenue_strategy cfg script_object modified_metadata
    video_duration_seconds target_platform w1 = (r, w2) ->
  forall v, w_variants w2 v <> w_variants w v ->
            variant_of w metadata_object target_platform v.
Proof.
  intros Hcopy Hrun v Hchanged.
  unfold copy_metadata in Hcopy. injection Hcopy as <- <-.
  apply ad_revenue_strategy_effect in Hrun as (_ & _ & _ & _ & Hv).
  cbn [w_variants] in Hv.
  destruct Hv as [Heq|(v0 & breaks & _ & Hfind & _ & Heq)].
  { rewrite Heq in Hchanged. contradiction. }
  assert (v = v0) as ->.
  { destruct (Nat.eq_dec v v0) as [E|E]; [exact E|].
    exfalso. apply Hchanged. rewrite Heq. now apply upd_other. }
  apply find_meta_variant_of in Hfind. unfold variant_of in *.
  cbn [w_metadata] in Hfind. rewrite upd_same in Hfind.
  destruct Hfind as [Hglobal|(d & vs & Hd & Hvs & Hin)]; [now left|].
  destruct (Nat.eq_dec d (w_next w)) as [->|Hne].
  - rewrite upd_same in Hvs. left. now exists vs.
  - rewrite upd_other in Hvs by exact Hne. right. now exists d, vs.
Qed.

Lemma ad_breaks_are_written_into_a_shared_variant_witness :
  variant_of Sample.w0 1%nat "youtube" 2%nat.
Proof.
  apply (ad_breaks_are_written_into_a_shared_variant Sample.default_config 0%nat 1%nat
           660 "youtube" Sample.w0 3%nat (snd (copy_metadata 1%nat Sample.w0)) (Ok tt)
           (snd (MonetizationManager.ad_revenue_strategy Sample.default_config
                   0%nat 3%nat 660 "youtube" (snd (copy_metadata 1%nat Sample.w0))))).
  - reflexivity.
  - vm_compute. reflexivity.
  - intros H.
    apply (f_equal (fun m : gmap string vval => m !! "ad_breaks_timestamps_seconds")) in H.
    vm_compute in H. discriminate H.
Defined.

(** ** Configuration validation and the credential lookup *)

Lemma nonempty_str_Some v s :
  AutoCreatorXConfig.nonempty_str v = Some s <-> v = Some s /\ s <> EmptyString.
Proof.
  unfold AutoCreatorXConfig.nonempty_str. destruct v as [s'|].
  - destruct (String.eqb s' EmptyString) eqn:E.
    + apply String.eqb_eq in E. subst s'. split; [discriminate|].
      intros [H Hne]. injection H as <-. contradiction.
    + apply String.eqb_neq in E. split.
      * intros H. injection H as <-. now split.
      * intros [H _]. exact H.
  - split; [discriminate|]. intros [H _]. discriminate H.
Qed.

Lemma in_list_In k l : in_list k l = true <-> In k l.
Proof.
  unfold in_list. rewrite existsb_exists. split.
  - intros (x & Hin & Heq). apply String.eqb_eq in Heq. now subst x.
  - intros Hin. exists k. split; [exact Hin | apply String.eqb_refl].
Qed.

Lemma dict_get_In {A} (d : list (string * A)) k a : dict_get d k = Some a -> In (k, a) d.
Proof.
  induction d as [|[k0 a0] d IH]; cbn [dict_get]; [discriminate|].
  destruct (String.eqb k0 k) eqn:E.
  - apply String.eqb_eq in E. subst k0. intros H. injection H as <-. now left.
  - intros H. right. now apply IH.
Qed.

Lemma check_platforms_passes secrets platforms log :
  fst (AutoCreatorXConfig.check_platforms secrets platforms log) = true <->
  forall platform_name platform_cfg,
    In (platform_name, platform_cfg) platforms ->
    AutoCreatorXConfig.enabled platform_cfg = true ->
    exists api_cred_id,
      AutoCreatorXConfig.api_credentials_id platform_cfg = Some api_cred_id
      /\ api_cred_id <> EmptyString
      /\ is_Some (secrets !! api_cred_id).
Proof.
  revert log. induction platforms as [|[name pc] rest IH]; intros log;
    cbn [AutoCreatorXConfig.check_platforms].
  - split; [intros _ ? ? [] | reflexivity].
  - destruct (AutoCreatorXConfig.enabled pc) eqn:Hen.
    + destruct (AutoCreatorXConfig.nonempty_str (AutoCreatorXConfig.api_credentials_id pc))
        as [id|] eqn:Hid.
      * pose proof Hid as Hid'. apply nonempty_str_Some in Hid' as [Hsome Hne].
        destruct (secrets !! id) as [secret|] eqn:Hs.
        { rewrite IH. split.
          - intros Hrest n p [Heq|Hin] Hen'; [|exact (Hrest n p Hin Hen')].
            injection Heq as <- <-. exists id. rewrite Hs. repeat split; eauto.
          - intros Hall n p Hin. apply (Hall n p). now right. }
        { cbn [fst]. split; [discriminate|]. intros Hall.
          destruct (Hall name pc (or_introl eq_refl) Hen) as (id' & Hid' & _ & [s Hs']).
          rewrite Hsome in Hid'. injection Hid' as <-. congruence. }
      * cbn [fst]. split; [discriminate|]. intros Hall.
        destruct (Hall name pc (or_introl eq_refl) Hen) as (id' & Hid' & Hne & _).
        assert (AutoCreatorXConfig.nonempty_str (AutoCreatorXConfig.api_credentials_id pc)
                = Some id') as Hn by (now apply nonempty_str_Some).
        congruence.
    + rewrite IH. split.
      * intros Hrest n p [Heq|Hin] Hen'; [|exact (Hrest n p Hin Hen')].
        injection Heq as <- <-. congruence.
      * intros Hall n p Hin. apply (Hall n p). now right.
Qed.

Lemma check_language_style_platforms_passes c log :
  fst (AutoCreatorXConfig.check_language_style_platforms c log) = true <->
  In (AutoCreatorXConfig.global_language c) (AutoCreatorXConfig.supported_languages c)
  /\ In (AutoCreatorXConfig.default_content_style c)
        (AutoCreatorXConfig.available_content_styles c)
  /\ (forall platform_name platform_cfg,
        In (platform_name, platform_cfg) (AutoCreatorXConfig.platform_ops c) ->
        AutoCreatorXConfig.enabled platform_cfg = true ->
        exists api_cred_id,
          AutoCreatorXConfig.api_credentials_id platform_cfg = Some api_cred_id
          /\ api_cred_id <> EmptyString
          /\ is_Some (AutoCreatorXConfig.secrets c !! api_cred_id)).
Proof.
  unfold AutoCreatorXConfig.check_language_style_platforms.
  rewrite <- (check_platforms_passes (AutoCreatorXConfig.secrets c)
                (AutoCreatorXConfig.platform_ops c) log).
  rewrite <- !in_list_In.
  destruct (in_list (AutoCreatorXConfig.global_language c) _); cbn [negb].
  2:{ cbn [fst]. split; [discriminate|]. intros [H _]. discriminate H. }
  destruct (in_list (AutoCreatorXConfig.default_content_style c) _); cbn [negb].
  2:{ cbn [fst]. split; [discriminate|]. intros (_ & H & _). discriminate H. }
  destruct (AutoCreatorXConfig.check_platforms _ _ log) as [[|] log']; cbn [fst].
  - split; [now intros _|reflexivity].
  - split; [discriminate|]. intros (_ & _ & H). discriminate H.
Qed.

Lemma validate_config_passes isdir c :
  fst (AutoCreatorXConfig.validate_config isdir c) = true <-> checks_pass c.
Proof.
  unfold AutoCreatorXConfig.validate_config, checks_pass.
  destruct (AutoCreatorXConfig.nonempty_str (AutoCreatorXConfig.project_base_dir c))
    as [base_dir|] eqn:Hbase.
  2:{ cbn [fst]. split; [discriminate|]. intros ((d & Hd & Hne) & _).
      assert (AutoCreatorXConfig.nonempty_str (AutoCreatorXConfig.project_base_dir c)
              = Some d) as Hn by (now apply nonempty_str_Some).
      congruence. }
  apply nonempty_str_Some in Hbase as [Hbase Hne].
  destruct (AutoCreatorXConfig.script_generation c) as [prompt|].
  - destruct (AutoCreatorXConfig.nonempty_str prompt) as [dir|] eqn:Hprompt.
    + apply nonempty_str_Some in Hprompt as [-> Hdir].
      rewrite check_language_style_platforms_passes. split.
      * intros H. split; [now exists base_dir|]. split; [|exact H].
        intros p Hp. injection Hp as <-. now exists dir.
      * intros (_ & _ & H). exact H.
    + cbn [fst]. split; [discriminate|]. intros (_ & Hp & _).
      destruct (Hp prompt eq_refl) as (dir & -> & Hdir).
      assert (AutoCreatorXConfig.nonempty_str (Some dir) = Some dir) as Hn
        by (now apply nonempty_str_Some).
      congruence.
  - rewrite check_language_style_platforms_passes. split.
    + intros H. split; [now exists base_dir|]. split; [|exact H]. discriminate.
    + intros (_ & _ & H). exact H.
Qed.

(** X22. [validate_config] returns [True] exactly when the base directory and,
    with script generation configured, the prompt templates directory are
    non-empty strings, the language is supported, the content style is
    available, and every enabled platform names a credential id that is a key
    of the secrets. *)
Theorem validate_config_passes_iff_checks_pass isdir c :
  fst (AutoCreatorXConfig.validate_config isdir c) = true <-> checks_pass c.
Proof. apply validate_config_passes. Qed.

(** X23. The result of the validation does not depend on the file system: a
    missing base directory or prompt templates directory is logged, and the
    validation goes on. *)
Theorem validation_ignores_the_file_system isdir isdir' c :
  fst (AutoCreatorXConfig.validate_config isdir c)
  = fst (AutoCreatorXConfig.validate_config isdir' c).
Proof.
  apply Bool.eq_iff_eq_true.
  rewrite (validate_config_passes isdir c), (validate_config_passes isdir' c).
  reflexivity.
Qed.

Lemma check_platforms_failure_logged secrets platforms log :
  fst (AutoCreatorXConfig.check_platforms secrets platforms log) = false ->
  exists before r,
    snd (AutoCreatorXConfig.check_platforms secrets platforms log) = before ++ [r]
    /\ AutoCreatorXConfig.level_of r = AutoCreatorXConfig.ERROR.
Proof.
  revert log. induction platforms as [|[name pc] rest IH]; intros log;
    cbn [AutoCreatorXConfig.check_platforms]; [discriminate|].
  destruct (AutoCreatorXConfig.enabled pc); [|apply IH].
  destruct (AutoCreatorXConfig.nonempty_str _) as [id|].
  - destruct (secrets !! id) as [secret|]; [apply IH|].
    intros _. cbn [snd]. now eexists _, _.
  - intros _. cbn [snd]. now eexists _, _.
Qed.

Lemma check_language_style_platforms_logged c log :
  if fst (AutoCreatorXConfig.check_language_style_platforms c log)
  then exists before,
         snd (AutoCreatorXConfig.check_language_style_platforms c log)
         = before ++ [AutoCreatorXConfig.ValidationCompleted]
  else exists before r,
         snd (AutoCreatorXConfig.check_language_style_platforms c log) = before ++ [r]
         /\ AutoCreatorXConfig.level_of r = AutoCreatorXConfig.ERROR.
Proof.
  unfold AutoCreatorXConfig.check_language_style_platforms.
  destruct (in_list (AutoCreatorXConfig.global_language c) _); cbn [negb].
  2:{ cbn [fst snd]. now eexists _, _. }
  destruct (in_list (AutoCreatorXConfig.default_content_style c) _); cbn [negb].
  2:{ cbn [fst snd]. now eexists _, _. }
  pose proof (check_platforms_failure_logged (AutoCreatorXConfig.secrets c)
                (AutoCreatorXConfig.platform_ops c) log) as Hfail.
  destruct (AutoCreatorXConfig.check_platforms _ _ log) as [[|] log']; cbn [fst snd] in *.
  - now eexists.
  - now apply Hfail.
Qed.

(** X24. A validation that passes logs "completed" last; one that fails logs the
    error that made it fail last. *)
Theorem validation_result_is_logged_last isdir c :
  if fst (AutoCreatorXConfig.validate_config isdir c)
  then exists before,
         snd (AutoCreatorXConfig.validate_config isdir c)
         = before ++ [AutoCreatorXConfig.ValidationCompleted]
  else exists before r,
         snd (AutoCreatorXConfig.validate_config isdir c) = before ++ [r]
         /\ AutoCreatorXConfig.level_of r = AutoCreatorXConfig.ERROR.
Proof.
  unfold AutoCreatorXConfig.validate_config.
  destruct (AutoCreatorXConfig.nonempty_str (AutoCreatorXConfig.project_base_dir c))
    as [base_dir|].
  2:{ cbn [fst snd]. exists [], AutoCreatorXConfig.BaseDirNotAString. now split. }
  destruct (AutoCreatorXConfig.script_generation c) as [prompt|];
    [|apply check_language_style_platforms_logged].
  destruct (AutoCreatorXConfig.nonempty_str prompt) as [dir|];
    [apply check_language_style_platforms_logged|].
  cbn [fst snd]. now eexists _, _.
Qed.

Lemma get_active_account_credential_cases c platform_name g :
  fst (AntiDetection.get_active_account_credential c platform_name g)
  = AntiDetection.primary_credential c platform_name
  \/ AutoCreatorXConfig.account_cycling_enabled c = true
     /\ AutoCreatorXConfig.secrets c
        !! (AntiDetection.upper platform_name +:+ "_API_ALT_ACCOUNT")
        = Some (fst (AntiDetection.get_active_account_credential c platform_name g))
     /\ PyStr.contains "env_placeholder_"
          (fst (AntiDetection.get_active_account_credential c platform_name g))
        = false.
Proof.
  unfold AntiDetection.get_active_account_credential.
  destruct (AutoCreatorXConfig.account_cycling_enabled c); cbn [andb];
    [|left; reflexivity].
  destruct (bool_decide _); [|left; reflexivity].
  destruct (AutoCreatorXConfig.secrets c
            !! (AntiDetection.upper platform_name +:+ "_API_ALT_ACCOUNT"))
    as [alt|]; [|left; reflexivity].
  destruct (AntiDetection.choice_true_false g) as [chosen g'].
  destruct (chosen && negb (PyStr.contains "env_placeholder_" alt)) eqn:Hpick;
    cbn [fst]; [|left; reflexivity].
  right. apply andb_true_iff in Hpick as [_ Hpl]. apply negb_true_iff in Hpl.
  now repeat split.
Qed.

(** X25. After a validation that passed, the credential lookup for an enabled
    platform finds the credential id and the secret: it returns the secret,
    or, when the secret is the empty string, the text
    "ERROR_CREDENTIAL_NOT_FOUND_FOR_..."; with account cycling it may
    instead return the alternative secret of the platform, when that is not
    a placeholder. *)
Theorem validated_platform_credential isdir c platform_name platform_cfg g :
  fst (AutoCreatorXConfig.validate_config isdir c) = true ->
  dict_get (AutoCreatorXConfig.platform_ops c) platform_name = Some platform_cfg ->
  AutoCreatorXConfig.enabled platform_cfg = true ->
  exists api_cred_id secret,
    AutoCreatorXConfig.api_credentials_id platform_cfg = Some api_cred_id
    /\ AutoCreatorXConfig.secrets c !! api_cred_id = Some secret
    /\ (fst (AntiDetection.get_active_account_credential c platform_name g) = secret
        /\ secret <> EmptyString
        \/ fst (AntiDetection.get_active_account_credential c platform_name g)
           = "ERROR_CREDENTIAL_NOT_FOUND_FOR_" +:+ AntiDetection.upper api_cred_id
           /\ secret = EmptyString
        \/ AutoCreatorXConfig.account_cycling_enabled c = true
           /\ AutoCreatorXConfig.secrets c
              !! (AntiDetection.upper platform_name +:+ "_API_ALT_ACCOUNT")
              = Some (fst (AntiDetection.get_active_account_credential c platform_name g))
           /\ PyStr.contains "env_placeholder_"
                (fst (AntiDetection.get_active_account_credential c platform_name g))
              = false).
Proof.
  intros Hvalid Hget Hen.
  apply validate_config_passes in Hvalid as (_ & _ & _ & _ & Hplatforms).
  destruct (Hplatforms platform_name platform_cfg (dict_get_In _ _ _ Hget) Hen)
    as (id & Hid & Hne & [secret Hsecret]).
  exists id, secret. split; [exact Hid|]. split; [exact Hsecret|].
  assert (AntiDetection.primary_credential c platform_name = secret
          /\ secret <> EmptyString
          \/ AntiDetection.primary_credential c platform_name
             = "ERROR_CREDENTIAL_NOT_FOUND_FOR_" +:+ AntiDetection.upper id
             /\ secret = EmptyString) as Hprimary.
  { unfold AntiDetection.primary_credential. rewrite Hget, Hid.
    rewrite (proj2 (nonempty_str_Some (Some id) id) (conj eq_refl Hne)).
    rewrite Hsecret. unfold AutoCreatorXConfig.nonempty_str.
    destruct (String.eqb secret EmptyString) eqn:E.
    - apply String.eqb_eq in E. now right.
    - apply String.eqb_neq in E. now left. }
  destruct (get_active_account_credential_cases c platform_name g) as [->|Halt].
  - destruct Hprimary as [H|H]; [now left | right; now left].
  - right. right. exact Halt.
Qed.

Lemma validated_platform_credential_witness :
  exists api_cred_id secret,
    AutoCreatorXConfig.api_credentials_id
      {| AutoCreatorXConfig.enabled := true;
         AutoCreatorXConfig.api_credentials_id := Some "YOUTUBE_API_PRIMARY_ACCOUNT" |}
    = Some api_cred_id
    /\ AutoCreatorXConfig.secrets default_settings !! api_cred_id = Some secret
    /\ (fst (AntiDetection.get_active_account_credential default_settings "youtube"
               Sample.a_stream) = secret
        /\ secret <> EmptyString
        \/ fst (AntiDetection.get_active_account_credential default_settings "youtube"
                  Sample.a_stream)
           = "ERROR_CREDENTIAL_NOT_FOUND_FOR_" +:+ AntiDetection.upper api_cred_id
           /\ secret = EmptyString
        \/ AutoCreatorXConfig.account_cycling_enabled default_settings = true
           /\ AutoCreatorXConfig.secrets default_settings
              !! (AntiDetection.upper "youtube" +:+ "_API_ALT_ACCOUNT")
              = Some (fst (AntiDetection.get_active_account_credential default_settings
                             "youtube" Sample.a_stream))
           /\ PyStr.contains "env_placeholder_"
                (fst (AntiDetection.get_active_account_credential default_settings
                        "youtube" Sample.a_stream))
              = false).
Proof.
  apply (validated_platform_credential no_directories default_settings "youtube"
           {| AutoCreatorXConfig.enabled := true;
              AutoCreatorXConfig.api_credentials_id := Some "YOUTUBE_API_PRIMARY_ACCOUNT" |}
           Sample.a_stream).
  - vm_compute. reflexivity.
  - reflexivity.
  - reflexivity.
Defined.

(** ** Topic selection: the bound on attempts and the selected trend *)

Lemma handle_step_error_attempts step_name error attempt max_retries delay strategy w r w' :
  ErrorHandling.handle_step_error step_name error attempt max_retries delay strategy w
  = (r, w') ->
  attempts_in (w_trace w') = attempts_in (w_trace w).
Proof.
  unfold ErrorHandling.handle_step_error, bind, sleep, throw, log_event, ret.
  destruct (_ <? max_retries); [destruct (_ || _); [|destruct (_ <? 0)]|];
    intros H; injection H as _ <-; cbn [w_trace]; rewrite ?attempts_in_app;
    cbn; lia.
Qed.

Lemma extend_with_quiet all_potential_trends trends_from_source w :
  exists out w',
    IntelligenceCore.extend_with all_potential_trends trends_from_source w = (Ok out, w')
    /\ w_trace w' = w_trace w.
Proof.
  revert all_potential_trends w.
  induction trends_from_source as [|t ts IH]; intros all_potential_trends w;
    cbn [IntelligenceCore.extend_with].
  - now exists all_potential_trends, w.
  - unfold bind, alloc_trend.
    destruct (IH (all_potential_trends ++ [w_next w])
                {| w_rng := w_rng w; w_trends := upd (w_trends w) (w_next w) t;
                   w_scripts := w_scripts w; w_metadata := w_metadata w;
                   w_variants := w_variants w; w_next := S (w_next w);
                   w_trace := w_trace w |}) as (out & w' & Hrun & Htrace).
    exists out, w'. split; [exact Hrun | exact Htrace].
Qed.

Lemma retry_loop_attempts_from fuel cfg ext source_api_name attempt all w r w' :
  (forall a w0 r0 w1,
     fetch_trends ext source_api_name a w0 = (r0, w1) -> w_trace w1 = w_trace w0) ->
  IntelligenceCore.retry_loop fuel cfg ext source_api_name attempt all w = (r, w') ->
  (attempts_in (w_trace w')
   <= attempts_in (w_trace w) + Z.to_nat (max_step_retries cfg - Zpos attempt + 1))%nat.
Proof.
  intros Hquiet. revert attempt w.
  induction fuel as [|fuel IH]; intros attempt w H.
  - injection H as _ <-. lia.
  - cbn [IntelligenceCore.retry_loop] in H.
    destruct (Zpos attempt <=? max_step_retries cfg) eqn:Hle.
    2:{ injection H as _ <-. lia. }
    apply Z.leb_le in Hle.
    unfold bind at 1 in H. rewrite log_event_logged in H. unfold bind at 1 in H.
    destruct (fetch_trends ext source_api_name attempt
                (logged (EvAttempt source_api_name attempt) w))
      as [[ts|e] w1] eqn:Hfetch.
    + apply Hquiet in Hfetch.
      destruct (extend_with_quiet all ts w1) as (out & w2 & Hext & Htrace).
      rewrite Hext in H. injection H as _ <-.
      rewrite Htrace, Hfetch. unfold logged, log_event. cbn [snd w_trace].
      rewrite attempts_in_app. cbn. lia.
    + apply Hquiet in Hfetch.
      assert (attempts_in (w_trace w1) = S (attempts_in (w_trace w))) as Hone.
      { rewrite Hfetch. unfold logged, log_event. cbn [snd w_trace].
        rewrite attempts_in_app. cbn. lia. }
      unfold bind at 1 in H. unfold IntelligenceCore.failback_strategy_of in H.
      destruct (failback_mechanisms cfg !! "trend_analysis") as [strategy|].
      2:{ injection H as _ <-. lia. }
      unfold ret at 1 in H. unfold bind at 1 in H.
      destruct (ErrorHandling.handle_step_error _ e attempt _ _ _ w1)
        as [[again|e'] w2] eqn:Hstep.
      2:{ injection H as _ <-.
          rewrite (handle_step_error_attempts _ _ _ _ _ _ _ _ _ Hstep). lia. }
      pose proof (handle_step_error_attempts _ _ _ _ _ _ _ _ _ Hstep) as Hsame.
      destruct again.
      * assert (Zpos attempt < max_step_retries cfg) as Hlt.
        { revert Hstep. unfold ErrorHandling.handle_step_error.
          destruct (Zpos attempt <? max_step_retries cfg) eqn:E;
            [intros _; now apply Z.ltb_lt in E|].
          unfold bind, log_event, ret. intros Hstep. discriminate Hstep. }
        apply IH in H. rewrite Pos2Z.inj_succ in H. lia.
      * injection H as _ <-. lia.
Qed.

(** X26. However a trend source behaves, as long as it does not write to the log
    itself, the retry loop makes at most [max_step_retries] attempts on it. *)
Theorem attempts_never_exceed_max_step_retries cfg ext source_api_name all w r w' :
  (forall a w0 r0 w1,
     fetch_trends ext source_api_name a w0 = (r0, w1) -> w_trace w1 = w_trace w0) ->
  IntelligenceCore.retry_loop (Z.to_nat (max_step_retries cfg)) cfg ext source_api_name
    1%positive all w = (r, w') ->
  (attempts_in (w_trace w')
   <= attempts_in (w_trace w) + Z.to_nat (max_step_retries cfg))%nat.
Proof.
  intros Hquiet H.
  apply (retry_loop_attempts_from _ _ _ _ _ _ _ _ _ Hquiet) in H.
  replace (max_step_retries cfg - 1 + 1) with (max_step_retries cfg) in H by lia.
  exact H.
Qed.

Lemma attempts_never_exceed_max_step_retries_witness :
  (attempts_in
     (w_trace (snd (IntelligenceCore.retry_loop
                      (Z.to_nat (max_step_retries Sample.default_config))
                      Sample.default_config Sample.sources_failing "Google_Trends_API"
                      1%positive [] Sample.w0)))
   <= attempts_in (w_trace Sample.w0)
      + Z.to_nat (max_step_retries Sample.default_config))%nat.
Proof.
  apply (attempts_never_exceed_max_step_retries Sample.default_config
           Sample.sources_failing "Google_Trends_API" [] Sample.w0
           (fst (IntelligenceCore.retry_loop
                   (Z.to_nat (max_step_retries Sample.default_config))
                   Sample.default_config Sample.sources_failing "Google_Trends_API"
                   1%positive [] Sample.w0))).
  - intros a w0 r0 w1 H. simpl in H. injection H as _ <-. reflexivity.
  - vm_compute. reflexivity.
Defined.

(** X27. A topic selected from the trend sources is a trend that passed the three
    tests of the filter and carries the keys the scorer writes. *)
Theorem selected_trend_passed_the_filter cfg ext w l w' :
  IntelligenceCore.analyze_trends_and_select_topic cfg ext w
  = (Ok (Some (SelectedTrend l)), w') ->
  passes_filters (trend_analysis cfg) (w_trends w' l) = true
  /\ scored (trend_analysis cfg) (w_trends w' l).
Proof.
  unfold IntelligenceCore.analyze_trends_and_select_topic.
  destruct (ta_enabled (trend_analysis cfg)); cbn [negb]; [|discriminate].
  intros H. apply bind_ok_inv in H as (all & w1 & _ & H).
  destruct all as [|a all].
  { apply bind_ok_inv in H as (strategy & w2 & _ & H).
    destruct (PyStr.contains _ strategy); discriminate H. }
  apply bind_ok_inv in H as (viable & w2 & Hfilter & H).
  destruct viable as [|first others]; [discriminate H|].
  injection H as <- <-.
  pose proof (max_by_score_in w2 first others) as Hin.
  apply filter_loop_effects in Hfilter as (kept & Hout & Hkept & _ & Hkeys & Hscored & _).
  cbn [app] in Hout. subst kept. split; [|now apply Hscored].
  rewrite (same_source_keys_passes _ _ _ (Hkeys _)).
  rewrite Hkept in Hin. apply List.filter_In in Hin as [_ Hpass]. exact Hpass.
Qed.

Lemma selected_trend_passed_the_filter_witness :
  passes_filters (trend_analysis Sample.default_config)
    (w_trends (snd (IntelligenceCore.analyze_trends_and_select_topic
                      Sample.default_config (Sample.succeeding "Future Tech rising" 90)
                      Sample.w0)) 3%nat) = true
  /\ scored (trend_analysis Sample.default_config)
       (w_trends (snd (IntelligenceCore.analyze_trends_and_select_topic
                         Sample.default_config (Sample.succeeding "Future Tech rising" 90)
                         Sample.w0)) 3%nat).
Proof.
  apply (selected_trend_passed_the_filter Sample.default_config
           (Sample.succeeding "Future Tech rising" 90) Sample.w0 3%nat).
  vm_compute. reflexivity.
Defined.

(** ** The orchestrator: a failure before the first step *)

(** X28. When the project directories cannot be created, the cycle returns
    [False] at once: the exception is swallowed, a critical record with the
    text of the exception is logged, and no step is run. *)
Theorem failed_directory_creation_ends_the_cycle cfg ext w e w1 :
  create_project_directories ext w = (Raise e, w1) ->
  AutoCreatorXOrchestrator.run_full_cycle cfg ext w
  = (Ok false,
     logged (EvCritical ("Failed to create project directories. Cycle cannot continue: "
                         +:+ PlatformOperations.exn_text e)) w1).
Proof.
  intros H. unfold AutoCreatorXOrchestrator.run_full_cycle.
  unfold bind at 1. unfold try_except. unfold bind at 1. rewrite H.
  unfold bind at 1. rewrite log_event_logged. reflexivity.
Qed.

Lemma failed_directory_creation_ends_the_cycle_witness :
  AutoCreatorXOrchestrator.run_full_cycle Sample.default_config directories_failing
    Sample.w0
  = (Ok false,
     logged (EvCritical ("Failed to create project directories. Cycle cannot continue: "
                         +:+ PlatformOperations.exn_text
                               (ExternalError
                                  "[Errno 13] Permission denied: './autocreatorx_projects/'")))
       Sample.w0).
Proof.
  apply (failed_directory_creation_ends_the_cycle Sample.default_config
           directories_failing Sample.w0
           (ExternalError "[Errno 13] Permission denied: './autocreatorx_projects/'")
           Sample.w0).
  reflexivity.
Defined.
